(** * Stratify: comparison, optimization, parsing and progress tracking

    A shallow embedding of the TypeScript services of the G-code analyzer
    ([comparisonService.ts], [optimizationService.ts], [analysisService.ts]
    and [shared/utils/index.ts]) together with the properties that the
    design document states about them.

    Conventions of the embedding.
    - A JavaScript [number] is an exact rational extended with [Infinity],
      [-Infinity] and [NaN]; rounding of binary floating point and the sign
      of zero are not tracked.
    - [x?: T] is [option T]; optional chaining [a?.b] is the bind of
      [option].
    - A JavaScript string is a [string] of 8-bit characters.
    - A template literal is kept as the list of its pieces, so that the
      interpolated numbers stay visible. *)

From Stdlib Require Import ZArith QArith Qround Lia Lqa List String Ascii Bool.
From Stdlib Require Import Sorting.Permutation Sorting.Sorted.
From stdpp Require Import gmap strings list.

Open Scope Z_scope.

(** ** JavaScript values *)

Module JS.

Inductive number : Type :=
| Num (q : Q)
| PosInfinity
| NegInfinity
| NaN.

(** Three-way comparison; [None] when an operand is [NaN]. *)
Definition compare (a b : number) : option comparison :=
  match a, b with
  | NaN, _ | _, NaN => None
  | Num x, Num y => Some (x ?= y)%Q
  | NegInfinity, NegInfinity => Some Eq
  | PosInfinity, PosInfinity => Some Eq
  | NegInfinity, _ => Some Lt
  | _, NegInfinity => Some Gt
  | PosInfinity, _ => Some Gt
  | _, PosInfinity => Some Lt
  end.

(** [a < b], [a <= b], [a > b], [a >= b] and [a === b]. *)
Definition lt (a b : number) : bool :=
  match compare a b with Some Lt => true | _ => false end.
Definition le (a b : number) : bool :=
  match compare a b with Some Lt | Some Eq => true | _ => false end.
Definition gt (a b : number) : bool := lt b a.
Definition ge (a b : number) : bool := le b a.
Definition strict_eq (a b : number) : bool :=
  match compare a b with Some Eq => true | _ => false end.

(** Sign of a rational, used by the rules for infinities. *)
Definition sgn (q : Q) : comparison := (q ?= 0)%Q.

Definition neg (a : number) : number :=
  match a with
  | Num q => Num (- q)
  | PosInfinity => NegInfinity
  | NegInfinity => PosInfinity
  | NaN => NaN
  end.

Definition add (a b : number) : number :=
  match a, b with
  | NaN, _ | _, NaN => NaN
  | Num x, Num y => Num (x + y)
  | PosInfinity, NegInfinity | NegInfinity, PosInfinity => NaN
  | PosInfinity, _ | _, PosInfinity => PosInfinity
  | NegInfinity, _ | _, NegInfinity => NegInfinity
  end.

Definition sub (a b : number) : number := add a (neg b).

Definition signed_inf (c : comparison) : number :=
  match c with Gt => PosInfinity | Lt => NegInfinity | Eq => NaN end.

Definition mul (a b : number) : number :=
  match a, b with
  | NaN, _ | _, NaN => NaN
  | Num x, Num y => Num (x * y)
  | PosInfinity, Num y | Num y, PosInfinity => signed_inf (sgn y)
  | NegInfinity, Num y | Num y, NegInfinity => signed_inf (CompOpp (sgn y))
  | PosInfinity, PosInfinity | NegInfinity, NegInfinity => PosInfinity
  | PosInfinity, NegInfinity | NegInfinity, PosInfinity => NegInfinity
  end.

(** Division: a finite non-zero dividend over zero is an infinity, zero
    over zero is [NaN]. *)
Definition div (a b : number) : number :=
  match a, b with
  | NaN, _ | _, NaN => NaN
  | Num x, Num y =>
      if Qeq_bool y 0 then signed_inf (sgn x) else Num (x / y)
  | Num _, _ => Num 0
  | PosInfinity, Num y =>
      match sgn y with Lt => NegInfinity | _ => PosInfinity end
  | NegInfinity, Num y =>
      match sgn y with Lt => PosInfinity | _ => NegInfinity end
  | _, _ => NaN
  end.

(** [ToBoolean] on a number: [0] and [NaN] are falsy. *)
Definition truthy (a : number) : bool :=
  match a with
  | Num q => negb (Qeq_bool q 0)
  | NaN => false
  | _ => true
  end.

(** [x || d] for an optional number [x]. *)
Definition or_default (x : option number) (d : number) : number :=
  match x with
  | Some v => if truthy v then v else d
  | None => d
  end.

(** The condition [x && p(x)] for an optional number [x]. *)
Definition and_then (x : option number) (p : number -> bool) : bool :=
  match x with
  | Some v => truthy v && p v
  | None => false
  end.

(** Optional chaining [a?.f]. *)
Definition chain {A B : Type} (a : option A) (f : A -> option B) : option B :=
  match a with
  | Some v => f v
  | None => None
  end.

(** The condition [b] for an optional boolean ([undefined] is falsy). *)
Definition flag (b : option bool) : bool :=
  match b with Some true => true | _ => false end.

Definition min2 (acc x : number) : number :=
  match acc, x with
  | NaN, _ | _, NaN => NaN
  | _, _ => if lt x acc then x else acc
  end.

Definition max2 (acc x : number) : number :=
  match acc, x with
  | NaN, _ | _, NaN => NaN
  | _, _ => if lt acc x then x else acc
  end.

(** [Math.min(...xs)] and [Math.max(...xs)]. *)
Definition mathMin (xs : list number) : number := fold_left min2 xs PosInfinity.
Definition mathMax (xs : list number) : number := fold_left max2 xs NegInfinity.

Fixpoint indexOf_from (xs : list number) (v : number) (i : Z) : Z :=
  match xs with
  | [] => -1
  | x :: xs' => if strict_eq x v then i else indexOf_from xs' v (i + 1)
  end.

(** [xs.indexOf(v)]: the first index holding a value [=== v], or [-1]. *)
Definition indexOf (xs : list number) (v : number) : Z := indexOf_from xs v 0.

(** [Math.floor]. *)
Definition floor (a : number) : number :=
  match a with
  | Num q => Num (inject_Z (Qfloor q))
  | _ => a
  end.

(** The remainder operator [%] (the result takes the sign of the dividend). *)
Definition rem (a b : number) : number :=
  match a, b with
  | Num x, Num y =>
      if Qeq_bool y 0 then NaN
      else Num (x - y * inject_Z (Z.quot (Qnum (x / y)) (Zpos (Qden (x / y)))))
  | Num x, (PosInfinity | NegInfinity) => Num x
  | _, _ => NaN
  end.

(** Pieces of a template literal. *)
Inductive piece : Type :=
| Lit (s : string)
| Interp (n : number)
| ToFixed (n : number) (digits : nat)
| InterpStr (s : option string).

Definition template : Type := list piece.

(** Equality of numbers as values: rationals are compared by [Qeq]. *)
Definition same (a b : number) : Prop :=
  match a, b with
  | Num x, Num y => (x == y)%Q
  | PosInfinity, PosInfinity | NegInfinity, NegInfinity | NaN, NaN => True
  | _, _ => False
  end.

End JS.

Import JS.

Notation "a ?. f" := (chain a f) (at level 25, left associativity).

(** ** Shared types ([types/shared.ts]) *)

Module SpeedProfile.
Record t : Type := {
  avg : number;
  min : number;
  max : number;
}.
End SpeedProfile.

Record LayerAnalysis : Type := {
  z_height : number;
  thickness : number;
  extrusion_moves : number;
  travel_moves : number;
  extrusion_distance : number;
  travel_distance : number;
  extrusion_volume : number;
  print_time : number;
  speed_profile : option SpeedProfile.t;
}.

Record SlicerProfile : Type := {
  slicer_name : option string;
  version : option string;
  layer_height : option number;
  first_layer_height : option number;
  nozzle_diameter : option number;
  extrusion_width : option number;
  print_speed : option number;
  travel_speed : option number;
  retraction_distance : option number;
  retraction_speed : option number;
  temperature_nozzle : option number;
  temperature_bed : option number;
  infill_density : option number;
  infill_pattern : option string;
  support_enabled : option bool;
  wall_count : option number;
  top_layers : option number;
  bottom_layers : option number;
}.

Record ExtrusionStats : Type := {
  total_filament : option number;
  estimated_weight : option number;
}.

Record PatternDetection : Type := {
  support_detected : option bool;
  bridging_detected : option bool;
}.

Record GeometryAnalysis : Type := {
  time_estimate : option number;
  extrusion_stats : option ExtrusionStats;
  pattern_detection : option PatternDetection;
}.

Inductive Category : Type := Speed | Material | Quality | Safety.
Inductive Impact : Type := High | Medium | Low.

Record OptimizationSuggestion : Type := {
  category : Category;
  title : string;
  description : template;
  impact : Impact;
  time_saving : option template;
  material_saving : option template;
  implementation : option string;
  potential_issues : option (list string);
}.

Inductive Status : Type := processing | complete | error.

(** [metadata: Record<string, any>] is never read by the services and is
    left out. *)
Record AnalysisResult : Type := {
  id : string;
  filepath : string;
  timestamp : number;
  profile : option SlicerProfile;
  geometry : option GeometryAnalysis;
  layers : list LayerAnalysis;
  suggestions : list OptimizationSuggestion;
  status : Status;
  error_message : option string;
}.

Record WinnerMetric : Type := {
  values : list number;
  winner : Z;
  difference : number;
}.

Record TextMetric : Type := {
  text_values : list number;
  comparison : template;
}.

Record Metrics : Type := {
  m_print_time : option WinnerMetric;
  m_material_usage : option WinnerMetric;
  m_layer_count : option TextMetric;
  m_quality_score : option WinnerMetric;
}.

Record ComparisonResult : Type := {
  files : list string;
  metrics : Metrics;
  recommendations : list template;
  summary : template;
}.

Record AnalysisOptions : Type := {
  detailed : bool;
  inferParameters : bool;
  generateSuggestions : bool;
  compareWithBaseline : option string;
}.

(** A thrown [Error] and the outcome of a call that may throw. *)
Record Error : Type := { message : string }.

Inductive result (A : Type) : Type :=
| Ok (a : A)
| Throw (e : Error).
Arguments Ok {A} a.
Arguments Throw {A} e.

Definition bind {A B : Type} (r : result A) (k : A -> result B) : result B :=
  match r with
  | Ok a => k a
  | Throw e => Throw e
  end.

(** The double-quote character, as a one-character string. *)
Definition dquote : string := String (ascii_of_nat 34) EmptyString.

(** ** [path.basename] (POSIX) *)

Module Path.

Definition slash : ascii := "/"%char.

Fixpoint basename_aux (s : string) : string * bool :=
  match s with
  | EmptyString => (EmptyString, false)
  | String c s' =>
      let '(b, seen) := basename_aux s' in
      if seen then (b, true)
      else if Ascii.eqb c slash then
             match b with
             | EmptyString => (EmptyString, false)
             | _ => (b, true)
             end
           else (String c b, false)
  end.

(** The last component of a path; trailing slashes are ignored. *)
Definition basename (s : string) : string := fst (basename_aux s).

End Path.

(** ** [comparisonService.ts] *)

Module ComparisonService.

Definition includes (xs : list string) (x : string) : bool :=
  existsb (String.eqb x) xs.

(** [calculateQualityScore] *)
Definition calculateQualityScore (analysis : AnalysisResult) : number :=
  let score := Num 100 in
  let score :=
    if and_then (profile analysis ?. layer_height) (fun h => gt h (Num 0.3))
    then sub score (Num 10) else score in
  let score :=
    if and_then (profile analysis ?. infill_density) (fun d => lt d (Num 10))
    then sub score (Num 15) else score in
  let score :=
    if flag (geometry analysis ?. pattern_detection ?. support_detected)
    then sub score (Num 5) else score in
  let score :=
    if flag (geometry analysis ?. pattern_detection ?. bridging_detected)
    then sub score (Num 10) else score in
  let score :=
    if and_then (profile analysis ?. layer_height)
         (fun h => ge h (Num 0.15) && le h (Num 0.25))
    then add score (Num 5) else score in
  mathMax [Num 0; mathMin [Num 100; score]].

(** [compareLayerCounts] *)
Definition compareLayerCounts (layerCounts : list number) : template :=
  let min := mathMin layerCounts in
  let max := mathMax layerCounts in
  if strict_eq min max then [Lit "All files have the same number of layers"]
  else
    let difference := sub max min in
    let percentDiff := mul (div difference min) (Num 100) in
    if gt percentDiff (Num 50) then
      [Lit "Significant layer count variation ("; Interp difference;
       Lit " layers difference)"]
    else if gt percentDiff (Num 20) then
      [Lit "Moderate layer count variation ("; Interp difference;
       Lit " layers difference)"]
    else
      [Lit "Minor layer count variation ("; Interp difference;
       Lit " layers difference)"].

(** [xs[i]] for a JavaScript index: [undefined] outside the array. *)
Definition at_index {A : Type} (xs : list A) (i : Z) : option A :=
  if i <? 0 then None else xs !! Z.to_nat i.

Definition printTimeMetric (analyses : list AnalysisResult) : WinnerMetric :=
  let printTimes :=
    map (fun a => or_default (geometry a ?. time_estimate) (Num 0)) analyses in
  let minIndex := indexOf printTimes (mathMin printTimes) in
  {| values := printTimes;
     winner := minIndex;
     difference :=
       if (1 <? Z.of_nat (length printTimes)) then
         mul (div (sub (mathMax printTimes) (mathMin printTimes))
                  (mathMin printTimes)) (Num 100)
       else Num 0 |}.

Definition materialMetric (analyses : list AnalysisResult) : WinnerMetric :=
  let materialUsage :=
    map (fun a =>
           or_default (geometry a ?. extrusion_stats ?. total_filament) (Num 0))
        analyses in
  let minIndex := indexOf materialUsage (mathMin materialUsage) in
  {| values := materialUsage;
     winner := minIndex;
     difference :=
       if (1 <? Z.of_nat (length materialUsage)) then
         mul (div (sub (mathMax materialUsage) (mathMin materialUsage))
                  (mathMin materialUsage)) (Num 100)
       else Num 0 |}.

Definition layerMetric (analyses : list AnalysisResult) : TextMetric :=
  let layerCounts :=
    map (fun a => Num (inject_Z (Z.of_nat (length (layers a))))) analyses in
  {| text_values := layerCounts;
     comparison := compareLayerCounts layerCounts |}.

Definition qualityMetric (analyses : list AnalysisResult) : WinnerMetric :=
  let qualityScores := map calculateQualityScore analyses in
  let maxIndex := indexOf qualityScores (mathMax qualityScores) in
  {| values := qualityScores;
     winner := maxIndex;
     difference :=
       if (1 <? Z.of_nat (length qualityScores)) then
         mul (div (sub (mathMax qualityScores) (mathMin qualityScores))
                  (mathMax qualityScores)) (Num 100)
       else Num 0 |}.

(** [generateRecommendations] *)
Definition generateRecommendations (analyses : list AnalysisResult)
    (files : list string) (metrics : Metrics) : list template :=
  let recommendations : list template := [] in
  let recommendations :=
    match m_print_time metrics with
    | Some m =>
        let fastestFile := at_index files (winner m) in
        let timeSaving := difference m in
        if gt timeSaving (Num 20) then
          recommendations ++
          [[Lit "Consider using settings from "; Lit dquote;
            InterpStr fastestFile; Lit dquote;
            Lit " for "; ToFixed timeSaving 1; Lit "% faster printing"]]
        else recommendations
    | None => recommendations
    end in
  let recommendations :=
    match m_material_usage metrics with
    | Some m =>
        let efficientFile := at_index files (winner m) in
        let materialSaving := difference m in
        if gt materialSaving (Num 15) then
          recommendations ++
          [[Lit "Settings from "; Lit dquote; InterpStr efficientFile;
            Lit dquote; Lit " use ";
            ToFixed materialSaving 1; Lit "% less material"]]
        else recommendations
    | None => recommendations
    end in
  let recommendations :=
    match m_quality_score metrics with
    | Some m =>
        let qualityFile := at_index files (winner m) in
        recommendations ++
        [[Lit dquote; InterpStr qualityFile; Lit dquote;
          Lit " has the highest predicted quality score"]]
    | None => recommendations
    end in
  let layerHeights :=
    omap (fun a => match profile a ?. layer_height with
                   | Some h => if truthy h then Some h else None
                   | None => None
                   end) analyses in
  let recommendations :=
    if (0 <? Z.of_nat (length layerHeights)) then
      let avgLayerHeight :=
        div (fold_left add layerHeights (Num 0))
            (Num (inject_Z (Z.of_nat (length layerHeights)))) in
      if gt avgLayerHeight (Num 0.25) then
        recommendations ++
        [[Lit "Consider reducing layer height for better surface quality"]]
      else if lt avgLayerHeight (Num 0.15) then
        recommendations ++
        [[Lit "Consider increasing layer height for faster printing"]]
      else recommendations
    else recommendations in
  let infillDensities := omap (fun a => profile a ?. infill_density) analyses in
  let recommendations :=
    if (0 <? Z.of_nat (length infillDensities)) then
      let maxInfill := mathMax infillDensities in
      let minInfill := mathMin infillDensities in
      if gt (sub maxInfill minInfill) (Num 30) then
        recommendations ++
        [[Lit "Large infill density variation detected - consider standardizing for consistent results"]]
      else recommendations
    else recommendations in
  recommendations.

(** [parts.join(' ')] on templates. *)
Fixpoint join_space (parts : list template) : template :=
  match parts with
  | [] => []
  | [p] => p
  | p :: rest => p ++ Lit " " :: join_space rest
  end.

(** [generateSummary] *)
Definition generateSummary (files : list string) (metrics : Metrics)
    (recommendations : list template) (analyses : list AnalysisResult)
    : template :=
  let parts : list template :=
    [[Lit "Compared ";
      Interp (Num (inject_Z (Z.of_nat (length analyses))));
      Lit " G-code files."]] in
  let parts :=
    match m_print_time metrics with
    | Some m =>
        parts ++
        [[Lit "Fastest: "; Lit dquote; InterpStr (at_index files (winner m));
          Lit dquote; Lit " ("; ToFixed (difference m) 1;
          Lit "% faster than slowest)."]]
    | None => parts
    end in
  let parts :=
    match m_material_usage metrics with
    | Some m =>
        parts ++
        [[Lit "Most efficient: "; Lit dquote;
          InterpStr (at_index files (winner m));
          Lit dquote; Lit " ("; ToFixed (difference m) 1;
          Lit "% less material)."]]
    | None => parts
    end in
  let parts :=
    if (0 <? Z.of_nat (length recommendations)) then
      parts ++
      [[Interp (Num (inject_Z (Z.of_nat (length recommendations))));
        Lit " optimization suggestions identified."]]
    else parts in
  join_space parts.

(** [generateComparison] *)
Definition generateComparison (analyses : list AnalysisResult)
    (metrics : list string) : ComparisonResult :=
  let files := map (fun a => Path.basename (filepath a)) analyses in
  let ms :=
    {| m_print_time :=
         if includes metrics "printTime"
         then Some (printTimeMetric analyses) else None;
       m_material_usage :=
         if includes metrics "material"
         then Some (materialMetric analyses) else None;
       m_layer_count :=
         if includes metrics "layers"
         then Some (layerMetric analyses) else None;
       m_quality_score :=
         if includes metrics "quality"
         then Some (qualityMetric analyses) else None |} in
  let recs := generateRecommendations analyses files ms in
  {| files := files;
     metrics := ms;
     recommendations := recs;
     summary := generateSummary files ms recs analyses |}.

Inductive OutputFormat : Type := json | html | pdf.

(** What [compare] resolves to.  The HTML report and the PDF buffer are
    renderings of the comparison and of the analyses; they are kept as the
    data they are rendered from. *)
Inductive Output : Type :=
| Structured (c : ComparisonResult)
| HtmlReport (c : ComparisonResult) (analyses : list AnalysisResult)
| PdfReport (c : ComparisonResult) (analyses : list AnalysisResult).

Definition defaultMetrics : list string :=
  ["printTime"; "material"; "layers"; "quality"].

Definition compareOptions : AnalysisOptions :=
  {| detailed := true; inferParameters := true;
     generateSuggestions := false; compareWithBaseline := None |}.

Section Compare.

(** [this.analysisService.analyze]: the [n]-th call of a request, on a
    path, either resolves to a result or rejects with a reason (given by
    its rendering in a template literal). *)
Variable analyze : nat -> string -> AnalysisOptions -> string + AnalysisResult.

(** The loop [for (const filepath of filepaths)]. *)
Fixpoint analyzeAll (n : nat) (filepaths : list string)
    (analyses : list AnalysisResult) : result (list AnalysisResult) :=
  match filepaths with
  | [] => Ok analyses
  | filepath :: rest =>
      match analyze n filepath compareOptions with
      | inr analysis => analyzeAll (S n) rest (analyses ++ [analysis])
      | inl reason =>
          Throw {| message :=
                     "Failed to analyze " +:+ filepath +:+ ": " +:+ reason |}
      end
  end.

(** [compare] *)
Definition compare (filepaths : list string) (metrics : list string)
    (outputFormat : OutputFormat) : result Output :=
  if (Z.of_nat (length filepaths) <? 2) then
    Throw {| message := "At least 2 files are required for comparison" |}
  else
    bind (analyzeAll 0 filepaths []) (fun analyses =>
      let comparison := generateComparison analyses metrics in
      match outputFormat with
      | json => Ok (Structured comparison)
      | html => Ok (HtmlReport comparison analyses)
      | pdf => Ok (PdfReport comparison analyses)
      end).

End Compare.

End ComparisonService.

(** ** [Array.prototype.sort] and [String.prototype.toLowerCase] *)

Module JSArray.

Section Sort.
Context {A : Type}.
Variable compareFn : A -> A -> Z.

(** [x] goes in front of the first element it does not have to follow. *)
Fixpoint insert (x : A) (sorted : list A) : list A :=
  match sorted with
  | [] => [x]
  | y :: rest =>
      if (compareFn x y <=? 0) then x :: y :: rest
      else y :: insert x rest
  end.

(** A stable sort, as ECMAScript requires of [sort]: elements that the
    comparator does not order keep their relative order. *)
Fixpoint sort (xs : list A) : list A :=
  match xs with
  | [] => []
  | x :: rest => insert x (sort rest)
  end.
End Sort.

End JSArray.

Module JSString.

Definition lower (c : ascii) : ascii :=
  let n := nat_of_ascii c in
  if ((65 <=? n)%nat && (n <=? 90)%nat)%bool then ascii_of_nat (n + 32) else c.

Fixpoint toLowerCase (s : string) : string :=
  match s with
  | EmptyString => EmptyString
  | String c s' => String (lower c) (toLowerCase s')
  end.

End JSString.

(** ** [optimizationService.ts] *)

Module OptimizationService.

Inductive Priority : Type := speed | quality | material.

Record Constraints : Type := {
  maxPrintTime : option number;
  minQuality : option number;
  maxMaterial : option number;
}.

Record OptimizationProfile : Type := {
  priority : Priority;
  constraints : option Constraints;
}.

Definition category_name (c : Category) : string :=
  match c with
  | Speed => "Speed"
  | Material => "Material"
  | Quality => "Quality"
  | Safety => "Safety"
  end.

Definition priority_name (p : Priority) : string :=
  match p with
  | speed => "speed"
  | quality => "quality"
  | material => "material"
  end.

Definition impact_name (i : Impact) : string :=
  match i with
  | High => "High"
  | Medium => "Medium"
  | Low => "Low"
  end.

(** The truthiness of an optional number. *)
Definition present (x : option number) : bool := and_then x (fun _ => true).

(** [calculateLayerHeightTimeSaving] *)
Definition calculateLayerHeightTimeSaving
    (currentHeight newHeight currentTime : number) : number :=
  let ratio := div currentHeight newHeight in
  let newTime := div currentTime ratio in
  div (sub currentTime newTime) (Num 60).

(** [formatTime] *)
Definition formatTime (seconds : number) : template :=
  let hours := floor (div seconds (Num 3600)) in
  let minutes := floor (div (rem seconds (Num 3600)) (Num 60)) in
  if gt hours (Num 24) then
    let days := floor (div hours (Num 24)) in
    let remainingHours := rem hours (Num 24) in
    [Interp days; Lit "d "; Interp remainingHours; Lit "h"]
  else if gt hours (Num 0) then
    [Interp hours; Lit "h "; Interp minutes; Lit "m"]
  else
    [Interp minutes; Lit "m"].

(** [generateSpeedOptimizations] *)
Definition generateSpeedOptimizations (analysis : AnalysisResult)
    : list OptimizationSuggestion :=
  let suggestions : list OptimizationSuggestion := [] in
  let suggestions :=
    match profile analysis ?. layer_height with
    | Some h =>
        if truthy h && lt h (Num 0.2) then
          let currentTime := or_default (geometry analysis ?. time_estimate) (Num 0) in
          let potentialSaving :=
            calculateLayerHeightTimeSaving h (Num 0.25) currentTime in
          suggestions ++
          [{| category := Speed;
              title := "Increase Layer Height";
              description :=
                [Lit "Current layer height is "; Interp h;
                 Lit "mm. Increasing to 0.25mm would reduce print time significantly."];
              impact := High;
              time_saving :=
                Some [Lit "~"; ToFixed potentialSaving 0; Lit " minutes"];
              material_saving := None;
              implementation :=
                Some "Change layer height to 0.25mm in slicer settings";
              potential_issues :=
                Some ["Slightly reduced surface quality";
                      "Less detail on vertical surfaces"] |}]
        else suggestions
    | None => suggestions
    end in
  let suggestions :=
    match profile analysis ?. infill_density with
    | Some d =>
        if truthy d && gt d (Num 25) then
          suggestions ++
          [{| category := Speed;
              title := "Reduce Infill Density";
              description :=
                [Lit "Current infill is "; Interp d;
                 Lit "%. Reducing to 20% maintains strength while reducing print time."];
              impact := Medium;
              time_saving := Some [Lit "~15-25%"];
              material_saving := None;
              implementation := Some "Set infill density to 20% in slicer";
              potential_issues :=
                Some ["Slightly reduced strength";
                      "May affect top surface quality"] |}]
        else suggestions
    | None => suggestions
    end in
  let suggestions :=
    match profile analysis ?. print_speed with
    | Some v =>
        if truthy v && lt v (Num 50) then
          suggestions ++
          [{| category := Speed;
              title := "Increase Print Speed";
              description :=
                [Lit "Current print speed is "; Interp v;
                 Lit "mm/s. Can safely increase to 60mm/s for most materials."];
              impact := Medium;
              time_saving := Some [Lit "~20%"];
              material_saving := None;
              implementation := Some "Increase print speed in slicer settings";
              potential_issues :=
                Some ["May reduce quality if printer cannot handle higher speeds";
                      "Check printer capabilities"] |}]
        else suggestions
    | None => suggestions
    end in
  let suggestions :=
    if flag (geometry analysis ?. pattern_detection ?. support_detected) then
      suggestions ++
      [{| category := Speed;
          title := "Optimize Support Settings";
          description :=
            [Lit "Supports detected. Consider reducing support density or using tree supports for faster printing."];
          impact := Medium;
          time_saving := Some [Lit "~10-30%"];
          material_saving := None;
          implementation :=
            Some "Reduce support density to 15% or switch to tree supports";
          potential_issues :=
            Some ["May require more careful part orientation";
                  "Verify support effectiveness"] |}]
    else suggestions in
  suggestions.

(** [generateQualityOptimizations] *)
Definition generateQualityOptimizations (analysis : AnalysisResult)
    : list OptimizationSuggestion :=
  let suggestions : list OptimizationSuggestion := [] in
  let suggestions :=
    match profile analysis ?. layer_height with
    | Some h =>
        if truthy h && gt h (Num 0.2) then
          suggestions ++
          [{| category := Quality;
              title := "Reduce Layer Height";
              description :=
                [Lit "Current layer height is "; Interp h;
                 Lit "mm. Reducing to 0.15mm will improve surface quality."];
              impact := High;
              time_saving := None;
              material_saving := None;
              implementation := Some "Set layer height to 0.15mm in slicer";
              potential_issues :=
                Some ["Increased print time (~50%)";
                      "Higher chance of print failures"] |}]
        else suggestions
    | None => suggestions
    end in
  let suggestions :=
    match profile analysis ?. print_speed with
    | Some v =>
        if truthy v && gt v (Num 60) then
          suggestions ++
          [{| category := Quality;
              title := "Reduce Print Speed";
              description :=
                [Lit "Current speed is "; Interp v;
                 Lit "mm/s. Reducing to 40mm/s will improve quality."];
              impact := Medium;
              time_saving := None;
              material_saving := None;
              implementation := Some "Reduce print speed to 40mm/s";
              potential_issues :=
                Some ["Increased print time (~30%)";
                      "May require temperature adjustments"] |}]
        else suggestions
    | None => suggestions
    end in
  let suggestions :=
    match profile analysis ?. wall_count with
    | Some w =>
        if truthy w && lt w (Num 3) then
          suggestions ++
          [{| category := Quality;
              title := "Increase Wall Count";
              description :=
                [Lit "Current wall count is "; Interp w;
                 Lit ". Increasing to 3 walls improves strength and surface quality."];
              impact := Medium;
              time_saving := None;
              material_saving := None;
              implementation := Some "Set wall count to 3 in slicer settings";
              potential_issues :=
                Some ["Increased material usage"; "Longer print time"] |}]
        else suggestions
    | None => suggestions
    end in
  let suggestions :=
    match profile analysis ?. temperature_nozzle with
    | Some temp =>
        if truthy temp then
          if gt temp (Num 220) then
            suggestions ++
            [{| category := Quality;
                title := "Optimize Temperature";
                description :=
                  [Lit "Nozzle temperature is "; Interp temp;
                   Lit "°C. Consider lowering for better surface quality."];
                impact := Medium;
                time_saving := None;
                material_saving := None;
                implementation := Some "Reduce nozzle temperature by 5-10°C";
                potential_issues :=
                  Some ["May cause under-extrusion";
                        "Test on small part first"] |}]
          else suggestions
        else suggestions
    | None => suggestions
    end in
  suggestions.

(** [generateMaterialOptimizations] *)
Definition generateMaterialOptimizations (analysis : AnalysisResult)
    : list OptimizationSuggestion :=
  let suggestions : list OptimizationSuggestion := [] in
  let suggestions :=
    match profile analysis ?. infill_density with
    | Some d =>
        if truthy d && gt d (Num 20) then
          let currentMaterial :=
            or_default (geometry analysis ?. extrusion_stats ?. total_filament)
                       (Num 0) in
          let savings := mul (div (sub d (Num 15)) d) (Num 0.7) in
          suggestions ++
          [{| category := Material;
              title := "Reduce Infill Density";
              description :=
                [Lit "Current infill is "; Interp d;
                 Lit "%. Reducing to 15% maintains adequate strength for most parts."];
              impact := High;
              time_saving := None;
              material_saving :=
                Some [Lit "~"; ToFixed (mul currentMaterial savings) 1;
                      Lit "m filament"];
              implementation := Some "Set infill density to 15% in slicer";
              potential_issues :=
                Some ["Reduced strength"; "May affect bridging quality"] |}]
        else suggestions
    | None => suggestions
    end in
  let suggestions :=
    match profile analysis ?. extrusion_width, profile analysis ?. wall_count with
    | Some ew, Some wc =>
        if truthy ew && truthy wc then
          let wallThickness := mul ew wc in
          if gt wallThickness (Num 1.6) then
            suggestions ++
            [{| category := Material;
                title := "Optimize Wall Thickness";
                description :=
                  [Lit "Current wall thickness is "; ToFixed wallThickness 2;
                   Lit "mm. Can reduce without affecting strength significantly."];
                impact := Medium;
                time_saving := None;
                material_saving := Some [Lit "~10-15%"];
                implementation :=
                  Some "Reduce wall count by 1 or decrease extrusion width";
                potential_issues :=
                  Some ["Slightly reduced strength";
                        "May affect surface quality"] |}]
          else suggestions
        else suggestions
    | _, _ => suggestions
    end in
  let suggestions :=
    if flag (geometry analysis ?. pattern_detection ?. support_detected) then
      suggestions ++
      [{| category := Material;
          title := "Minimize Support Material";
          description :=
            [Lit "Optimize part orientation to reduce support material usage."];
          impact := Medium;
          time_saving := None;
          material_saving := Some [Lit "~20-40%"];
          implementation :=
            Some "Rotate part to minimize overhangs, use tree supports";
          potential_issues :=
            Some ["May require design changes";
                  "Verify structural integrity"] |}]
    else suggestions in
  let volume :=
    or_default (geometry analysis ?. extrusion_stats ?. total_filament) (Num 0) in
  let suggestions :=
    if gt volume (Num 100) then
      suggestions ++
      [{| category := Material;
          title := "Consider Hollow Design";
          description :=
            [Lit "For large parts, consider making hollow with drainage holes to save material."];
          impact := High;
          time_saving := None;
          material_saving := Some [Lit "~30-70%"];
          implementation :=
            Some "Modify design to create hollow interior with wall thickness 2-3mm";
          potential_issues :=
            Some ["Requires design changes"; "May need internal supports"] |}]
    else suggestions in
  suggestions.

(** [generateSafetyOptimizations] *)
Definition generateSafetyOptimizations (analysis : AnalysisResult)
    : list OptimizationSuggestion :=
  let suggestions : list OptimizationSuggestion := [] in
  let suggestions :=
    match profile analysis ?. temperature_nozzle with
    | Some temp =>
        if truthy temp && gt temp (Num 250) then
          suggestions ++
          [{| category := Safety;
              title := "High Temperature Warning";
              description :=
                [Lit "Nozzle temperature is "; Interp temp;
                 Lit "°C. Ensure proper ventilation and safety precautions."];
              impact := High;
              time_saving := None;
              material_saving := None;
              implementation :=
                Some "Verify material requirements, ensure proper ventilation";
              potential_issues :=
                Some ["Risk of burns"; "Potential toxic fumes";
                      "Increased wear on hotend"] |}]
        else suggestions
    | None => suggestions
    end in
  let suggestions :=
    match profile analysis ?. temperature_bed with
    | Some temp =>
        if truthy temp && gt temp (Num 100) then
          suggestions ++
          [{| category := Safety;
              title := "High Bed Temperature Warning";
              description :=
                [Lit "Bed temperature is "; Interp temp;
                 Lit "°C. High temperatures may warp build surface or cause burns."];
              impact := Medium;
              time_saving := None;
              material_saving := None;
              implementation :=
                Some "Verify bed material compatibility, use caution when removing prints";
              potential_issues :=
                Some ["Risk of burns"; "Potential bed damage"; "Warping"] |}]
        else suggestions
    | None => suggestions
    end in
  let printTime := or_default (geometry analysis ?. time_estimate) (Num 0) in
  let suggestions :=
    if gt printTime (Num (24 * 3600)) then
      suggestions ++
      [{| category := Safety;
          title := "Long Print Duration Warning";
          description :=
            Lit "Estimated print time is " :: formatTime printTime ++
            [Lit ". Consider monitoring and power backup."];
          impact := Medium;
          time_saving := None;
          material_saving := None;
          implementation :=
            Some "Set up monitoring, ensure stable power supply, check first layers carefully";
          potential_issues :=
            Some ["Risk of print failure"; "Power outage vulnerability";
                  "Increased wear on printer"] |}]
    else suggestions in
  suggestions.

(** [impactScore] *)
Definition impactScore (i : Impact) : Z :=
  match i with
  | High => 3
  | Medium => 2
  | Low => 1
  end.

(** [a.category.toLowerCase() === profile.priority] *)
Definition priorityMatch (a : OptimizationSuggestion)
    (profile : OptimizationProfile) : bool :=
  String.eqb (JSString.toLowerCase (category_name (category a)))
             (priority_name (priority profile)).

(** The comparator handed to [sort] by [rankSuggestions]. *)
Definition rankCompare (profile : OptimizationProfile)
    (a b : OptimizationSuggestion) : Z :=
  let aPriorityMatch := priorityMatch a profile in
  let bPriorityMatch := priorityMatch b profile in
  if aPriorityMatch && negb bPriorityMatch then -1
  else if negb aPriorityMatch && bPriorityMatch then 1
  else
    let aScore := impactScore (impact a) in
    let bScore := impactScore (impact b) in
    bScore - aScore.

(** [rankSuggestions] *)
Definition rankSuggestions (suggestions : list OptimizationSuggestion)
    (profile : OptimizationProfile) : list OptimizationSuggestion :=
  JSArray.sort (rankCompare profile) suggestions.

(** [generateOptimizations] *)
Definition generateOptimizations (analysis : AnalysisResult)
    (profile : OptimizationProfile) : list OptimizationSuggestion :=
  let suggestions : list OptimizationSuggestion := [] in
  let suggestions :=
    if match priority profile with speed => true | _ => false end
       || negb (present (constraints profile ?. maxPrintTime))
    then suggestions ++ generateSpeedOptimizations analysis
    else suggestions in
  let suggestions :=
    if match priority profile with quality => true | _ => false end
       || present (constraints profile ?. minQuality)
    then suggestions ++ generateQualityOptimizations analysis
    else suggestions in
  let suggestions :=
    if match priority profile with material => true | _ => false end
       || present (constraints profile ?. maxMaterial)
    then suggestions ++ generateMaterialOptimizations analysis
    else suggestions in
  let suggestions := suggestions ++ generateSafetyOptimizations analysis in
  rankSuggestions suggestions profile.

Inductive IssueType : Type := warning | error | info.

Record Issue : Type := {
  type : IssueType;
  issue_category : string;
  issue_message : template;
  suggestion : option string;
}.

Record IssueReport : Type := {
  issues : list Issue;
  score : number;
}.

(** [analyzeForIssues] *)
Definition analyzeForIssues (analysis : AnalysisResult) : IssueReport :=
  let issues : list Issue := [] in
  let score := Num 100 in
  let '(issues, score) :=
    if flag (geometry analysis ?. pattern_detection ?. bridging_detected) then
      (issues ++
       [{| type := warning;
           issue_category := "Bridging";
           issue_message :=
             [Lit "Bridging detected - may result in poor surface quality"];
           suggestion :=
             Some "Consider adding supports or modifying part orientation" |}],
       sub score (Num 10))
    else (issues, score) in
  let '(issues, score) :=
    if flag (geometry analysis ?. pattern_detection ?. support_detected) then
      (issues ++
       [{| type := info;
           issue_category := "Supports";
           issue_message := [Lit "Support material required"];
           suggestion :=
             Some "Optimize orientation to minimize support usage" |}],
       sub score (Num 5))
    else (issues, score) in
  let '(issues, score) :=
    match profile analysis ?. temperature_nozzle with
    | Some temp =>
        if truthy temp && gt temp (Num 280) then
          (issues ++
           [{| type := error;
               issue_category := "Temperature";
               issue_message :=
                 [Lit "Extremely high nozzle temperature: "; Interp temp;
                  Lit "°C"];
               suggestion :=
                 Some "Verify material requirements and printer capabilities" |}],
           sub score (Num 20))
        else (issues, score)
    | None => (issues, score)
    end in
  let '(issues, score) :=
    match profile analysis ?. layer_height with
    | Some h =>
        if truthy h && lt h (Num 0.1) then
          (issues ++
           [{| type := warning;
               issue_category := "Layer Height";
               issue_message :=
                 [Lit "Very thin layers: "; Interp h; Lit "mm"];
               suggestion :=
                 Some "Extremely long print times - consider increasing layer height" |}],
           sub score (Num 15))
        else (issues, score)
    | None => (issues, score)
    end in
  {| issues := issues; score := mathMax [Num 0; score] |}.

End OptimizationService.

(** ** [shared/utils/index.ts]: [parseGCodeCommand] *)

Module Utils.

Record GCodeCommand : Type := {
  type : string;
  code : number;
  params : gmap string number;
  comment : option string;
  lineNumber : number;
  layer : option number;
}.

Definition chars (s : string) : list ascii := list_ascii_of_string s.
Definition str (l : list ascii) : string := string_of_list_ascii l.

Definition code_of (c : ascii) : nat := nat_of_ascii c.

(** White space of [trim], among 8-bit characters: TAB, LF, VT, FF, CR,
    space and the no-break space. *)
Definition isWhiteSpace (c : ascii) : bool :=
  let n := code_of c in
  ((9 <=? n)%nat && (n <=? 13)%nat) || (n =? 32)%nat || (n =? 160)%nat.

(** Characters that [.] does not match. *)
Definition isLineTerminator (c : ascii) : bool :=
  let n := code_of c in (n =? 10)%nat || (n =? 13)%nat.

(** [\d] *)
Definition isDigit (c : ascii) : bool :=
  let n := code_of c in (48 <=? n)%nat && (n <=? 57)%nat.

(** [[A-Z]] *)
Definition isUpper (c : ascii) : bool :=
  let n := code_of c in (65 <=? n)%nat && (n <=? 90)%nat.

(** [[GMTF]] *)
Definition isCommandLetter (c : ascii) : bool :=
  Ascii.eqb c "G" || Ascii.eqb c "M" || Ascii.eqb c "T" || Ascii.eqb c "F".

(** [[-\d.]] *)
Definition isValueChar (c : ascii) : bool :=
  Ascii.eqb c "-" || isDigit c || Ascii.eqb c ".".

Definition semicolon : ascii := ";"%char.

Fixpoint trimStart (s : list ascii) : list ascii :=
  match s with
  | c :: s' => if isWhiteSpace c then trimStart s' else s
  | [] => []
  end.

Fixpoint trimEnd (s : list ascii) : list ascii :=
  match s with
  | c :: s' =>
      match trimEnd s' with
      | [] => if isWhiteSpace c then [] else [c]
      | t => c :: t
      end
  | [] => []
  end.

(** [s.trim()] *)
Definition trim (s : list ascii) : list ascii := trimEnd (trimStart s).

(** [s.startsWith(';')] *)
Definition startsWithSemicolon (s : list ascii) : bool :=
  match s with
  | c :: _ => Ascii.eqb c semicolon
  | [] => false
  end.

Fixpoint indexOf_from (s : list ascii) (c : ascii) (i : Z) : Z :=
  match s with
  | [] => -1
  | x :: s' => if Ascii.eqb x c then i else indexOf_from s' c (i + 1)
  end.

(** [s.indexOf(c)] *)
Definition indexOf (s : list ascii) (c : ascii) : Z := indexOf_from s c 0.

(** [s.substring(a, b)] and [s.substring(a)] for [0 <= a <= b]. *)
Definition substring (s : list ascii) (a b : Z) : list ascii :=
  take (Z.to_nat (b - a)) (drop (Z.to_nat a) s).
Definition substringFrom (s : list ascii) (a : Z) : list ascii :=
  drop (Z.to_nat a) s.

(** The longest prefix of characters satisfying [p], and the rest. *)
Fixpoint span (p : ascii -> bool) (s : list ascii) : list ascii * list ascii :=
  match s with
  | c :: s' =>
      if p c then let '(a, b) := span p s' in (c :: a, b) else ([], s)
  | [] => ([], [])
  end.

(** The value of a decimal numeral: the digits of the integer part and of
    the fraction. *)
Definition digit_value (c : ascii) : Z := Z.of_nat (code_of c) - 48.

Definition digits_value (ds : list ascii) : Z :=
  fold_left (fun acc c => 10 * acc + digit_value c) ds 0.

Definition decimal_value (negative : bool) (int_digits frac_digits : list ascii)
    : number :=
  let magnitude :=
    (digits_value (int_digits ++ frac_digits)
     # Pos.pow 10 (Pos.of_nat (length frac_digits)))%Q in
  let magnitude :=
    match frac_digits with
    | [] => inject_Z (digits_value int_digits)
    | _ => magnitude
    end in
  Num (if negative then - magnitude else magnitude)%Q.

(** [parseFloat] on a string without exponent part: leading white space, an
    optional sign, digits, and a fraction; [NaN] when no digit is found.
    The strings handed to it by [parseGCodeCommand] consist of digits, [-]
    and [.] only. *)
Definition parseUnsigned (negative : bool) (s : list ascii) : number :=
  let '(int_digits, rest) := span isDigit s in
  let frac_digits :=
    match rest with
    | c :: rest' => if Ascii.eqb c "." then fst (span isDigit rest') else []
    | [] => []
    end in
  match int_digits, frac_digits with
  | [], [] => NaN
  | _, _ => decimal_value negative int_digits frac_digits
  end.

Definition parseFloat (s : list ascii) : number :=
  match trimStart s with
  | c :: rest =>
      if Ascii.eqb c "-" then parseUnsigned true rest
      else if Ascii.eqb c "+" then parseUnsigned false rest
      else parseUnsigned false (c :: rest)
  | [] => NaN
  end.

(** The match of the command pattern: a command letter, digits with an
    optional fraction, and the rest of the line up to a line terminator.
    The three captured groups are returned. *)
Definition matchCommand (command : list ascii)
    : option (list ascii * list ascii * list ascii) :=
  match command with
  | t :: rest =>
      if isCommandLetter t then
        let '(int_digits, rest1) := span isDigit rest in
        match int_digits with
        | [] => None
        | _ =>
            let dot_all (r : list ascii) :=
              fst (span (fun c => negb (isLineTerminator c)) r) in
            match rest1 with
            | c :: rest2 =>
                if Ascii.eqb c "." then
                  let '(frac_digits, rest3) := span isDigit rest2 in
                  match frac_digits with
                  | [] => Some ([t], int_digits, dot_all rest1)
                  | _ =>
                      Some ([t], int_digits ++ c :: frac_digits, dot_all rest3)
                  end
                else Some ([t], int_digits, dot_all rest1)
            | [] => Some ([t], int_digits, [])
            end
        end
      else None
  | [] => None
  end.

(** All matches in [paramsStr] of an upper-case letter followed by one or
    more value characters, scanning from the left.
    [pending] is the letter read last and the value characters that follow
    it so far. *)
Definition emit (pending : option (ascii * list ascii))
    : list (list ascii * list ascii) :=
  match pending with
  | Some (letter, (_ :: _) as value) => [([letter], value)]
  | _ => []
  end.

Fixpoint matchAllParams (pending : option (ascii * list ascii))
    (s : list ascii) : list (list ascii * list ascii) :=
  match s with
  | [] => emit pending
  | c :: s' =>
      match pending with
      | Some (letter, value) =>
          if isValueChar c then matchAllParams (Some (letter, value ++ [c])) s'
          else
            emit pending ++
            matchAllParams (if isUpper c then Some (c, []) else None) s'
      | None => matchAllParams (if isUpper c then Some (c, []) else None) s'
      end
  end.

(** The loop [params[paramMatch[1]] = parseFloat(paramMatch[2])]. *)
Definition collectParams (paramMatches : list (list ascii * list ascii))
    : gmap string number :=
  fold_left (fun params paramMatch =>
               <[str (fst paramMatch) := parseFloat (snd paramMatch)]> params)
            paramMatches ∅.

(** [parseGCodeCommand]; [None] is [null]. *)
Definition parseGCodeCommand (line : string) (lineNumber : number)
    : option GCodeCommand :=
  let trimmed := trim (chars line) in
  if match trimmed with [] => true | _ => false end
     || startsWithSemicolon trimmed then None
  else
    let commentIndex := indexOf trimmed semicolon in
    let '(command, comment) :=
      if (0 <? commentIndex) then
        (trim (substring trimmed 0 commentIndex),
         trim (substringFrom trimmed (commentIndex + 1)))
      else (trimmed, []) in
    match matchCommand command with
    | None => None
    | Some (type, code, paramsStr) =>
        Some {| type := str type;
                code := parseFloat code;
                params := collectParams (matchAllParams None paramsStr);
                comment := match comment with
                           | [] => None
                           | _ => Some (str comment)
                           end;
                lineNumber := lineNumber;
                layer := None |}
    end.

End Utils.

(** ** [analysisService.ts]: the progress records of [analyze] *)

Module AnalysisService.

Record JobRecord : Type := {
  progress : number;
  stage : string;
}.

(** What one call of [analyze] keeps in its closure: the local variable
    [progress], whether its interval is still registered, and whether a
    [progressCallback] was passed. *)
Record Call : Type := {
  local_progress : number;
  interval_active : bool;
  has_callback : bool;
}.

Inductive Outcome : Type := resolved | rejected.

Record Service : Type := {
  processingJobs : gmap string JobRecord;
  calls : gmap string Call;
  reported : list (string * number * string);
  settled : gmap string Outcome;
}.

Definition init : Service :=
  {| processingJobs := ∅; calls := ∅; reported := []; settled := ∅ |}.

(** What the event loop can run: a call of [analyze] that draws the
    identifier [analysisId], a firing of the interval of that call, and the
    [close] event of its child process, with the exit code and whether the
    collected output parses as JSON. *)
Inductive Event : Type :=
| Analyze (analysisId : string) (withCallback : bool)
| Tick (analysisId : string)
| Close (analysisId : string) (code : Z) (outputParses : bool).

Definition report (s : Service) (c : Call) (analysisId : string)
    (p : number) (st : string) : list (string * number * string) :=
  if has_callback c then reported s ++ [(analysisId, p, st)] else reported s.

(** One turn of the event loop.  Identifiers are drawn fresh, a cleared
    interval never fires and a child closes once: an event that cannot
    occur leaves the service as it is. *)
Definition step (s : Service) (e : Event) : Service :=
  match e with
  | Analyze analysisId withCallback =>
      match calls s !! analysisId with
      | Some _ => s
      | None =>
          {| processingJobs :=
               <[analysisId := {| progress := Num 0; stage := "starting" |}]>
                 (processingJobs s);
             calls :=
               <[analysisId := {| local_progress := Num 10;
                                  interval_active := true;
                                  has_callback := withCallback |}]> (calls s);
             reported := reported s;
             settled := settled s |}
      end
  | Tick analysisId =>
      match calls s !! analysisId with
      | Some c =>
          if interval_active c then
            let progress' := mathMin [add (local_progress c) (Num 10); Num 90] in
            {| processingJobs :=
                 <[analysisId := {| progress := progress';
                                    stage := "analyzing" |}]>
                   (processingJobs s);
               calls :=
                 <[analysisId := {| local_progress := progress';
                                    interval_active := true;
                                    has_callback := has_callback c |}]> (calls s);
               reported := report s c analysisId progress' "analyzing";
               settled := settled s |}
          else s
      | None => s
      end
  | Close analysisId code outputParses =>
      match calls s !! analysisId with
      | Some c =>
          if interval_active c then
            let succeeded := (code =? 0) && outputParses in
            {| processingJobs := delete analysisId (processingJobs s);
               calls :=
                 <[analysisId := {| local_progress := local_progress c;
                                    interval_active := false;
                                    has_callback := has_callback c |}]> (calls s);
               reported :=
                 if succeeded then report s c analysisId (Num 100) "complete"
                 else reported s;
               settled :=
                 <[analysisId := if succeeded then resolved else rejected]>
                   (settled s) |}
          else s
      | None => s
      end
  end.

Definition exec (s : Service) (es : list Event) : Service :=
  fold_left step es s.

(** [isProcessing]; [None] is [null]. *)
Definition isProcessing (s : Service) (analysisId : string) : option JobRecord :=
  processingJobs s !! analysisId.

End AnalysisService.

(** * Vocabulary of the properties *)

(** ** Numbers and positions *)

Definition is_number (a : number) : Prop := a <> NaN.

Definition finite (a : number) : Prop := exists q, a = Num q.

(** [w] is the first position of a least, respectively greatest, value. *)
Definition first_minimum (xs : list number) (w : Z) : Prop :=
  exists k v,
    w = Z.of_nat k /\ xs !! k = Some v /\
    (forall x, x ∈ xs -> le v x = true) /\
    (forall j u, (j < k)%nat -> xs !! j = Some u -> lt v u = true).

Definition first_maximum (xs : list number) (w : Z) : Prop :=
  exists k v,
    w = Z.of_nat k /\ xs !! k = Some v /\
    (forall x, x ∈ xs -> le x v = true) /\
    (forall j u, (j < k)%nat -> xs !! j = Some u -> lt u v = true).

(** ** Sample data *)

Module Samples.

Definition noProfile : SlicerProfile :=
  {| slicer_name := None; version := None; layer_height := None;
     first_layer_height := None; nozzle_diameter := None;
     extrusion_width := None; print_speed := None; travel_speed := None;
     retraction_distance := None; retraction_speed := None;
     temperature_nozzle := None; temperature_bed := None;
     infill_density := None; infill_pattern := None; support_enabled := None;
     wall_count := None; top_layers := None; bottom_layers := None |}.

(** A profile that declares layer height, infill and nozzle temperature. *)
Definition profileOf (h d t : option number) : SlicerProfile :=
  {| slicer_name := None; version := None; layer_height := h;
     first_layer_height := None; nozzle_diameter := None;
     extrusion_width := None; print_speed := None; travel_speed := None;
     retraction_distance := None; retraction_speed := None;
     temperature_nozzle := t; temperature_bed := None;
     infill_density := d; infill_pattern := None; support_enabled := None;
     wall_count := None; top_layers := None; bottom_layers := None |}.

Definition geometryOf (t : option number) (support bridging : option bool)
    : GeometryAnalysis :=
  {| time_estimate := t;
     extrusion_stats := None;
     pattern_detection :=
       Some {| support_detected := support; bridging_detected := bridging |} |}.

Definition analysisOf (path : string) (st : Status) (p : option SlicerProfile)
    (g : option GeometryAnalysis) : AnalysisResult :=
  {| id := "analysis_1_abc"; filepath := path; timestamp := Num 0;
     profile := p; geometry := g; layers := []; suggestions := [];
     status := st; error_message := None |}.

(** File A prints in 600 s, file B in 900 s and shows bridging. *)
Definition fileA : AnalysisResult :=
  analysisOf "/uploads/a.gcode" complete None
             (Some (geometryOf (Some (Num 600)) None None)).
Definition fileB : AnalysisResult :=
  analysisOf "/uploads/b.gcode" complete None
             (Some (geometryOf (Some (Num 900)) None (Some true))).

(** A file without motion: its time estimate is 0. *)
Definition fileIdle : AnalysisResult :=
  analysisOf "/uploads/idle.gcode" complete None
             (Some (geometryOf (Some (Num 0)) None None)).

(** A file whose declared infill density is 0. *)
Definition fileHollow : AnalysisResult :=
  analysisOf "/uploads/vase.gcode" complete
             (Some (profileOf None (Some (Num 0)) None)) None.

(** A file with the settings the score rewards. *)
Definition fileOptimal : AnalysisResult :=
  analysisOf "/uploads/good.gcode" complete
             (Some (profileOf (Some (Num 0.2)) (Some (Num 20)) None)) None.

(** A file whose slicer profile is unknown. *)
Definition fileUnknown : AnalysisResult :=
  analysisOf "/uploads/unknown.gcode" complete None None.

End Samples.

(** ** The quality score in the words of the design document *)

(** A condition on an optional setting; an absent setting satisfies none. *)
Definition holds (x : option number) (p : number -> bool) : bool :=
  match x with
  | Some v => p v
  | None => false
  end.

Definition clamp (lo hi x : Q) : Q :=
  if Qle_bool x lo then lo else if Qle_bool hi x then hi else x.

Definition penalty (b : bool) (q : Q) : Q := if b then q else 0.

(** The formula as written: 100, minus 10 above 0.3 mm, minus 15 below 10 %
    infill, minus 5 for supports, minus 10 for bridging, plus 5 within
    [0.15, 0.25] mm, clamped to [0, 100]. *)
Definition stated_quality_score (analysis : AnalysisResult) : number :=
  let h := profile analysis ?. layer_height in
  let d := profile analysis ?. infill_density in
  let support := flag (geometry analysis ?. pattern_detection ?. support_detected) in
  let bridging := flag (geometry analysis ?. pattern_detection ?. bridging_detected) in
  Num (clamp 0 100
         (100
          - penalty (holds h (fun v => gt v (Num 0.3))) 10
          - penalty (holds d (fun v => lt v (Num 10))) 15
          - penalty support 5
          - penalty bridging 10
          + penalty (holds h (fun v => ge v (Num 0.15) && le v (Num 0.25))) 5)).

(** The same formula, with the infill penalty reserved to a declared,
    non-zero density. *)
Definition quality_score_formula (analysis : AnalysisResult) : number :=
  let h := profile analysis ?. layer_height in
  let d := profile analysis ?. infill_density in
  let support := flag (geometry analysis ?. pattern_detection ?. support_detected) in
  let bridging := flag (geometry analysis ?. pattern_detection ?. bridging_detected) in
  Num (clamp 0 100
         (100
          - penalty (holds h (fun v => gt v (Num 0.3))) 10
          - penalty (holds d (fun v => truthy v && lt v (Num 10))) 15
          - penalty support 5
          - penalty bridging 10
          + penalty (holds h (fun v => ge v (Num 0.15) && le v (Num 0.25))) 5)).

(** A setting that is declared with the value zero. *)
Definition is_zero (x : option number) : Prop :=
  exists q, x = Some (Num q) /\ (q == 0)%Q.

(** (max - min) / min * 100 and (max - min) / max * 100 on rationals. *)
Definition spread_over_min (lo hi : Q) : Q := ((hi - lo) / lo * 100)%Q.
Definition spread_over_max (lo hi : Q) : Q := ((hi - lo) / hi * 100)%Q.

(** ** Claims of the design document that the code departs from *)

(** The difference of the quality metric with the least score as the
    denominator. *)
Definition stated_quality_difference (analyses : list AnalysisResult) : Prop :=
  forall m lo hi,
    m_quality_score (metrics (ComparisonService.generateComparison analyses ["quality"]))
      = Some m ->
    mathMin (values m) = Num lo -> mathMax (values m) = Num hi ->
    same (difference m) (Num (spread_over_min lo hi)).

(** The difference of the print-time metric, taken to be 0 when the least
    time is 0. *)
Definition stated_print_time_difference (analyses : list AnalysisResult) : Prop :=
  forall m lo hi,
    m_print_time (metrics (ComparisonService.generateComparison analyses ["printTime"]))
      = Some m ->
    mathMin (values m) = Num lo -> mathMax (values m) = Num hi ->
    same (difference m)
         (Num (if Qeq_bool lo 0 then 0 else spread_over_min lo hi)).

(** ** Outcomes of [compare] *)

Definition insufficientInput : Error :=
  {| message := "At least 2 files are required for comparison" |}.

Definition failedToAnalyze (filepath reason : string) : Error :=
  {| message := "Failed to analyze " +:+ filepath +:+ ": " +:+ reason |}.

(** The comparison that an output carries. *)
Definition comparison_of (o : ComparisonService.Output) : ComparisonResult :=
  match o with
  | ComparisonService.Structured c => c
  | ComparisonService.HtmlReport c _ => c
  | ComparisonService.PdfReport c _ => c
  end.

(** [analyses] are the results of analysing [filepaths] in order, the
    first call being the [n]-th. *)
Definition analysed_from
    (analyze : nat -> string -> AnalysisOptions -> string + AnalysisResult)
    (n : nat) (filepaths : list string) (analyses : list AnalysisResult) : Prop :=
  length analyses = length filepaths /\
  forall i filepath, filepaths !! i = Some filepath ->
    exists a, analyze (n + i)%nat filepath ComparisonService.compareOptions = inr a /\
              analyses !! i = Some a.

(** The first file whose analysis fails, with the reason. *)
Definition first_failure
    (analyze : nat -> string -> AnalysisOptions -> string + AnalysisResult)
    (n : nat) (filepaths : list string) (filepath reason : string) : Prop :=
  exists before after,
    filepaths = before ++ filepath :: after /\
    analyze (n + length before)%nat filepath ComparisonService.compareOptions
      = inl reason /\
    forall i p, before !! i = Some p ->
      exists a, analyze (n + i)%nat p ComparisonService.compareOptions = inr a.

(** What [AnalysisService.analyze] resolves to: the parsed output of a
    script that sets the status of its result to [complete]; an analysis
    that does not reach that status is rejected. *)
Definition resolves_complete
    (analyze : nat -> string -> AnalysisOptions -> string + AnalysisResult)
    : Prop :=
  forall n filepath o a, analyze n filepath o = inr a -> status a = complete.

(** An analysis service that completes every file but [/uploads/bad.gcode]. *)
Definition flakyService (n : nat) (filepath : string) (o : AnalysisOptions)
    : string + AnalysisResult :=
  if String.eqb filepath "/uploads/bad.gcode"
  then inl "Error: Python analysis failed with code 1: "%string
  else inr (Samples.analysisOf filepath complete None None).

(** ** Ranking of suggestions *)

(** The category that a priority asks for. *)
Definition priority_category (p : OptimizationService.Priority) : Category :=
  match p with
  | OptimizationService.speed => Speed
  | OptimizationService.quality => Quality
  | OptimizationService.material => Material
  end.

Definition category_eqb (c d : Category) : bool :=
  match c, d with
  | Speed, Speed | Material, Material | Quality, Quality | Safety, Safety => true
  | _, _ => false
  end.

(** The category of the suggestion equals the requested priority. *)
Definition matches_priority (o : OptimizationService.OptimizationProfile)
    (s : OptimizationSuggestion) : bool :=
  category_eqb (category s) (priority_category (OptimizationService.priority o)).

(** Impact weights: High = 3, Medium = 2, Low = 1. *)
Definition impact_weight (i : Impact) : Z :=
  match i with
  | High => 3
  | Medium => 2
  | Low => 1
  end.

(** [s1] may stand before [s2]: it matches the priority and [s2] does not,
    or both are in the same group and [s1] weighs at least as much. *)
Definition ranks_before (o : OptimizationService.OptimizationProfile)
    (s1 s2 : OptimizationSuggestion) : Prop :=
  (matches_priority o s1 = true /\ matches_priority o s2 = false) \/
  (matches_priority o s1 = matches_priority o s2 /\
   impact_weight (impact s2) <= impact_weight (impact s1)).

(** Position of a suggestion in the ranking: the group, then the weight. *)
Definition rank_key (o : OptimizationService.OptimizationProfile)
    (s : OptimizationSuggestion) : Z :=
  (if matches_priority o s then 0 else 3) + (3 - impact_weight (impact s)).

(** The suggestions of one group and one weight. *)
Definition in_rank (o : OptimizationService.OptimizationProfile)
    (m : bool) (i : Impact) (s : OptimizationSuggestion) : bool :=
  Bool.eqb (matches_priority o s) m &&
  (impact_weight (impact s) =? impact_weight i).

(** The rules that a call evaluates, in the order of evaluation, before
    ranking. *)
Definition evaluated (analysis : AnalysisResult)
    (o : OptimizationService.OptimizationProfile) : list OptimizationSuggestion :=
  (if match OptimizationService.priority o with
      | OptimizationService.speed => true | _ => false end
      || negb (OptimizationService.present
                 (OptimizationService.constraints o ?. OptimizationService.maxPrintTime))
   then OptimizationService.generateSpeedOptimizations analysis else []) ++
  (if match OptimizationService.priority o with
      | OptimizationService.quality => true | _ => false end
      || OptimizationService.present
           (OptimizationService.constraints o ?. OptimizationService.minQuality)
   then OptimizationService.generateQualityOptimizations analysis else []) ++
  (if match OptimizationService.priority o with
      | OptimizationService.material => true | _ => false end
      || OptimizationService.present
           (OptimizationService.constraints o ?. OptimizationService.maxMaterial)
   then OptimizationService.generateMaterialOptimizations analysis else []) ++
  OptimizationService.generateSafetyOptimizations analysis.

(** What identifies a rule: the category and the title of its suggestion. *)
Definition rule_key (s : OptimizationSuggestion) : Category * string :=
  (category s, title s).

Definition speed_rules : list (Category * string) :=
  [(Speed, "Increase Layer Height"); (Speed, "Reduce Infill Density");
   (Speed, "Increase Print Speed"); (Speed, "Optimize Support Settings")].

Definition quality_rules : list (Category * string) :=
  [(Quality, "Reduce Layer Height"); (Quality, "Reduce Print Speed");
   (Quality, "Increase Wall Count"); (Quality, "Optimize Temperature")].

Definition material_rules : list (Category * string) :=
  [(Material, "Reduce Infill Density"); (Material, "Optimize Wall Thickness");
   (Material, "Minimize Support Material"); (Material, "Consider Hollow Design")].

Definition safety_rules : list (Category * string) :=
  [(Safety, "High Temperature Warning"); (Safety, "High Bed Temperature Warning");
   (Safety, "Long Print Duration Warning")].

Definition rule_table : list (Category * string) :=
  speed_rules ++ quality_rules ++ material_rules ++ safety_rules.

(** As stated: the rules exclude one another, so that no advice is given
    twice by one call. *)
Definition stated_disjoint_rules (analysis : AnalysisResult)
    (o : OptimizationService.OptimizationProfile) : Prop :=
  NoDup (map title (OptimizationService.generateOptimizations analysis o)).

(** The same analysis with another slicer profile. *)
Definition with_profile (p : option SlicerProfile) (a : AnalysisResult)
    : AnalysisResult :=
  {| id := id a; filepath := filepath a; timestamp := timestamp a;
     profile := p; geometry := geometry a; layers := layers a;
     suggestions := suggestions a; status := status a;
     error_message := error_message a |}.

(** The same slicer profile with another nozzle temperature. *)
Definition with_temperature_nozzle (t : option number) (p : SlicerProfile)
    : SlicerProfile :=
  {| slicer_name := slicer_name p; version := version p;
     layer_height := layer_height p;
     first_layer_height := first_layer_height p;
     nozzle_diameter := nozzle_diameter p;
     extrusion_width := extrusion_width p; print_speed := print_speed p;
     travel_speed := travel_speed p;
     retraction_distance := retraction_distance p;
     retraction_speed := retraction_speed p;
     temperature_nozzle := t; temperature_bed := temperature_bed p;
     infill_density := infill_density p; infill_pattern := infill_pattern p;
     support_enabled := support_enabled p;
     wall_count := wall_count p; top_layers := top_layers p;
     bottom_layers := bottom_layers p |}.

Module OptimizationSamples.

(** Scenario E with a hot nozzle: 30 % infill, 0.1 mm layers, 290 degrees. *)
Definition hotProfile : SlicerProfile :=
  Samples.profileOf (Some (Num 0.1)) (Some (Num 30)) (Some (Num 290)).

Definition hotAnalysis : AnalysisResult :=
  Samples.analysisOf "/uploads/hot.gcode" complete (Some hotProfile) None.

Definition forMaterial : OptimizationService.OptimizationProfile :=
  {| OptimizationService.priority := OptimizationService.material;
     OptimizationService.constraints := None |}.

Definition forQualityBounded : OptimizationService.OptimizationProfile :=
  {| OptimizationService.priority := OptimizationService.quality;
     OptimizationService.constraints :=
       Some {| OptimizationService.maxPrintTime := Some (Num 7200);
               OptimizationService.minQuality := None;
               OptimizationService.maxMaterial := None |} |}.

End OptimizationSamples.

(** ** The life of an analysis job *)

Inductive Phase : Type :=
| NotStarted
| Running (ticks : nat)
| Terminal.

(** The life of the job [analysisId], read off the events: it starts with
    the call that draws its identifier, counts the firings of its interval,
    and ends when its child process closes. *)
Definition phase_step (analysisId : string) (ph : Phase)
    (e : AnalysisService.Event) : Phase :=
  match e, ph with
  | AnalysisService.Analyze i _, NotStarted =>
      if String.eqb i analysisId then Running 0 else ph
  | AnalysisService.Tick i, Running k =>
      if String.eqb i analysisId then Running (S k) else ph
  | AnalysisService.Close i _ _, Running _ =>
      if String.eqb i analysisId then Terminal else ph
  | _, _ => ph
  end.

Definition phase_of (es : list AnalysisService.Event) (analysisId : string)
    : Phase :=
  fold_left (phase_step analysisId) es NotStarted.

(** The progress on record after [k] firings of the interval: 0, then 20,
    30, ..., 90, 90, ... *)
Definition progress_after (k : nat) : Z :=
  match k with
  | O => 0
  | S _ => Z.min (10 + 10 * Z.of_nat k) 90
  end.

(** The records of a job seen after each event of a run. *)
Definition observed (es : list AnalysisService.Event) (analysisId : string)
    : list (option AnalysisService.JobRecord) :=
  map (fun k => AnalysisService.isProcessing
                  (AnalysisService.exec AnalysisService.init (take k es))
                  analysisId)
      (seq 0 (S (length es))).

(** As stated: the record of a job that completes shows the progress 100. *)
Definition stated_record_reaches_100 (es : list AnalysisService.Event)
    (analysisId : string) : Prop :=
  AnalysisService.settled (AnalysisService.exec AnalysisService.init es)
    !! analysisId = Some AnalysisService.resolved ->
  exists r, Some r ∈ observed es analysisId /\
            same (AnalysisService.progress r) (Num 100).

(** A job that is started with a callback, sees its interval fire twice and
    completes. *)
Definition shortRun : list AnalysisService.Event :=
  [AnalysisService.Analyze "analysis_1_abc" true;
   AnalysisService.Tick "analysis_1_abc";
   AnalysisService.Tick "analysis_1_abc";
   AnalysisService.Close "analysis_1_abc" 0 true].

Definition event_id (e : AnalysisService.Event) : string :=
  match e with
  | AnalysisService.Analyze i _ => i
  | AnalysisService.Tick i => i
  | AnalysisService.Close i _ _ => i
  end.

(** What the service holds for a job in each phase of its life. *)
Definition tracks (s : AnalysisService.Service) (ph : Phase)
    (analysisId : string) : Prop :=
  match ph with
  | NotStarted =>
      AnalysisService.calls s !! analysisId = None /\
      AnalysisService.processingJobs s !! analysisId = None /\
      AnalysisService.settled s !! analysisId = None
  | Running k =>
      exists c r,
        AnalysisService.calls s !! analysisId = Some c /\
        AnalysisService.interval_active c = true /\
        AnalysisService.processingJobs s !! analysisId = Some r /\
        same (AnalysisService.local_progress c)
             (Num (inject_Z (Z.min (10 + 10 * Z.of_nat k) 90))) /\
        same (AnalysisService.progress r) (Num (inject_Z (progress_after k))) /\
        AnalysisService.settled s !! analysisId = None
  | Terminal =>
      exists c,
        AnalysisService.calls s !! analysisId = Some c /\
        AnalysisService.interval_active c = false /\
        AnalysisService.processingJobs s !! analysisId = None /\
        is_Some (AnalysisService.settled s !! analysisId)
  end.

(** ** The command grammar *)

Module Grammar.

(** An unsigned numeral: digits, and the digits of an optional fraction. *)
Record Numeral : Type := {
  int_digits : list ascii;
  frac_digits : list ascii;
}.

(** A parameter pair, with the blanks written before it. *)
Record ParameterPair : Type := {
  gap : list ascii;
  letter : ascii;
  negative : bool;
  magnitude : Numeral;
}.

(** A command line: white space, the command token, the parameter pairs,
    white space, and an optional comment introduced by a semicolon. *)
Record CommandLine : Type := {
  leading : list ascii;
  command_letter : ascii;
  command_code : Numeral;
  parameters : list ParameterPair;
  trailing : list ascii;
  inline_comment : option (list ascii);
}.

(** White space other than a line terminator. *)
Definition isBlank (c : ascii) : bool :=
  Utils.isWhiteSpace c && negb (Utils.isLineTerminator c).

Definition all (p : ascii -> bool) (s : list ascii) : bool := forallb p s.

Definition nonempty (s : list ascii) : bool :=
  match s with [] => false | _ => true end.

(** The numeral of a command code has integer digits; the numeral of a
    parameter may consist of a fraction only, as in [.5]. *)
Definition wf_numeral (n : Numeral) : bool :=
  nonempty (int_digits n) && all Utils.isDigit (int_digits n) &&
  all Utils.isDigit (frac_digits n).

Definition wf_magnitude (n : Numeral) : bool :=
  (nonempty (int_digits n) || nonempty (frac_digits n)) &&
  all Utils.isDigit (int_digits n) && all Utils.isDigit (frac_digits n).

Definition wf_parameter (p : ParameterPair) : bool :=
  all isBlank (gap p) && Utils.isUpper (letter p) && wf_magnitude (magnitude p).

Definition wf_line (l : CommandLine) : bool :=
  all Utils.isWhiteSpace (leading l) &&
  Utils.isCommandLetter (command_letter l) &&
  wf_numeral (command_code l) &&
  forallb wf_parameter (parameters l) &&
  all Utils.isWhiteSpace (trailing l).

Definition render_numeral (n : Numeral) : list ascii :=
  int_digits n ++
  match frac_digits n with
  | [] => []
  | ds => "."%char :: ds
  end.

Definition render_signed (negative : bool) (n : Numeral) : list ascii :=
  (if negative then ["-"%char] else []) ++ render_numeral n.

Definition render_parameter (p : ParameterPair) : list ascii :=
  gap p ++ letter p :: render_signed (negative p) (magnitude p).

Definition render_parameters (ps : list ParameterPair) : list ascii :=
  concat (map render_parameter ps).

Definition render (l : CommandLine) : list ascii :=
  leading l ++
  command_letter l :: render_numeral (command_code l) ++
  render_parameters (parameters l) ++
  trailing l ++
  match inline_comment l with
  | Some text => Utils.semicolon :: text
  | None => []
  end.

(** The number that a numeral denotes. *)
Definition value (negative : bool) (n : Numeral) : number :=
  Utils.decimal_value negative (int_digits n) (frac_digits n).

Definition binding (p : ParameterPair) : string * number :=
  (Utils.str [letter p], value (negative p) (magnitude p)).

(** The parameters as a map; of two pairs with one letter the later
    counts. *)
Definition bindings (ps : list ParameterPair) : gmap string number :=
  list_to_map (rev (map binding ps)).

(** The command that a line of the grammar denotes. *)
Definition denotation (l : CommandLine) (lineNumber : number)
    : Utils.GCodeCommand :=
  {| Utils.type := Utils.str [command_letter l];
     Utils.code := value false (command_code l);
     Utils.params := bindings (parameters l);
     Utils.comment :=
       match inline_comment l with
       | Some text =>
           match Utils.trim text with
           | [] => None
           | c => Some (Utils.str c)
           end
       | None => None
       end;
     Utils.lineNumber := lineNumber;
     Utils.layer := None |}.

(** The text of a line before its first semicolon, trimmed. *)
Definition command_text (line : string) : list ascii :=
  Utils.trim
    (fst (Utils.span (fun c => negb (Ascii.eqb c Utils.semicolon))
                     (Utils.trim (Utils.chars line)))).

(** The text opens with a command token: one of G, M, T, F and a digit. *)
Definition has_token (s : list ascii) : bool :=
  match s with
  | t :: d :: _ => Utils.isCommandLetter t && Utils.isDigit d
  | _ => false
  end.

(** The lines that yield no command: blank lines, pure comments, and lines
    that do not open with a command token. *)
Definition skipped (line : string) : bool :=
  match Utils.trim (Utils.chars line) with
  | [] => true
  | c :: _ => Ascii.eqb c Utils.semicolon || negb (has_token (command_text line))
  end.

(** The line [  G1 X10.5 Y-20E.5 ; move to start ]. *)
Definition sampleLine : CommandLine :=
  {| leading := Utils.chars "  ";
     command_letter := "G";
     command_code := {| int_digits := Utils.chars "1"; frac_digits := [] |};
     parameters :=
       [{| gap := Utils.chars " "; letter := "X"; negative := false;
           magnitude := {| int_digits := Utils.chars "10"; frac_digits := Utils.chars "5" |} |};
        {| gap := Utils.chars " "; letter := "Y"; negative := true;
           magnitude := {| int_digits := Utils.chars "20"; frac_digits := [] |} |};
        {| gap := []; letter := "E"; negative := false;
           magnitude := {| int_digits := []; frac_digits := Utils.chars "5" |} |}];
     trailing := Utils.chars " ";
     inline_comment := Some (Utils.chars " move to start ") |}.

End Grammar.

(** The text does not open with a character of the class [p]. *)
Definition head_not (p : ascii -> bool) (s : list ascii) : Prop :=
  match s with
  | [] => True
  | c :: _ => p c = false
  end.

(** The text is empty or closes with a digit. *)
Definition ends_with_digit (s : list ascii) : Prop :=
  exists pre d, s = pre ++ [d] /\ Utils.isDigit d = true.

Definition not_semicolon (c : ascii) : bool := negb (Ascii.eqb c Utils.semicolon).
Definition not_terminator (c : ascii) : bool := negb (Utils.isLineTerminator c).

(** The command of a line of the grammar, without the white space around
    it and without the comment. *)
Definition core (l : Grammar.CommandLine) : list ascii :=
  Grammar.command_letter l ::
  Grammar.render_numeral (Grammar.command_code l) ++
  Grammar.render_parameters (Grammar.parameters l).

Definition tail (l : Grammar.CommandLine) : list ascii :=
  match Grammar.inline_comment l with
  | Some text => Utils.semicolon :: text
  | None => []
  end.


(** * Further functions of the services *)

(** ** [shared/utils/index.ts]: percentages and file names *)

Module SharedUtils.

(** [calculatePercentageChange] *)
Definition calculatePercentageChange (oldValue newValue : number) : number :=
  if strict_eq oldValue (Num 0) then
    if gt newValue (Num 0) then Num 100 else Num 0
  else mul (div (sub newValue oldValue) oldValue) (Num 100).

(** [toLowerCase] on 8-bit characters: the letters A to Z and the accented
    capitals of Latin-1. *)
Definition lower (c : ascii) : ascii :=
  let n := nat_of_ascii c in
  if ((65 <=? n)%nat && (n <=? 90)%nat)
     || ((192 <=? n)%nat && (n <=? 222)%nat && negb (n =? 215)%nat)
  then ascii_of_nat (n + 32) else c.

Definition toLowerCase (s : list ascii) : list ascii := map lower s.

Fixpoint lastIndexOf_from (s : list ascii) (c : ascii) (i : Z) : Z :=
  match s with
  | [] => -1
  | x :: s' =>
      let later := lastIndexOf_from s' c (i + 1) in
      if 0 <=? later then later
      else if Ascii.eqb x c then i else -1
  end.

(** [s.lastIndexOf(c)] *)
Definition lastIndexOf (s : list ascii) (c : ascii) : Z := lastIndexOf_from s c 0.

(** [s.substring(a)]: a negative start counts as 0. *)
Definition substringFrom (s : list ascii) (a : Z) : list ascii :=
  drop (Z.to_nat (Z.max 0 a)) s.

Definition validExtensions : list string := [".gcode"; ".gco"; ".g"; ".nc"].

(** [isValidGCodeFile] *)
Definition isValidGCodeFile (filename : string) : bool :=
  let extension :=
    substringFrom (toLowerCase (Utils.chars filename))
                  (lastIndexOf (Utils.chars filename) ".") in
  existsb (String.eqb (Utils.str extension)) validExtensions.

End SharedUtils.

(** ** [analysisService.ts]: chunks and statistics *)

Module ChunkProcessing.

Record ChunkCommand : Type := {
  type : string;
  code : number;
  line : number;
  raw : string;
}.

(** What [processChunk] returns; the time stamp of the clock is left out. *)
Record ChunkResult : Type := {
  chunkIndex : number;
  commands : number;
  processed : bool;
}.

Definition newline : ascii := ascii_of_nat 10.

(** [content.split('\n')] *)
Fixpoint split (content : list ascii) : list (list ascii) :=
  match content with
  | [] => [[]]
  | c :: rest =>
      if Ascii.eqb c newline then [] :: split rest
      else match split rest with
           | l :: ls => (c :: l) :: ls
           | [] => [[c]]
           end
  end.

(** [parseInt] on a string of digits. *)
Definition parseInt (digits : list ascii) : number :=
  Num (inject_Z (Utils.digits_value digits)).

(** The match of a G or M followed by digits at the start of the line: the
    two groups. *)
Definition matchGM (l : list ascii) : option (list ascii * list ascii) :=
  match l with
  | t :: rest =>
      if Ascii.eqb t "G" || Ascii.eqb t "M" then
        match fst (Utils.span Utils.isDigit rest) with
        | [] => None
        | digits => Some ([t], digits)
        end
      else None
  | [] => None
  end.

(** The body of the loop for the line of index [i]. *)
Definition processLine (chunkIndex : number) (i : nat) (text : list ascii)
    : list ChunkCommand :=
  let l := Utils.trim text in
  if match l with [] => false | _ => true end
     && negb (Utils.startsWithSemicolon l) then
    match matchGM l with
    | Some (t, digits) =>
        [{| type := Utils.str t;
            code := parseInt digits;
            line := add (Num (inject_Z (Z.of_nat i)))
                        (mul chunkIndex (Num 1000));
            raw := Utils.str l |}]
    | None => []
    end
  else [].

(** The array [commands] at the end of the loop. *)
Definition collect (content : string) (chunkIndex : number) : list ChunkCommand :=
  concat (imap (processLine chunkIndex) (split (Utils.chars content))).

(** [processChunk] *)
Definition processChunk (content : string) (chunkIndex : number) : ChunkResult :=
  {| chunkIndex := chunkIndex;
     commands := Num (inject_Z (Z.of_nat (length (collect content chunkIndex))));
     processed := true |}.

End ChunkProcessing.

Module AnalysisStats.

Record Stats : Type := {
  totalAnalyses : number;
  currentlyProcessing : number;
  avgProcessingTime : number;
}.

(** [getAnalysisStats] *)
Definition getAnalysisStats (s : AnalysisService.Service) : Stats :=
  {| totalAnalyses := Num 0;
     currentlyProcessing :=
       Num (inject_Z (Z.of_nat (size (AnalysisService.processingJobs s))));
     avgProcessingTime := Num 30 |}.

End AnalysisStats.

(** ** [comparisonService.ts]: [compareTwoFiles] *)

Module TwoFiles.

(** [m?.winner || 0] *)
Definition winner_or_0 (m : option WinnerMetric) : Z :=
  match m with
  | Some w => winner w
  | None => 0
  end.

Record Winner : Type := {
  time : option string;
  material : option string;
  quality : option string;
}.

Record Comparison : Type := {
  file1 : AnalysisResult;
  file2 : AnalysisResult;
  result : ComparisonResult;
  winners : Winner;
}.

Definition twoFileOptions : AnalysisOptions :=
  {| detailed := true; inferParameters := true;
     generateSuggestions := true; compareWithBaseline := None |}.

Section CompareTwoFiles.

(** [this.analysisService.analyze], as for [compare]; a rejection is passed
    on as it is. *)
Variable analyze : nat -> string -> AnalysisOptions -> string + AnalysisResult.

(** [compareTwoFiles]; the fields [comparison] and [winner] of the result
    are [result] and [winners]. *)
Definition compareTwoFiles (filepath1 filepath2 : string) : string + Comparison :=
  match analyze 0%nat filepath1 twoFileOptions with
  | inl reason => inl reason
  | inr analysis1 =>
      match analyze 1%nat filepath2 twoFileOptions with
      | inl reason => inl reason
      | inr analysis2 =>
          let c := ComparisonService.generateComparison
                     [analysis1; analysis2] ["printTime"; "material"; "quality"] in
          inr {| file1 := analysis1;
                 file2 := analysis2;
                 result := c;
                 winners :=
                   {| time :=
                        ComparisonService.at_index (files c)
                          (winner_or_0 (m_print_time (metrics c)));
                      material :=
                        ComparisonService.at_index (files c)
                          (winner_or_0 (m_material_usage (metrics c)));
                      quality :=
                        ComparisonService.at_index (files c)
                          (winner_or_0 (m_quality_score (metrics c))) |} |}
      end
  end.

End CompareTwoFiles.

End TwoFiles.

(** ** Vocabulary of the further properties *)

(** The condition under which generateOptimizations evaluates the rules of
    a category. *)
Definition gate (c : Category) (o : OptimizationService.OptimizationProfile)
    : bool :=
  match c with
  | Speed =>
      match OptimizationService.priority o with
      | OptimizationService.speed => true | _ => false end
      || negb (OptimizationService.present
                 (OptimizationService.constraints o ?. OptimizationService.maxPrintTime))
  | Quality =>
      match OptimizationService.priority o with
      | OptimizationService.quality => true | _ => false end
      || OptimizationService.present
           (OptimizationService.constraints o ?. OptimizationService.minQuality)
  | Material =>
      match OptimizationService.priority o with
      | OptimizationService.material => true | _ => false end
      || OptimizationService.present
           (OptimizationService.constraints o ?. OptimizationService.maxMaterial)
  | Safety => true
  end.

(** The suggestions that the rules of a category yield for an analysis. *)
Definition rules_of (c : Category) (a : AnalysisResult)
    : list OptimizationSuggestion :=
  match c with
  | Speed => OptimizationService.generateSpeedOptimizations a
  | Quality => OptimizationService.generateQualityOptimizations a
  | Material => OptimizationService.generateMaterialOptimizations a
  | Safety => OptimizationService.generateSafetyOptimizations a
  end.

(** The reports made to the progress callback of the job [analysisId], in
    the order of the calls. *)
Definition reports_of (s : AnalysisService.Service) (analysisId : string)
    : list (number * string) :=
  map (fun r => (snd (fst r), snd r))
      (List.filter (fun r => String.eqb (fst (fst r)) analysisId)
                   (AnalysisService.reported s)).

(** The reports of [n] firings of an interval: 20, 30, ..., 90, 90, ... *)
Definition analyzing_reports (n : nat) : list (Z * string) :=
  map (fun j => (Z.min (10 + 10 * Z.of_nat (S j)) 90, "analyzing"%string))
      (seq 0 n).

Definition same_reports (made : list (number * string))
    (expected : list (Z * string)) : Prop :=
  Forall2 (fun r e => same (fst r) (Num (inject_Z (fst e))) /\ snd r = snd e)
          made expected.

(** What the callback of a job has been told, by the phase of the job. *)
Definition told (s : AnalysisService.Service) (ph : Phase)
    (analysisId : string) : Prop :=
  exists n completion,
    same_reports (reports_of s analysisId) (analyzing_reports n ++ completion) /\
    (completion = [] \/ completion = [(100, "complete"%string)]) /\
    (completion <> [] <->
     AnalysisService.settled s !! analysisId = Some AnalysisService.resolved /\
     exists c, AnalysisService.calls s !! analysisId = Some c /\
               AnalysisService.has_callback c = true) /\
    (ph = NotStarted -> n = 0%nat) /\
    (forall k c, ph = Running k ->
                 AnalysisService.calls s !! analysisId = Some c ->
                 n = if AnalysisService.has_callback c then k else 0%nat).

(** * Properties *)

(** ** Ordering of numbers *)


Ltac qcmp :=
  repeat match goal with
         | |- context [(?x ?= ?y)%Q] => destruct (Qcompare_spec x y)
         | H : context [(?x ?= ?y)%Q] |- _ => destruct (Qcompare_spec x y)
         end.

Ltac num_order :=
  unfold JS.gt, JS.ge, JS.lt, JS.le, JS.strict_eq, JS.compare, is_number in *;
  repeat match goal with
         | a : number |- _ => destruct a
         end;
  simpl in *; try congruence; try tauto; qcmp;
  try congruence; try tauto; try (exfalso; lra); try (left; reflexivity);
  try (right; reflexivity).

Lemma lt_le (a b : number) : lt a b = true -> le a b = true.
Proof. num_order. Qed.

Lemma not_lt_le (a b : number) :
  is_number a -> is_number b -> lt a b = false -> le b a = true.
Proof. num_order. Qed.

Lemma le_refl (a : number) : is_number a -> le a a = true.
Proof. num_order. Qed.

Lemma le_trans (a b c : number) :
  le a b = true -> le b c = true -> le a c = true.
Proof. num_order. Qed.

Lemma strict_eq_le (a b : number) : strict_eq a b = true -> le a b = true.
Proof. num_order. Qed.

Lemma strict_eq_sym (a b : number) : strict_eq a b = strict_eq b a.
Proof. num_order. Qed.

Lemma strict_eq_is_number (a b : number) :
  strict_eq a b = true -> is_number a /\ is_number b.
Proof.
  unfold is_number.
  destruct a, b; simpl; intros H; try discriminate H; split; congruence.
Qed.

Lemma le_not_eq_lt (a b : number) :
  le a b = true -> strict_eq b a = false -> lt a b = true.
Proof. num_order. Qed.

Lemma lt_le_trans (a b c : number) :
  lt a b = true -> le b c = true -> lt a c = true.
Proof. num_order. Qed.

Lemma le_lt_trans (a b c : number) :
  le a b = true -> lt b c = true -> lt a c = true.
Proof. num_order. Qed.

Lemma le_antisym (a b : number) :
  le a b = true -> le b a = true -> strict_eq a b = true.
Proof. num_order. Qed.

Lemma le_PosInfinity (a : number) : is_number a -> le a PosInfinity = true.
Proof. num_order. Qed.

Lemma NegInfinity_le (a : number) : is_number a -> le NegInfinity a = true.
Proof. num_order. Qed.

Lemma or_default_is_number (x : option number) (d : number) :
  is_number d -> is_number (or_default x d).
Proof.
  intros Hd. unfold or_default. destruct x as [v|]; [|exact Hd].
  destruct (truthy v) eqn:Hv; [|exact Hd].
  destruct v; simpl in Hv; congruence.
Qed.

(** ** [Math.min], [Math.max] and [indexOf] *)

Lemma min2_cases (acc x : number) :
  is_number acc -> is_number x ->
  (min2 acc x = acc \/ min2 acc x = x) /\
  le (min2 acc x) acc = true /\ le (min2 acc x) x = true.
Proof.
  intros Ha Hx. unfold min2.
  assert (Hm : (if lt x acc then x else acc) =
               match acc, x with
               | NaN, _ | _, NaN => NaN
               | _, _ => if lt x acc then x else acc
               end).
  { destruct acc, x; try reflexivity; unfold is_number in *; congruence. }
  rewrite <- Hm. destruct (lt x acc) eqn:Hlt.
  - split; [now right|]. split; [now apply lt_le | now apply le_refl].
  - split; [now left|]. split; [now apply le_refl | now apply not_lt_le].
Qed.

Lemma max2_cases (acc x : number) :
  is_number acc -> is_number x ->
  (max2 acc x = acc \/ max2 acc x = x) /\
  le acc (max2 acc x) = true /\ le x (max2 acc x) = true.
Proof.
  intros Ha Hx. unfold max2.
  assert (Hm : (if lt acc x then x else acc) =
               match acc, x with
               | NaN, _ | _, NaN => NaN
               | _, _ => if lt acc x then x else acc
               end).
  { destruct acc, x; try reflexivity; unfold is_number in *; congruence. }
  rewrite <- Hm. destruct (lt acc x) eqn:Hlt.
  - split; [now right|]. split; [now apply lt_le | now apply le_refl].
  - split; [now left|]. split; [now apply le_refl | now apply not_lt_le].
Qed.

Lemma le_is_number_l (a b : number) : le a b = true -> is_number a.
Proof. unfold is_number, JS.le, JS.compare. destruct a, b; congruence. Qed.

Lemma le_is_number_r (a b : number) : le a b = true -> is_number b.
Proof. unfold is_number, JS.le, JS.compare. destruct a, b; congruence. Qed.

Lemma fold_min2_spec (xs : list number) :
  forall acc, is_number acc -> Forall is_number xs ->
  (fold_left min2 xs acc = acc \/ fold_left min2 xs acc ∈ xs) /\
  le (fold_left min2 xs acc) acc = true /\
  Forall (fun x => le (fold_left min2 xs acc) x = true) xs.
Proof.
  induction xs as [|x xs IH]; intros acc Ha Hxs; simpl.
  - split; [now left|]. split; [now apply le_refl | constructor].
  - inversion Hxs as [|? ? Hx Hxs']; subst.
    destruct (min2_cases acc x Ha Hx) as (Hc & Hla & Hlx).
    destruct (IH (min2 acc x) (le_is_number_l _ _ Hla) Hxs') as (Hm & Hle & Hall).
    split; [|split].
    + destruct Hm as [Hm|Hm].
      * rewrite Hm. destruct Hc as [Hc|Hc]; rewrite Hc; [now left|].
        right. apply list_elem_of_here.
      * right. now apply list_elem_of_further.
    + eapply le_trans; eassumption.
    + constructor; [eapply le_trans; eassumption | exact Hall].
Qed.

Lemma fold_max2_spec (xs : list number) :
  forall acc, is_number acc -> Forall is_number xs ->
  (fold_left max2 xs acc = acc \/ fold_left max2 xs acc ∈ xs) /\
  le acc (fold_left max2 xs acc) = true /\
  Forall (fun x => le x (fold_left max2 xs acc) = true) xs.
Proof.
  induction xs as [|x xs IH]; intros acc Ha Hxs; simpl.
  - split; [now left|]. split; [now apply le_refl | constructor].
  - inversion Hxs as [|? ? Hx Hxs']; subst.
    destruct (max2_cases acc x Ha Hx) as (Hc & Hla & Hlx).
    destruct (IH (max2 acc x) (le_is_number_r _ _ Hla) Hxs') as (Hm & Hle & Hall).
    split; [|split].
    + destruct Hm as [Hm|Hm].
      * rewrite Hm. destruct Hc as [Hc|Hc]; rewrite Hc; [now left|].
        right. apply list_elem_of_here.
      * right. now apply list_elem_of_further.
    + eapply le_trans; eassumption.
    + constructor; [eapply le_trans; eassumption | exact Hall].
Qed.

Lemma PosInfinity_le_inv (x : number) : le PosInfinity x = true -> x = PosInfinity.
Proof. unfold JS.le, JS.compare. destruct x; congruence. Qed.

Lemma le_NegInfinity_inv (x : number) : le x NegInfinity = true -> x = NegInfinity.
Proof. unfold JS.le, JS.compare. destruct x; congruence. Qed.

(** On a non-empty list without [NaN], [Math.min] returns an element of the
    list that is below every element. *)
Lemma mathMin_spec (xs : list number) :
  xs <> [] -> Forall is_number xs ->
  mathMin xs ∈ xs /\ Forall (fun x => le (mathMin xs) x = true) xs.
Proof.
  intros Hne Hxs. unfold mathMin.
  destruct (fold_min2_spec xs PosInfinity) as (Hm & _ & Hall);
    [unfold is_number; congruence | exact Hxs |].
  split; [|exact Hall].
  destruct Hm as [Hm|Hm]; [|exact Hm].
  destruct xs as [|x xs]; [congruence|].
  rewrite Hm in *. inversion Hall as [|? ? Hx _]; subst.
  apply PosInfinity_le_inv in Hx. subst x. apply list_elem_of_here.
Qed.

Lemma mathMax_spec (xs : list number) :
  xs <> [] -> Forall is_number xs ->
  mathMax xs ∈ xs /\ Forall (fun x => le x (mathMax xs) = true) xs.
Proof.
  intros Hne Hxs. unfold mathMax.
  destruct (fold_max2_spec xs NegInfinity) as (Hm & _ & Hall);
    [unfold is_number; congruence | exact Hxs |].
  split; [|exact Hall].
  destruct Hm as [Hm|Hm]; [|exact Hm].
  destruct xs as [|x xs]; [congruence|].
  rewrite Hm in *. inversion Hall as [|? ? Hx _]; subst.
  apply le_NegInfinity_inv in Hx. subst x. apply list_elem_of_here.
Qed.

Lemma indexOf_from_spec (xs : list number) (v : number) :
  forall i, (exists x, x ∈ xs /\ strict_eq x v = true) ->
  exists k x,
    JS.indexOf_from xs v i = i + Z.of_nat k /\
    xs !! k = Some x /\ strict_eq x v = true /\
    forall j u, (j < k)%nat -> xs !! j = Some u -> strict_eq u v = false.
Proof.
  induction xs as [|y xs IH]; intros i (x & Hin & Heq).
  - inversion Hin.
  - simpl. destruct (strict_eq y v) eqn:Hy.
    + exists 0%nat, y. repeat split; [lia | assumption | intros; lia].
    + assert (Hin' : x ∈ xs).
      { apply elem_of_cons in Hin as [->|Hin]; [congruence | exact Hin]. }
      destruct (IH (i + 1) (ex_intro _ x (conj Hin' Heq)))
        as (k & x' & Hk & Hlk & Hx' & Hbefore).
      exists (S k), x'. repeat split; [lia | exact Hlk | exact Hx' |].
      intros [|j] u Hj Hu; simpl in Hu; [congruence|].
      apply (Hbefore j u); [lia | exact Hu].
Qed.


Lemma indexOf_mathMin (xs : list number) :
  xs <> [] -> Forall is_number xs ->
  first_minimum xs (JS.indexOf xs (mathMin xs)).
Proof.
  intros Hne Hxs. destruct (mathMin_spec xs Hne Hxs) as (Hin & Hall).
  assert (Hself : strict_eq (mathMin xs) (mathMin xs) = true).
  { apply le_antisym; apply le_refl; eapply Forall_forall in Hxs; eauto. }
  destruct (indexOf_from_spec xs (mathMin xs) 0
              (ex_intro _ _ (conj Hin Hself))) as (k & v & Hk & Hlk & Hv & Hb).
  exists k, v. unfold JS.indexOf. rewrite Hk.
  split; [lia|]. split; [exact Hlk|]. split.
  - intros x Hx. eapply le_trans; [apply strict_eq_le; exact Hv|].
    eapply Forall_forall in Hall; eauto.
  - intros j u Hj Hu. eapply le_lt_trans; [apply strict_eq_le; exact Hv|].
    apply le_not_eq_lt; [|eauto].
    eapply Forall_forall in Hall; [exact Hall|].
    eapply list_elem_of_lookup_2; eauto.
Qed.

Lemma indexOf_mathMax (xs : list number) :
  xs <> [] -> Forall is_number xs ->
  first_maximum xs (JS.indexOf xs (mathMax xs)).
Proof.
  intros Hne Hxs. destruct (mathMax_spec xs Hne Hxs) as (Hin & Hall).
  assert (Hself : strict_eq (mathMax xs) (mathMax xs) = true).
  { apply le_antisym; apply le_refl; eapply Forall_forall in Hxs; eauto. }
  destruct (indexOf_from_spec xs (mathMax xs) 0
              (ex_intro _ _ (conj Hin Hself))) as (k & v & Hk & Hlk & Hv & Hb).
  exists k, v. unfold JS.indexOf. rewrite Hk.
  split; [lia|]. split; [exact Hlk|]. split.
  - intros x Hx. eapply le_trans; [|apply strict_eq_le; rewrite strict_eq_sym; exact Hv].
    eapply Forall_forall in Hall; eauto.
  - intros j u Hj Hu. eapply lt_le_trans; [|apply strict_eq_le; rewrite strict_eq_sym; exact Hv].
    apply le_not_eq_lt; [|rewrite strict_eq_sym; eauto].
    eapply Forall_forall in Hall; [exact Hall|].
    eapply list_elem_of_lookup_2; eauto.
Qed.

(** ** The quality score *)

Lemma gt_truthy (v : number) (c : Q) :
  (0 <= c)%Q -> gt v (Num c) = true -> truthy v = true.
Proof.
  intros Hc. unfold JS.gt, JS.lt, JS.compare, truthy.
  destruct v as [q| | |]; try congruence.
  destruct (Qcompare_spec c q) as [H|H|H]; try congruence. intros _.
  destruct (Qeq_bool q 0) eqn:E; [|reflexivity].
  apply Qeq_bool_iff in E. lra.
Qed.

Lemma ge_truthy (v : number) (c : Q) :
  (0 < c)%Q -> ge v (Num c) = true -> truthy v = true.
Proof.
  intros Hc. unfold JS.ge, JS.le, JS.compare, truthy.
  destruct v as [q| | |]; try congruence.
  destruct (Qeq_bool q 0) eqn:E; [|reflexivity].
  apply Qeq_bool_iff in E.
  destruct (Qcompare_spec c q) as [H|H|H]; try congruence; lra.
Qed.

Lemma and_then_gt (x : option number) (c : Q) :
  (0 <= c)%Q ->
  and_then x (fun v => gt v (Num c)) = holds x (fun v => gt v (Num c)).
Proof.
  intros Hc. destruct x as [v|]; [|reflexivity]. simpl.
  destruct (gt v (Num c)) eqn:E; [|apply andb_false_r].
  now rewrite (gt_truthy v c Hc E).
Qed.

Lemma and_then_between (x : option number) (a b : Q) :
  (0 < a)%Q ->
  and_then x (fun v => ge v (Num a) && le v (Num b)) =
  holds x (fun v => ge v (Num a) && le v (Num b)).
Proof.
  intros Ha. destruct x as [v|]; [|reflexivity]. simpl.
  destruct (ge v (Num a)) eqn:E; [|apply andb_false_r].
  now rewrite (ge_truthy v a Ha E).
Qed.

Lemma and_then_holds (x : option number) (p : number -> bool) :
  and_then x p = holds x (fun v => truthy v && p v).
Proof. now destruct x. Qed.

(** The score as a function of the five conditions of the code. *)
Lemma calculateQualityScore_conditions (analysis : AnalysisResult) :
  ComparisonService.calculateQualityScore analysis = quality_score_formula analysis.
Proof.
  unfold ComparisonService.calculateQualityScore, quality_score_formula.
  rewrite (and_then_gt _ 0.3) by (unfold Qle; simpl; lia).
  rewrite (and_then_between _ 0.15 0.25) by (unfold Qlt; simpl; lia).
  rewrite (and_then_holds _ (fun d => lt d (Num 10))).
  destruct (holds (profile analysis ?. layer_height) (fun v => gt v (Num 0.3)));
  destruct (holds (profile analysis ?. infill_density)
                  (fun v => truthy v && lt v (Num 10)));
  destruct (flag (geometry analysis ?. pattern_detection ?. support_detected));
  destruct (flag (geometry analysis ?. pattern_detection ?. bridging_detected));
  destruct (holds (profile analysis ?. layer_height)
                  (fun v => ge v (Num 0.15) && le v (Num 0.25)));
  vm_compute; reflexivity.
Qed.

Lemma clamp_range (lo hi x : Q) :
  (lo <= hi)%Q -> (lo <= clamp lo hi x <= hi)%Q.
Proof.
  intros H. unfold clamp.
  destruct (Qle_bool x lo) eqn:E1; [lra|].
  destruct (Qle_bool hi x) eqn:E2; [lra|].
  assert (~ (x <= lo)%Q) by (rewrite <- Qle_bool_iff; congruence).
  assert (~ (hi <= x)%Q) by (rewrite <- Qle_bool_iff; congruence).
  lra.
Qed.

Lemma calculateQualityScore_range (analysis : AnalysisResult) :
  exists q, ComparisonService.calculateQualityScore analysis = Num q /\
            (0 <= q <= 100)%Q.
Proof.
  rewrite calculateQualityScore_conditions. unfold quality_score_formula.
  eexists. split; [reflexivity|]. apply clamp_range. lra.
Qed.

(** The score never falls below 60: the two conditions on the layer height
    exclude each other only in part, and the penalties add up to 40. *)
Lemma calculateQualityScore_positive (analysis : AnalysisResult) :
  exists q, ComparisonService.calculateQualityScore analysis = Num q /\
            (60 <= q <= 100)%Q.
Proof.
  rewrite calculateQualityScore_conditions. unfold quality_score_formula.
  eexists. split; [reflexivity|].
  destruct (holds (profile analysis ?. layer_height) (fun v => gt v (Num 0.3)));
  destruct (holds (profile analysis ?. infill_density)
                  (fun v => truthy v && lt v (Num 10)));
  destruct (flag (geometry analysis ?. pattern_detection ?. support_detected));
  destruct (flag (geometry analysis ?. pattern_detection ?. bridging_detected));
  destruct (holds (profile analysis ?. layer_height)
                  (fun v => ge v (Num 0.15) && le v (Num 0.25)));
  vm_compute; split; congruence.
Qed.

(** ** Winner and difference of a metric *)

Lemma spread_min_finite (xs : list number) (lo hi : Q) :
  mathMin xs = Num lo -> mathMax xs = Num hi -> ~ (lo == 0)%Q ->
  mul (div (sub (mathMax xs) (mathMin xs)) (mathMin xs)) (Num 100) =
  Num (spread_over_min lo hi).
Proof.
  intros -> -> Hlo. unfold sub, neg, add, div, mul.
  destruct (Qeq_bool lo 0) eqn:E; [apply Qeq_bool_iff in E; contradiction|].
  reflexivity.
Qed.

Lemma spread_max_finite (xs : list number) (lo hi : Q) :
  mathMin xs = Num lo -> mathMax xs = Num hi -> ~ (hi == 0)%Q ->
  mul (div (sub (mathMax xs) (mathMin xs)) (mathMax xs)) (Num 100) =
  Num (spread_over_max lo hi).
Proof.
  intros -> -> Hhi. unfold sub, neg, add, div, mul.
  destruct (Qeq_bool hi 0) eqn:E; [apply Qeq_bool_iff in E; contradiction|].
  reflexivity.
Qed.

(** Division by a zero minimum: the difference is an infinity or [NaN],
    never a finite number. *)
Lemma spread_min_zero (xs : list number) (lo hi : Q) :
  mathMin xs = Num lo -> mathMax xs = Num hi -> (lo == 0)%Q ->
  ~ finite (mul (div (sub (mathMax xs) (mathMin xs)) (mathMin xs)) (Num 100)).
Proof.
  intros -> -> Hlo [q Hq]. revert Hq. unfold sub, neg, add, div, mul.
  destruct (Qeq_bool lo 0) eqn:E.
  - unfold signed_inf, sgn. destruct (hi + - lo ?= 0)%Q; simpl; congruence.
  - apply Qeq_bool_iff in Hlo. congruence.
Qed.

Lemma values_are_numbers (f : AnalysisResult -> option number)
    (analyses : list AnalysisResult) :
  Forall is_number (map (fun a => or_default (f a) (Num 0)) analyses).
Proof.
  apply Forall_forall. intros x Hx. apply list_elem_of_In, in_map_iff in Hx.
  destruct Hx as (a & <- & _). apply or_default_is_number.
  unfold is_number. congruence.
Qed.

Lemma map_nonempty {A B : Type} (f : A -> B) (l : list A) :
  (2 <= length l)%nat -> map f l <> [].
Proof. destruct l; simpl; [lia | congruence]. Qed.

Lemma length_gt_1 {A : Type} (l : list A) :
  (2 <= length l)%nat -> (1 <? Z.of_nat (length l)) = true.
Proof. intros H. apply Z.ltb_lt. lia. Qed.

(** The print-time winner is the first file with the least time, and the
    difference is (max - min) / min * 100 when the least time is not 0. *)
Lemma printTimeMetric_spec (analyses : list AnalysisResult) :
  (2 <= length analyses)%nat ->
  let m := ComparisonService.printTimeMetric analyses in
  first_minimum (values m) (winner m) /\
  forall lo hi, mathMin (values m) = Num lo -> mathMax (values m) = Num hi ->
                ~ (lo == 0)%Q -> difference m = Num (spread_over_min lo hi).
Proof.
  intros Hlen. unfold ComparisonService.printTimeMetric. simpl. split.
  - apply indexOf_mathMin; [now apply map_nonempty | apply values_are_numbers].
  - intros lo hi Hlo Hhi Hnz. rewrite length_map, (length_gt_1 _ Hlen).
    now apply spread_min_finite.
Qed.

Lemma materialMetric_spec (analyses : list AnalysisResult) :
  (2 <= length analyses)%nat ->
  let m := ComparisonService.materialMetric analyses in
  first_minimum (values m) (winner m) /\
  forall lo hi, mathMin (values m) = Num lo -> mathMax (values m) = Num hi ->
                ~ (lo == 0)%Q -> difference m = Num (spread_over_min lo hi).
Proof.
  intros Hlen. unfold ComparisonService.materialMetric. simpl. split.
  - apply indexOf_mathMin; [now apply map_nonempty|].
    apply (values_are_numbers
             (fun a => geometry a ?. extrusion_stats ?. total_filament)).
  - intros lo hi Hlo Hhi Hnz. rewrite length_map, (length_gt_1 _ Hlen).
    now apply spread_min_finite.
Qed.

Lemma quality_scores_positive (analyses : list AnalysisResult) :
  Forall (fun x => exists q, x = Num q /\ (60 <= q <= 100)%Q)
         (map ComparisonService.calculateQualityScore analyses).
Proof.
  apply Forall_forall. intros x Hx. apply list_elem_of_In, in_map_iff in Hx.
  destruct Hx as (a & <- & _). apply calculateQualityScore_positive.
Qed.

Lemma positive_are_numbers (xs : list number) :
  Forall (fun x => exists q, x = Num q /\ (60 <= q <= 100)%Q) xs ->
  Forall is_number xs.
Proof.
  intros H. eapply Forall_impl; [exact H|].
  intros x (q & -> & _). unfold is_number. congruence.
Qed.

Lemma generateComparison_print_time (analyses : list AnalysisResult)
    (ms : list string) :
  ComparisonService.includes ms "printTime" = true ->
  m_print_time (metrics (ComparisonService.generateComparison analyses ms)) =
  Some (ComparisonService.printTimeMetric analyses).
Proof. intros H. simpl. now rewrite H. Qed.

Lemma generateComparison_material (analyses : list AnalysisResult)
    (ms : list string) :
  ComparisonService.includes ms "material" = true ->
  m_material_usage (metrics (ComparisonService.generateComparison analyses ms)) =
  Some (ComparisonService.materialMetric analyses).
Proof. intros H. simpl. now rewrite H. Qed.

Lemma generateComparison_quality (analyses : list AnalysisResult)
    (ms : list string) :
  ComparisonService.includes ms "quality" = true ->
  m_quality_score (metrics (ComparisonService.generateComparison analyses ms)) =
  Some (ComparisonService.qualityMetric analyses).
Proof. intros H. simpl. now rewrite H. Qed.

(** X1: For print time and material usage the lower value wins, and away from a
    zero minimum the difference is (max - min) / min * 100. *)
Lemma lower_value_wins (analyses : list AnalysisResult) (ms : list string) :
  (2 <= length analyses)%nat ->
  ComparisonService.includes ms "printTime" = true ->
  ComparisonService.includes ms "material" = true ->
  exists t u,
    m_print_time (metrics (ComparisonService.generateComparison analyses ms)) = Some t /\
    m_material_usage (metrics (ComparisonService.generateComparison analyses ms)) = Some u /\
    first_minimum (values t) (winner t) /\
    first_minimum (values u) (winner u) /\
    (forall lo hi, mathMin (values t) = Num lo -> mathMax (values t) = Num hi ->
                   ~ (lo == 0)%Q -> difference t = Num (spread_over_min lo hi)) /\
    (forall lo hi, mathMin (values u) = Num lo -> mathMax (values u) = Num hi ->
                   ~ (lo == 0)%Q -> difference u = Num (spread_over_min lo hi)).
Proof.
  intros Hlen Ht Hu.
  exists (ComparisonService.printTimeMetric analyses),
         (ComparisonService.materialMetric analyses).
  destruct (printTimeMetric_spec analyses Hlen) as (Ht1 & Ht2).
  destruct (materialMetric_spec analyses Hlen) as (Hu1 & Hu2).
  repeat split; auto using generateComparison_print_time,
                           generateComparison_material.
Qed.

(** C1 (defect of the code): for print time and material usage the design
    document defines the difference as 0 when the least value is 0.
    Comparing a file of 600 s with a file of 0 s, the code reports winner 1
    and the difference [Infinity]; the material usage of the two files is 0
    for both, and the code reports the difference [NaN].  Neither is the
    stated 0. *)
Theorem print_time_difference_undefined_at_zero_minimum :
  let c := ComparisonService.generateComparison
             [Samples.fileA; Samples.fileIdle] ["printTime"; "material"] in
  exists t u,
    m_print_time (metrics c) = Some t /\
    m_material_usage (metrics c) = Some u /\
    values t = [Num 600; Num 0] /\ winner t = 1 /\
    difference t = PosInfinity /\
    values u = [Num 0; Num 0] /\ winner u = 0 /\
    difference u = NaN /\
    ~ stated_print_time_difference [Samples.fileA; Samples.fileIdle].
Proof.
  eexists. eexists.
  split; [reflexivity|]. split; [reflexivity|].
  repeat (split; [reflexivity|]).
  intros H. specialize (H _ 0%Q 600%Q eq_refl eq_refl eq_refl). exact H.
Qed.

(** C2, as stated, fails: with the scores 100 and 90 the reported
    difference is (100 - 90) / 100 * 100 = 10, not (100 - 90) / 90 * 100. *)
Lemma quality_difference_over_minimum_fails :
  ~ stated_quality_difference [Samples.fileA; Samples.fileB].
Proof.
  intros H. specialize (H _ 90%Q 100%Q eq_refl eq_refl eq_refl).
  vm_compute in H. discriminate H.
Qed.

(** C2 (amended): for every comparison of at least two analyses that
    requests the quality metric, the winner is the first index holding the
    greatest quality score, and the difference is (max - min) / max * 100:
    the denominator is the greatest score, that of the winner, which is
    never 0. *)
Theorem quality_winner_is_maximum (analyses : list AnalysisResult)
    (ms : list string) :
  (2 <= length analyses)%nat ->
  ComparisonService.includes ms "quality" = true ->
  exists m lo hi,
    m_quality_score (metrics (ComparisonService.generateComparison analyses ms))
      = Some m /\
    values m = map ComparisonService.calculateQualityScore analyses /\
    first_maximum (values m) (winner m) /\
    Num lo ∈ values m /\ Num hi ∈ values m /\
    (forall x, x ∈ values m -> le (Num lo) x = true /\ le x (Num hi) = true) /\
    (0 < hi)%Q /\
    difference m = Num (spread_over_max lo hi).
Proof.
  intros Hlen Hq.
  set (xs := map ComparisonService.calculateQualityScore analyses).
  assert (Hpos := quality_scores_positive analyses). fold xs in Hpos.
  assert (Hnum := positive_are_numbers xs Hpos).
  assert (Hne : xs <> []) by now apply map_nonempty.
  destruct (mathMin_spec xs Hne Hnum) as (Hmin_in & Hmin).
  destruct (mathMax_spec xs Hne Hnum) as (Hmax_in & Hmax).
  destruct (proj1 (Forall_forall _ _) Hpos _ Hmin_in) as (lo & Hlo & _).
  destruct (proj1 (Forall_forall _ _) Hpos _ Hmax_in) as (hi & Hhi & Hhi60 & _).
  exists (ComparisonService.qualityMetric analyses), lo, hi.
  split; [now apply generateComparison_quality|].
  unfold ComparisonService.qualityMetric. simpl. fold xs.
  split; [reflexivity|].
  split; [now apply indexOf_mathMax|].
  split; [now rewrite <- Hlo|]. split; [now rewrite <- Hhi|].
  split.
  { intros x Hx. rewrite <- Hlo, <- Hhi. split.
    - exact (proj1 (Forall_forall _ _) Hmin x Hx).
    - exact (proj1 (Forall_forall _ _) Hmax x Hx). }
  split; [lra|].
  unfold xs at 1. rewrite length_map, (length_gt_1 _ Hlen).
  apply spread_max_finite; [assumption | assumption | lra].
Qed.

Lemma quality_winner_is_maximum_witness :
  (2 <= length [Samples.fileA; Samples.fileB])%nat /\
  ComparisonService.includes ComparisonService.defaultMetrics "quality" = true /\
  exists m lo hi,
    m_quality_score
      (metrics (ComparisonService.generateComparison
                  [Samples.fileA; Samples.fileB] ComparisonService.defaultMetrics))
      = Some m /\
    values m = map ComparisonService.calculateQualityScore
                   [Samples.fileA; Samples.fileB] /\
    first_maximum (values m) (winner m) /\
    Num lo ∈ values m /\ Num hi ∈ values m /\
    (forall x, x ∈ values m -> le (Num lo) x = true /\ le x (Num hi) = true) /\
    (0 < hi)%Q /\
    difference m = Num (spread_over_max lo hi).
Proof.
  split; [simpl; lia|]. split; [reflexivity|].
  apply (quality_winner_is_maximum [Samples.fileA; Samples.fileB]
           ComparisonService.defaultMetrics); [simpl; lia | reflexivity].
Defined.

(** C4, as stated, fails: a declared infill density of 0 is below 10, yet
    the code applies no penalty; the score is 100 where the stated formula
    gives 85. *)
Lemma quality_score_zero_infill_unpenalised :
  ComparisonService.calculateQualityScore Samples.fileHollow = Num 100 /\
  stated_quality_score Samples.fileHollow = Num 85 /\
  ~ same (ComparisonService.calculateQualityScore Samples.fileHollow)
         (stated_quality_score Samples.fileHollow).
Proof.
  split; [reflexivity|]. split; [reflexivity|].
  vm_compute. discriminate.
Qed.

(** C4 (amended): the quality score equals 100, minus 10 if layer_height >
    0.3, minus 15 if infill_density is declared, non-zero and < 10, minus 5
    if support is detected, minus 10 if bridging is detected, plus 5 if
    layer_height lies in [0.15, 0.25], clamped to [0, 100]; every score lies
    in [0, 100]; and the score reported for a file is its own score at
    whatever position it is compared, so that permuting the files permutes
    the scores. *)
Theorem quality_score_formula_range_order
    (before after : list AnalysisResult) (a : AnalysisResult) :
  ComparisonService.calculateQualityScore a = quality_score_formula a /\
  (exists q, ComparisonService.calculateQualityScore a = Num q /\
             (0 <= q <= 100)%Q) /\
  values (ComparisonService.qualityMetric (before ++ a :: after)) !! length before
    = Some (ComparisonService.calculateQualityScore a) /\
  (forall analyses analyses',
      Permutation analyses analyses' ->
      Permutation (values (ComparisonService.qualityMetric analyses))
                  (values (ComparisonService.qualityMetric analyses'))).
Proof.
  split; [apply calculateQualityScore_conditions|].
  split; [apply calculateQualityScore_range|].
  unfold ComparisonService.qualityMetric. simpl. split.
  - rewrite map_app. simpl.
    rewrite lookup_app_r by (rewrite length_map; lia).
    rewrite length_map, Nat.sub_diag. reflexivity.
  - intros analyses analyses' Hperm. now apply Permutation_map.
Qed.

Lemma quality_score_formula_range_order_witness :
  Permutation [Samples.fileA; Samples.fileB] [Samples.fileB; Samples.fileA] /\
  ComparisonService.calculateQualityScore Samples.fileB
    = quality_score_formula Samples.fileB /\
  (exists q, ComparisonService.calculateQualityScore Samples.fileB = Num q /\
             (0 <= q <= 100)%Q) /\
  values (ComparisonService.qualityMetric
            ([Samples.fileA] ++ Samples.fileB :: [Samples.fileOptimal]))
    !! length [Samples.fileA]
    = Some (ComparisonService.calculateQualityScore Samples.fileB) /\
  Permutation
    (values (ComparisonService.qualityMetric [Samples.fileA; Samples.fileB]))
    (values (ComparisonService.qualityMetric [Samples.fileB; Samples.fileA])).
Proof.
  split; [apply perm_swap|].
  destruct (quality_score_formula_range_order
              [Samples.fileA] [Samples.fileOptimal] Samples.fileB)
    as (Hf & Hr & Hp & Hperm).
  repeat (split; [assumption|]).
  apply Hperm. apply perm_swap.
Defined.

Lemma holds_zero (x : option number) (p : number -> bool) :
  is_zero x -> (forall q, (q == 0)%Q -> p (Num q) = false) -> holds x p = false.
Proof. intros (q & -> & Hq) Hp. simpl. now apply Hp. Qed.

Lemma zero_not_gt (c q : Q) : (0 <= c)%Q -> (q == 0)%Q -> gt (Num q) (Num c) = false.
Proof.
  intros Hc Hq. unfold JS.gt, JS.lt, JS.compare.
  destruct (Qcompare_spec c q); try reflexivity. lra.
Qed.

Lemma zero_not_ge (c q : Q) : (0 < c)%Q -> (q == 0)%Q -> ge (Num q) (Num c) = false.
Proof.
  intros Hc Hq. unfold JS.ge, JS.le, JS.compare.
  destruct (Qcompare_spec c q); try reflexivity; lra.
Qed.

Lemma zero_not_truthy (q : Q) : (q == 0)%Q -> truthy (Num q) = false.
Proof. intros Hq. simpl. apply Qeq_bool_iff in Hq. now rewrite Hq. Qed.

(** C10: an analysis whose profile is absent, or whose layer_height and
    infill_density are 0, and whose geometry reports neither support nor
    bridging, scores exactly 100: missing or zero-valued settings incur no
    penalty.  No analysis scores higher, so a file with an unknown profile
    ranks with one that has the rewarded settings. *)
Theorem unknown_profile_scores_100 (a : AnalysisResult) :
  (profile a = None \/
   exists p, profile a = Some p /\
             is_zero (layer_height p) /\ is_zero (infill_density p)) ->
  flag (geometry a ?. pattern_detection ?. support_detected) = false ->
  flag (geometry a ?. pattern_detection ?. bridging_detected) = false ->
  ComparisonService.calculateQualityScore a = Num 100 /\
  ComparisonService.calculateQualityScore Samples.fileOptimal = Num 100 /\
  forall b, le (ComparisonService.calculateQualityScore b)
               (ComparisonService.calculateQualityScore a) = true.
Proof.
  intros Hp Hs Hb.
  assert (Ha : ComparisonService.calculateQualityScore a = Num 100).
  { rewrite calculateQualityScore_conditions. unfold quality_score_formula.
    rewrite Hs, Hb.
    assert (H1 : holds (profile a ?. layer_height) (fun v => gt v (Num 0.3)) = false).
    { destruct Hp as [->|(p & -> & Hh & _)]; [reflexivity|]. simpl.
      apply holds_zero; [exact Hh|]. intros q Hq. apply zero_not_gt; [lra|exact Hq]. }
    assert (H2 : holds (profile a ?. infill_density)
                       (fun v => truthy v && lt v (Num 10)) = false).
    { destruct Hp as [->|(p & -> & _ & Hd)]; [reflexivity|]. simpl.
      apply holds_zero; [exact Hd|]. intros q Hq.
      now rewrite (zero_not_truthy q Hq). }
    assert (H3 : holds (profile a ?. layer_height)
                       (fun v => ge v (Num 0.15) && le v (Num 0.25)) = false).
    { destruct Hp as [->|(p & -> & Hh & _)]; [reflexivity|]. simpl.
      apply holds_zero; [exact Hh|]. intros q Hq.
      rewrite zero_not_ge; [reflexivity | lra | exact Hq]. }
    rewrite H1, H2, H3. reflexivity. }
  split; [exact Ha|]. split; [reflexivity|].
  intros b. rewrite Ha.
  destruct (calculateQualityScore_range b) as (q & -> & Hq).
  unfold JS.le, JS.compare. destruct (Qcompare_spec q 100); try reflexivity. lra.
Qed.

Lemma unknown_profile_scores_100_witness :
  (profile Samples.fileUnknown = None \/
   exists p, profile Samples.fileUnknown = Some p /\
             is_zero (layer_height p) /\ is_zero (infill_density p)) /\
  flag (geometry Samples.fileUnknown ?. pattern_detection ?. support_detected) = false /\
  flag (geometry Samples.fileUnknown ?. pattern_detection ?. bridging_detected) = false /\
  ComparisonService.calculateQualityScore Samples.fileUnknown = Num 100 /\
  ComparisonService.calculateQualityScore Samples.fileOptimal = Num 100 /\
  forall b, le (ComparisonService.calculateQualityScore b)
               (ComparisonService.calculateQualityScore Samples.fileUnknown) = true.
Proof.
  split; [left; reflexivity|]. split; [reflexivity|]. split; [reflexivity|].
  apply (unknown_profile_scores_100 Samples.fileUnknown);
    [left; reflexivity | reflexivity | reflexivity].
Defined.

(** ** Rejections of [compare] *)






Example compare_reports_first_failure :
  ComparisonService.compare flakyService
    ["/uploads/a.gcode"; "/uploads/bad.gcode"; "/uploads/c.gcode"]
    ComparisonService.defaultMetrics ComparisonService.json
  = Throw (failedToAnalyze "/uploads/bad.gcode"
             "Error: Python analysis failed with code 1: ").
Proof. reflexivity. Qed.

(** ** The stable sort *)

Section SortFacts.

Context {A : Type}.
Variable compareFn : A -> A -> Z.
Variable key : A -> Z.
Hypothesis compareFn_key : forall x y, compareFn x y <= 0 <-> key x <= key y.

Lemma insert_perm (x : A) (l : list A) :
  Permutation (JSArray.insert compareFn x l) (x :: l).
Proof.
  induction l as [|y l IH]; simpl; [reflexivity|].
  destruct (compareFn x y <=? 0); [reflexivity|].
  rewrite IH. apply perm_swap.
Qed.

Lemma sort_perm (l : list A) : Permutation (JSArray.sort compareFn l) l.
Proof.
  induction l as [|x l IH]; simpl; [reflexivity|].
  rewrite insert_perm. now rewrite IH.
Qed.

Lemma insert_sorted (x : A) (l : list A) :
  StronglySorted (fun a b => key a <= key b) l ->
  StronglySorted (fun a b => key a <= key b) (JSArray.insert compareFn x l).
Proof.
  induction l as [|y l IH]; intros Hs; simpl.
  - constructor; constructor.
  - inversion Hs as [|? ? Hl Hy]; subst.
    destruct (compareFn x y <=? 0) eqn:E.
    + apply Z.leb_le, compareFn_key in E.
      constructor; [exact Hs|]. constructor; [exact E|].
      eapply Forall_impl; [exact Hy|]. simpl. intros z Hz. lia.
    + apply Z.leb_gt in E.
      assert (Hyx : key y <= key x).
      { destruct (Z.le_gt_cases (key x) (key y)) as [H|H]; [|lia].
        apply compareFn_key in H. lia. }
      constructor; [now apply IH|].
      apply Forall_forall. intros z Hz.
      apply list_elem_of_In in Hz.
      apply (Permutation_in _ (insert_perm x l)) in Hz.
      destruct Hz as [<-|Hz]; [exact Hyx|].
      apply list_elem_of_In in Hz.
      exact (proj1 (Forall_forall _ _) Hy z Hz).
Qed.

Lemma sort_sorted (l : list A) :
  StronglySorted (fun a b => key a <= key b) (JSArray.sort compareFn l).
Proof.
  induction l as [|x l IH]; simpl; [constructor | now apply insert_sorted].
Qed.

(** Stability: the elements of one key keep their order. *)
Lemma insert_stable (k : Z) (x : A) (l : list A) :
  List.filter (fun a => key a =? k) (JSArray.insert compareFn x l) =
  List.filter (fun a => key a =? k) (x :: l).
Proof.
  induction l as [|y l IH]; [reflexivity|].
  simpl. destruct (compareFn x y <=? 0) eqn:E; [reflexivity|].
  simpl. rewrite IH. simpl.
  destruct (key x =? k) eqn:Hx; [|reflexivity].
  destruct (key y =? k) eqn:Hy; [|reflexivity].
  apply Z.leb_gt in E. apply Z.eqb_eq in Hx, Hy.
  assert (H : key x <= key y) by lia.
  apply compareFn_key in H. lia.
Qed.

Lemma sort_stable (k : Z) (l : list A) :
  List.filter (fun a => key a =? k) (JSArray.sort compareFn l) =
  List.filter (fun a => key a =? k) l.
Proof.
  induction l as [|x l IH]; [reflexivity|].
  simpl JSArray.sort. rewrite insert_stable. simpl. now rewrite IH.
Qed.

End SortFacts.

(** ** Ranking and the rule table *)

Lemma priorityMatch_matches (s : OptimizationSuggestion)
    (o : OptimizationService.OptimizationProfile) :
  OptimizationService.priorityMatch s o = matches_priority o s.
Proof.
  unfold OptimizationService.priorityMatch, matches_priority.
  destruct (category s), (OptimizationService.priority o); reflexivity.
Qed.

Lemma impactScore_weight (i : Impact) :
  OptimizationService.impactScore i = impact_weight i.
Proof. now destruct i. Qed.

Lemma rankCompare_key (o : OptimizationService.OptimizationProfile)
    (a b : OptimizationSuggestion) :
  OptimizationService.rankCompare o a b <= 0 <-> rank_key o a <= rank_key o b.
Proof.
  unfold OptimizationService.rankCompare, rank_key.
  rewrite !priorityMatch_matches, !impactScore_weight.
  destruct (matches_priority o a), (matches_priority o b),
    (impact a), (impact b); simpl; lia.
Qed.

Lemma rank_key_before (o : OptimizationService.OptimizationProfile)
    (a b : OptimizationSuggestion) :
  rank_key o a <= rank_key o b -> ranks_before o a b.
Proof.
  unfold rank_key, ranks_before.
  destruct (matches_priority o a), (matches_priority o b),
    (impact a), (impact b); simpl; intros H;
    first [left; split; reflexivity | right; split; [reflexivity | lia] | lia].
Qed.

Lemma in_rank_key (o : OptimizationService.OptimizationProfile)
    (m : bool) (i : Impact) (s : OptimizationSuggestion) :
  in_rank o m i s =
  (rank_key o s =? (if m then 0 else 3) + (3 - impact_weight i)).
Proof.
  unfold in_rank, rank_key.
  destruct (matches_priority o s), m, (impact s), i; reflexivity.
Qed.

Lemma StronglySorted_weaken {A : Type} (R S : A -> A -> Prop) (l : list A) :
  (forall x y, R x y -> S x y) -> StronglySorted R l -> StronglySorted S l.
Proof.
  intros HRS. induction 1 as [|x l Hl IH Hx]; constructor; [exact IH|].
  eapply Forall_impl; [exact Hx|]. intros y. apply HRS.
Qed.

Lemma generateOptimizations_ranked (analysis : AnalysisResult)
    (o : OptimizationService.OptimizationProfile) :
  OptimizationService.generateOptimizations analysis o =
  OptimizationService.rankSuggestions (evaluated analysis o) o.
Proof.
  unfold OptimizationService.generateOptimizations, evaluated.
  destruct (_ || negb _); destruct (_ || OptimizationService.present
      (OptimizationService.constraints o ?. OptimizationService.minQuality));
  destruct (_ || OptimizationService.present
      (OptimizationService.constraints o ?. OptimizationService.maxMaterial));
  simpl; rewrite <- ?app_assoc; reflexivity.
Qed.

Lemma generateOptimizations_perm (analysis : AnalysisResult)
    (o : OptimizationService.OptimizationProfile) :
  Permutation (OptimizationService.generateOptimizations analysis o)
              (evaluated analysis o).
Proof. rewrite generateOptimizations_ranked. apply sort_perm. Qed.

(** C6: the list returned by generateOptimizations is the list of the
    evaluated rules sorted stably: it is a rearrangement of it in which
    every suggestion whose category equals the requested priority precedes
    every suggestion whose category does not, within each of the two groups
    the impact weights High = 3 > Medium = 2 > Low = 1 descend, and
    suggestions of one group and one weight keep the order in which their
    rules were evaluated. *)
Theorem ranking_is_stable_sort (analysis : AnalysisResult)
    (o : OptimizationService.OptimizationProfile) :
  Permutation (OptimizationService.generateOptimizations analysis o)
              (evaluated analysis o) /\
  StronglySorted (ranks_before o)
                 (OptimizationService.generateOptimizations analysis o) /\
  forall (m : bool) (i : Impact),
    List.filter (in_rank o m i)
                (OptimizationService.generateOptimizations analysis o) =
    List.filter (in_rank o m i) (evaluated analysis o).
Proof.
  split; [apply generateOptimizations_perm|].
  rewrite generateOptimizations_ranked.
  unfold OptimizationService.rankSuggestions. split.
  - eapply StronglySorted_weaken; [apply rank_key_before|].
    apply sort_sorted. apply rankCompare_key.
  - intros m i.
    pose proof (sort_stable (OptimizationService.rankCompare o) (rank_key o)
                  (rankCompare_key o)
                  ((if m then 0 else 3) + (3 - impact_weight i))
                  (evaluated analysis o)) as H.
    erewrite (filter_ext (in_rank o m i)); [|intros s; apply in_rank_key].
    rewrite H. apply filter_ext. intros s. symmetry. apply in_rank_key.
Qed.

Example ranking_of_hot_analysis :
  map (fun s => (category s, title s, impact s))
      (OptimizationService.generateOptimizations
         OptimizationSamples.hotAnalysis OptimizationSamples.forMaterial) =
  [(Material, "Reduce Infill Density", High);
   (Speed, "Increase Layer Height", High);
   (Safety, "High Temperature Warning", High);
   (Speed, "Reduce Infill Density", Medium)].
Proof. reflexivity. Qed.

Ltac pick_rules :=
  simpl;
  repeat first [ apply sublist_nil
               | apply sublist_skip
               | apply sublist_cons ].

Lemma speed_rules_fired (analysis : AnalysisResult) :
  sublist (map rule_key (OptimizationService.generateSpeedOptimizations analysis))
          speed_rules.
Proof.
  unfold OptimizationService.generateSpeedOptimizations, speed_rules.
  destruct (profile analysis ?. layer_height) as [h|];
    [destruct (truthy h && lt h (Num 0.2))|];
  (destruct (profile analysis ?. infill_density) as [d|];
    [destruct (truthy d && gt d (Num 25))|]);
  (destruct (profile analysis ?. print_speed) as [v|];
    [destruct (truthy v && lt v (Num 50))|]);
  destruct (flag (geometry analysis ?. pattern_detection ?. support_detected));
  pick_rules.
Qed.

Lemma quality_rules_fired (analysis : AnalysisResult) :
  sublist (map rule_key (OptimizationService.generateQualityOptimizations analysis))
          quality_rules.
Proof.
  unfold OptimizationService.generateQualityOptimizations, quality_rules.
  destruct (profile analysis ?. layer_height) as [h|];
    [destruct (truthy h && gt h (Num 0.2))|];
  (destruct (profile analysis ?. print_speed) as [v|];
    [destruct (truthy v && gt v (Num 60))|]);
  (destruct (profile analysis ?. wall_count) as [w|];
    [destruct (truthy w && lt w (Num 3))|]);
  (destruct (profile analysis ?. temperature_nozzle) as [t|];
    [destruct (truthy t); [destruct (gt t (Num 220))|]|]);
  pick_rules.
Qed.

Lemma material_rules_fired (analysis : AnalysisResult) :
  sublist (map rule_key (OptimizationService.generateMaterialOptimizations analysis))
          material_rules.
Proof.
  unfold OptimizationService.generateMaterialOptimizations, material_rules.
  destruct (profile analysis ?. infill_density) as [d|];
    [destruct (truthy d && gt d (Num 20))|];
  (destruct (profile analysis ?. extrusion_width) as [ew|];
    [destruct (profile analysis ?. wall_count) as [wc|];
      [destruct (truthy ew && truthy wc);
        [destruct (gt (mul ew wc) (Num 1.6))|]|]
    |destruct (profile analysis ?. wall_count) as [wc|]]);
  destruct (flag (geometry analysis ?. pattern_detection ?. support_detected));
  destruct (gt (or_default (geometry analysis ?. extrusion_stats ?. total_filament)
                           (Num 0)) (Num 100));
  pick_rules.
Qed.

Lemma safety_rules_fired (analysis : AnalysisResult) :
  sublist (map rule_key (OptimizationService.generateSafetyOptimizations analysis))
          safety_rules.
Proof.
  unfold OptimizationService.generateSafetyOptimizations, safety_rules.
  destruct (profile analysis ?. temperature_nozzle) as [t|];
    [destruct (truthy t && gt t (Num 250))|];
  (destruct (profile analysis ?. temperature_bed) as [b|];
    [destruct (truthy b && gt b (Num 100))|]);
  destruct (gt (or_default (geometry analysis ?. time_estimate) (Num 0))
               (Num (24 * 3600)));
  pick_rules.
Qed.

Lemma evaluated_rules (analysis : AnalysisResult)
    (o : OptimizationService.OptimizationProfile) :
  sublist (map rule_key (evaluated analysis o)) rule_table.
Proof.
  unfold evaluated, rule_table. rewrite !map_app.
  repeat apply sublist_app.
  - destruct (_ || _); [apply speed_rules_fired | apply sublist_nil_l].
  - destruct (_ || _); [apply quality_rules_fired | apply sublist_nil_l].
  - destruct (_ || _); [apply material_rules_fired | apply sublist_nil_l].
  - apply safety_rules_fired.
Qed.

Lemma rule_table_NoDup : NoDup rule_table.
Proof.
  unfold rule_table, speed_rules, quality_rules, material_rules, safety_rules.
  simpl. repeat constructor; rewrite ?elem_of_cons, ?elem_of_nil;
    intros H; repeat (destruct H as [H|H]; [discriminate H|]); exact H.
Qed.

(** C7, as stated, fails: with 30 % infill both the Speed rule (infill > 25)
    and the Material rule (infill > 20) hold, and one call returns the
    advice "Reduce Infill Density" twice. *)
Lemma infill_rules_overlap :
  ~ stated_disjoint_rules OptimizationSamples.hotAnalysis
      OptimizationSamples.forMaterial.
Proof.
  unfold stated_disjoint_rules. vm_compute. intros H.
  apply NoDup_cons_1_1 in H. apply H.
  do 2 apply list_elem_of_further. apply list_elem_of_here.
Qed.

(** C7 (amended): a single call to generateOptimizations returns a list in
    which no two suggestions have the same category and title, hence no
    suggestion twice: every rule is evaluated at most once and the pair of
    category and title is particular to the rule.  The rule predicates do
    not exclude one another, and the title "Reduce Infill Density" can be
    returned once under Speed and once under Material. *)
Theorem no_duplicate_suggestions (analysis : AnalysisResult)
    (o : OptimizationService.OptimizationProfile) :
  NoDup (map rule_key (OptimizationService.generateOptimizations analysis o)) /\
  NoDup (OptimizationService.generateOptimizations analysis o) /\
  sublist (map rule_key (evaluated analysis o)) rule_table.
Proof.
  assert (H : NoDup (map rule_key
                       (OptimizationService.generateOptimizations analysis o))).
  { rewrite (Permutation_map rule_key (generateOptimizations_perm analysis o)).
    eapply sublist_NoDup; [apply rule_table_NoDup | apply evaluated_rules]. }
  split; [exact H|]. split; [|apply evaluated_rules].
  eapply NoDup_fmap_1. exact H.
Qed.

(** ** Safety suggestions *)

Lemma safety_in_result (analysis : AnalysisResult)
    (o : OptimizationService.OptimizationProfile) (s : OptimizationSuggestion) :
  s ∈ OptimizationService.generateSafetyOptimizations analysis ->
  s ∈ OptimizationService.generateOptimizations analysis o.
Proof.
  intros Hs. rewrite (generateOptimizations_perm analysis o).
  unfold evaluated. rewrite !elem_of_app. auto.
Qed.

Lemma hot_nozzle_warning (a : AnalysisResult) (p : SlicerProfile) :
  profile a = Some p -> temperature_nozzle p = Some (Num 290) ->
  exists s, s ∈ OptimizationService.generateSafetyOptimizations a /\
            category s = Safety /\ impact s = High /\
            title s = "High Temperature Warning"%string.
Proof.
  intros Hp Ht. unfold OptimizationService.generateSafetyOptimizations.
  rewrite Hp. simpl chain. rewrite Ht.
  replace (truthy (Num 290) && gt (Num 290) (Num 250)) with true by reflexivity.
  destruct (temperature_bed p) as [b|];
    [destruct (truthy b && gt b (Num 100))|];
  destruct (gt _ _); simpl;
  (eexists; split; [apply list_elem_of_here | repeat split; reflexivity]).
Qed.

(** C5: the Safety rules are evaluated whatever the requested priority and
    constraints: for every analysis and every profile, every suggestion of
    generateSafetyOptimizations is in the list returned by
    generateOptimizations.  In particular, when the slicer profile has the
    nozzle temperature 290, the returned list contains a Safety suggestion
    with impact High, and analyzeForIssues reports a temperature error and a
    score that is 20 below the score of the same analysis without the
    temperature. *)
Theorem safety_rules_always_evaluated (a : AnalysisResult)
    (o : OptimizationService.OptimizationProfile) :
  (forall s, s ∈ OptimizationService.generateSafetyOptimizations a ->
             s ∈ OptimizationService.generateOptimizations a o) /\
  (forall p,
      profile a = Some p -> temperature_nozzle p = Some (Num 290) ->
      (exists s, s ∈ OptimizationService.generateOptimizations a o /\
                 category s = Safety /\ impact s = High) /\
      (exists i,
          i ∈ OptimizationService.issues (OptimizationService.analyzeForIssues a) /\
          OptimizationService.type i = OptimizationService.error /\
          OptimizationService.issue_category i = "Temperature"%string) /\
      same (OptimizationService.score (OptimizationService.analyzeForIssues a))
           (sub (OptimizationService.score
                   (OptimizationService.analyzeForIssues
                      (with_profile (Some (with_temperature_nozzle None p)) a)))
                (Num 20))).
Proof.
  split; [intros s; apply safety_in_result|].
  intros p Hp Ht.
  split.
  { destruct (hot_nozzle_warning a p Hp Ht) as (s & Hs & Hc & Hi & _).
    exists s. split; [now apply safety_in_result | now split]. }
  unfold OptimizationService.analyzeForIssues.
  simpl geometry. simpl profile. rewrite Hp. simpl chain. rewrite Ht.
  replace (truthy (Num 290) && gt (Num 290) (Num 280)) with true by reflexivity.
  destruct (flag (geometry a ?. pattern_detection ?. bridging_detected));
  destruct (flag (geometry a ?. pattern_detection ?. support_detected));
  (destruct (layer_height p) as [h|];
    [destruct (truthy h && lt h (Num 0.1))|]);
  (split;
   [exists {| OptimizationService.type := OptimizationService.error;
              OptimizationService.issue_category := "Temperature";
              OptimizationService.issue_message :=
                [Lit "Extremely high nozzle temperature: "; Interp (Num 290);
                 Lit "°C"];
              OptimizationService.suggestion :=
                Some "Verify material requirements and printer capabilities" |};
    split;
    [simpl;
     repeat first [apply list_elem_of_here | apply list_elem_of_further]
    |split; reflexivity]
   | vm_compute; reflexivity]).
Qed.

Lemma safety_rules_always_evaluated_witness :
  profile OptimizationSamples.hotAnalysis = Some OptimizationSamples.hotProfile /\
  temperature_nozzle OptimizationSamples.hotProfile = Some (Num 290) /\
  (forall s,
      s ∈ OptimizationService.generateSafetyOptimizations OptimizationSamples.hotAnalysis ->
      s ∈ OptimizationService.generateOptimizations
            OptimizationSamples.hotAnalysis OptimizationSamples.forQualityBounded) /\
  (exists s,
      s ∈ OptimizationService.generateOptimizations
            OptimizationSamples.hotAnalysis OptimizationSamples.forQualityBounded /\
      category s = Safety /\ impact s = High) /\
  (exists i,
      i ∈ OptimizationService.issues
            (OptimizationService.analyzeForIssues OptimizationSamples.hotAnalysis) /\
      OptimizationService.type i = OptimizationService.error /\
      OptimizationService.issue_category i = "Temperature"%string) /\
  same (OptimizationService.score
          (OptimizationService.analyzeForIssues OptimizationSamples.hotAnalysis))
       (sub (OptimizationService.score
               (OptimizationService.analyzeForIssues
                  (with_profile
                     (Some (with_temperature_nozzle None OptimizationSamples.hotProfile))
                     OptimizationSamples.hotAnalysis)))
            (Num 20)).
Proof.
  split; [reflexivity|]. split; [reflexivity|].
  destruct (safety_rules_always_evaluated OptimizationSamples.hotAnalysis
              OptimizationSamples.forQualityBounded) as (Hall & Hhot).
  split; [exact Hall|].
  apply (Hhot OptimizationSamples.hotProfile); reflexivity.
Defined.

Example issue_score_of_hot_analysis :
  OptimizationService.score
    (OptimizationService.analyzeForIssues OptimizationSamples.hotAnalysis) = Num 80.
Proof. reflexivity. Qed.

(** ** Progress records *)

Lemma same_sym (a b : number) : same a b -> same b a.
Proof. destruct a, b; simpl; auto. intros H. now symmetry. Qed.

Lemma same_le (a b c d : number) :
  same a b -> same c d -> le b d = true -> le a c = true.
Proof.
  destruct a, b; simpl; try tauto; destruct c, d; simpl; try tauto;
    unfold JS.le, JS.compare; intros H1 H2; try congruence.
  rewrite (Qcompare_comp _ _ H1 _ _ H2). auto.
Qed.

Lemma le_inject_Z (x y : Z) :
  x <= y -> le (Num (inject_Z x)) (Num (inject_Z y)) = true.
Proof.
  intros H. unfold JS.le, JS.compare.
  destruct (Qcompare_spec (inject_Z x) (inject_Z y)) as [E|E|E]; try reflexivity.
  rewrite <- Zlt_Qlt in E. lia.
Qed.

(** One firing of the interval: [Math.min(progress + 10, 90)]. *)
Lemma tick_progress (l : number) (z : Z) :
  same l (Num (inject_Z z)) ->
  same (mathMin [add l (Num 10); Num 90]) (Num (inject_Z (Z.min (z + 10) 90))).
Proof.
  destruct l as [q| | |]; simpl; try tauto. intros Hq.
  unfold mathMin. simpl. unfold JS.lt, JS.compare.
  assert (Hq' : (q + 10 == inject_Z (z + 10))%Q).
  { rewrite inject_Z_plus, Hq. reflexivity. }
  destruct (Qcompare_spec 90 (q + 10)) as [E|E|E]; simpl.
  - rewrite Hq' in E.
    assert (H : (90 = z + 10)%Z) by (apply inject_Z_injective; exact E).
    rewrite Z.min_l by lia. exact Hq'.
  - rewrite Hq' in E. rewrite <- (Zlt_Qlt 90) in E.
    rewrite Z.min_r by lia. reflexivity.
  - rewrite Hq' in E. rewrite <- (Zlt_Qlt _ 90) in E.
    rewrite Z.min_l by lia. exact Hq'.
Qed.

Lemma step_other (s : AnalysisService.Service) (e : AnalysisService.Event)
    (analysisId : string) :
  event_id e <> analysisId ->
  AnalysisService.calls (AnalysisService.step s e) !! analysisId
    = AnalysisService.calls s !! analysisId /\
  AnalysisService.processingJobs (AnalysisService.step s e) !! analysisId
    = AnalysisService.processingJobs s !! analysisId /\
  AnalysisService.settled (AnalysisService.step s e) !! analysisId
    = AnalysisService.settled s !! analysisId.
Proof.
  intros Hne. destruct e as [i cb|i|i code ok]; simpl in *;
    destruct (AnalysisService.calls s !! i) as [c|]; try tauto;
    try destruct (AnalysisService.interval_active c); simpl;
    rewrite ?lookup_insert_ne, ?lookup_delete_ne by exact Hne; tauto.
Qed.

Lemma phase_step_other (analysisId : string) (ph : Phase)
    (e : AnalysisService.Event) :
  event_id e <> analysisId -> phase_step analysisId ph e = ph.
Proof.
  intros Hne. destruct e as [i cb|i|i code ok], ph; simpl in *;
    try reflexivity;
    destruct (String.eqb_spec i analysisId); congruence.
Qed.

Lemma tracks_ext (s s' : AnalysisService.Service) (ph : Phase)
    (analysisId : string) :
  AnalysisService.calls s' !! analysisId = AnalysisService.calls s !! analysisId ->
  AnalysisService.processingJobs s' !! analysisId
    = AnalysisService.processingJobs s !! analysisId ->
  AnalysisService.settled s' !! analysisId
    = AnalysisService.settled s !! analysisId ->
  tracks s ph analysisId -> tracks s' ph analysisId.
Proof. intros H1 H2 H3. unfold tracks. rewrite H1, H2, H3. tauto. Qed.

Lemma step_tracks (s : AnalysisService.Service) (e : AnalysisService.Event)
    (ph : Phase) (analysisId : string) :
  tracks s ph analysisId ->
  tracks (AnalysisService.step s e) (phase_step analysisId ph e) analysisId.
Proof.
  intros Ht.
  destruct (decide (event_id e = analysisId)) as [He|He].
  2:{ rewrite phase_step_other by exact He.
      destruct (step_other s e analysisId He) as (H1 & H2 & H3).
      now apply (tracks_ext s). }
  destruct e as [i cb|i|i code ok]; simpl in He; subst i;
    destruct ph as [|k|]; simpl phase_step; rewrite ?String.eqb_refl.
  - (* the call draws the identifier *)
    destruct Ht as (Hc & Hr & Hs). simpl. rewrite Hc. simpl.
    eexists. eexists. rewrite !lookup_insert_eq.
    repeat split; try reflexivity. exact Hs.
  - destruct Ht as (c & r & Hc & Ha & Hr & Hl & Hp & Hs).
    simpl. rewrite Hc. exists c, r. auto 10.
  - destruct Ht as (c & Hc & Ha & Hr & Hs).
    simpl. rewrite Hc. exists c. auto.
  - destruct Ht as (Hc & Hr & Hs). simpl. rewrite Hc. auto.
  - (* the interval fires *)
    destruct Ht as (c & r & Hc & Ha & Hr & Hl & Hp & Hs).
    simpl. rewrite Hc, Ha. simpl.
    eexists. eexists. rewrite !lookup_insert_eq.
    assert (Hn : same (mathMin [add (AnalysisService.local_progress c) (Num 10);
                                Num 90])
                      (Num (inject_Z (Z.min (10 + 10 * Z.of_nat (S k)) 90)))).
    { pose proof (tick_progress _ _ Hl) as H.
      replace (Z.min (Z.min (10 + 10 * Z.of_nat k) 90 + 10) 90)
        with (Z.min (10 + 10 * Z.of_nat (S k)) 90) in H by lia.
      exact H. }
    repeat split; try reflexivity; try exact Hn. exact Hs.
  - destruct Ht as (c & Hc & Ha & Hr & Hs).
    simpl. rewrite Hc, Ha. exists c. auto.
  - destruct Ht as (Hc & Hr & Hs). simpl. rewrite Hc. auto.
  - (* the child closes *)
    destruct Ht as (c & r & Hc & Ha & Hr & Hl & Hp & Hs).
    simpl. rewrite Hc, Ha. simpl.
    eexists. rewrite !lookup_insert_eq, lookup_delete_eq.
    repeat split; try reflexivity. eexists; reflexivity.
  - destruct Ht as (c & Hc & Ha & Hr & Hs).
    simpl. rewrite Hc, Ha. exists c. auto.
Qed.

Lemma exec_tracks (es : list AnalysisService.Event) (analysisId : string) :
  forall s ph,
    tracks s ph analysisId ->
    tracks (AnalysisService.exec s es)
           (fold_left (phase_step analysisId) es ph) analysisId.
Proof.
  induction es as [|e es IH]; intros s ph Ht; simpl; [exact Ht|].
  apply IH. now apply step_tracks.
Qed.

Lemma init_tracks (analysisId : string) :
  tracks AnalysisService.init NotStarted analysisId.
Proof. unfold tracks, AnalysisService.init. simpl. now rewrite !lookup_empty. Qed.

Lemma run_tracks (es : list AnalysisService.Event) (analysisId : string) :
  tracks (AnalysisService.exec AnalysisService.init es)
         (phase_of es analysisId) analysisId.
Proof. apply exec_tracks, init_tracks. Qed.

Lemma phase_after_terminal (analysisId : string)
    (es : list AnalysisService.Event) :
  fold_left (phase_step analysisId) es Terminal = Terminal.
Proof.
  induction es as [|e es IH]; simpl; [reflexivity|].
  destruct e; simpl; exact IH.
Qed.

Lemma phase_after_running (analysisId : string)
    (es : list AnalysisService.Event) :
  forall k,
    fold_left (phase_step analysisId) es (Running k) = Terminal \/
    exists k', fold_left (phase_step analysisId) es (Running k) = Running k' /\
               (k <= k')%nat.
Proof.
  induction es as [|e es IH]; intros k; simpl.
  - right. exists k. split; [reflexivity | lia].
  - destruct e as [i cb|i|i code ok]; simpl.
    + apply IH.
    + destruct (String.eqb i analysisId); [|apply IH].
      destruct (IH (S k)) as [H|(k' & H & Hk)]; [now left|].
      right. exists k'. split; [exact H | lia].
    + destruct (String.eqb i analysisId); [|apply IH].
      left. apply phase_after_terminal.
Qed.

Lemma phase_of_app (es1 es2 : list AnalysisService.Event) (analysisId : string) :
  phase_of (es1 ++ es2) analysisId =
  fold_left (phase_step analysisId) es2 (phase_of es1 analysisId).
Proof. unfold phase_of. apply fold_left_app. Qed.

Lemma progress_after_mono (k k' : nat) :
  (k <= k')%nat -> progress_after k <= progress_after k'.
Proof. intros H. unfold progress_after. destruct k, k'; lia. Qed.

Lemma progress_after_range (k : nat) : 0 <= progress_after k <= 90.
Proof. unfold progress_after. destruct k; lia. Qed.

Lemma tracks_record (s : AnalysisService.Service) (ph : Phase)
    (analysisId : string) (r : AnalysisService.JobRecord) :
  tracks s ph analysisId ->
  AnalysisService.isProcessing s analysisId = Some r ->
  exists k, ph = Running k /\
            same (AnalysisService.progress r) (Num (inject_Z (progress_after k))).
Proof.
  unfold AnalysisService.isProcessing.
  destruct ph as [|k|]; simpl.
  - intros (_ & H & _) Hr. congruence.
  - intros (c & r' & _ & _ & H & _ & Hp & _) Hr.
    exists k. split; [reflexivity|]. congruence.
  - intros (c & _ & _ & H & _) Hr. congruence.
Qed.

(** C9, as stated, fails: the job of [shortRun] completes, and the records
    seen for it hold 0, 20 and 30; none holds 100.  The value 100 goes to
    the progress callback only, after the record is gone. *)
Lemma record_never_reaches_100 :
  ~ stated_record_reaches_100 shortRun "analysis_1_abc" /\
  AnalysisService.reported (AnalysisService.exec AnalysisService.init shortRun) =
  [("analysis_1_abc", Num 20, "analyzing");
   ("analysis_1_abc", Num 30, "analyzing");
   ("analysis_1_abc", Num 100, "complete")]%string.
Proof.
  split; [|reflexivity].
  intros H. destruct (H eq_refl) as (r & Hin & Hr).
  vm_compute in Hin.
  repeat (apply elem_of_cons in Hin as [Hin|Hin];
          [first [discriminate Hin
                 |injection Hin as ->; vm_compute in Hr; discriminate Hr]|]).
  inversion Hin.
Qed.

(** C9 (amended): the progress record of a job never decreases while the job
    runs: it holds 0 from the call on and min(10 + 10 k, 90) after the k-th
    firing of the interval (20, 30, ..., 90), so it never exceeds 90 and
    never holds 100.  The record is in the processing map exactly while the
    job runs: it is removed when the child process closes, which is when the
    outcome of the job is settled, and from then on isProcessing returns
    null for that job id. *)
Theorem progress_record_lifecycle (es1 es2 : list AnalysisService.Event)
    (analysisId : string) :
  let s1 := AnalysisService.exec AnalysisService.init es1 in
  let s2 := AnalysisService.exec AnalysisService.init (es1 ++ es2) in
  match phase_of es1 analysisId with
  | Running k =>
      (exists r, AnalysisService.isProcessing s1 analysisId = Some r /\
                 same (AnalysisService.progress r)
                      (Num (inject_Z (progress_after k)))) /\
      AnalysisService.settled s1 !! analysisId = None
  | NotStarted =>
      AnalysisService.isProcessing s1 analysisId = None /\
      AnalysisService.settled s1 !! analysisId = None
  | Terminal =>
      AnalysisService.isProcessing s1 analysisId = None /\
      is_Some (AnalysisService.settled s1 !! analysisId) /\
      AnalysisService.isProcessing s2 analysisId = None
  end /\
  (forall r1 r2,
      AnalysisService.isProcessing s1 analysisId = Some r1 ->
      AnalysisService.isProcessing s2 analysisId = Some r2 ->
      le (AnalysisService.progress r1) (AnalysisService.progress r2) = true) /\
  (forall r, AnalysisService.isProcessing s1 analysisId = Some r ->
             le (AnalysisService.progress r) (Num 90) = true).
Proof.
  intros s1 s2.
  pose proof (run_tracks es1 analysisId) as H1. fold s1 in H1.
  pose proof (run_tracks (es1 ++ es2) analysisId) as H2. fold s2 in H2.
  rewrite phase_of_app in H2.
  split; [|split].
  - destruct (phase_of es1 analysisId) as [|k|]; simpl in H1.
    + tauto.
    + destruct H1 as (c & r & _ & _ & Hr & _ & Hp & Hs).
      split; [exists r; auto | exact Hs].
    + destruct H1 as (c & _ & _ & Hr & Hs).
      rewrite phase_after_terminal in H2.
      destruct H2 as (c' & _ & _ & Hr' & _). auto.
  - intros r1 r2 Hr1 Hr2.
    destruct (tracks_record _ _ _ _ H1 Hr1) as (k1 & Hk1 & Hp1).
    rewrite Hk1 in H2.
    destruct (tracks_record _ _ _ _ H2 Hr2) as (k2 & Hk2 & Hp2).
    destruct (phase_after_running analysisId es2 k1) as [Ht|(k' & Hk' & Hle)];
      [congruence|].
    assert (k' = k2) by congruence. subst k'.
    eapply same_le; [exact Hp1 | exact Hp2 |].
    apply le_inject_Z, progress_after_mono, Hle.
  - intros r Hr.
    destruct (tracks_record _ _ _ _ H1 Hr) as (k & _ & Hp).
    eapply (same_le _ _ (Num 90) (Num (inject_Z 90))); [exact Hp | reflexivity |].
    apply le_inject_Z. apply progress_after_range.
Qed.

Example progress_of_short_run :
  map (option_map AnalysisService.progress) (observed shortRun "analysis_1_abc")
  = [None; Some (Num 0); Some (Num 20); Some (Num 30); None].
Proof. reflexivity. Qed.

(** ** Character classes *)

Ltac ascii_cases c :=
  destruct c as [[] [] [] [] [] [] [] []]; vm_compute; repeat split;
  first [reflexivity | discriminate | intros; discriminate | idtac].

Lemma digit_class (c : ascii) :
  Utils.isDigit c = true ->
  Utils.isWhiteSpace c = false /\ Utils.isValueChar c = true /\
  Utils.isUpper c = false /\ Utils.isLineTerminator c = false /\
  Ascii.eqb c "." = false /\ Ascii.eqb c "-" = false /\
  Ascii.eqb c "+" = false /\ Ascii.eqb c Utils.semicolon = false.
Proof. ascii_cases c. Qed.

Lemma upper_class (c : ascii) :
  Utils.isUpper c = true ->
  Utils.isWhiteSpace c = false /\ Utils.isValueChar c = false /\
  Utils.isDigit c = false /\ Utils.isLineTerminator c = false /\
  Ascii.eqb c "." = false /\ Ascii.eqb c Utils.semicolon = false.
Proof. ascii_cases c. Qed.

Lemma blank_class (c : ascii) :
  Grammar.isBlank c = true ->
  Utils.isWhiteSpace c = true /\ Utils.isValueChar c = false /\
  Utils.isDigit c = false /\ Utils.isLineTerminator c = false /\
  Utils.isUpper c = false /\
  Ascii.eqb c "." = false /\ Ascii.eqb c Utils.semicolon = false.
Proof. ascii_cases c. Qed.

Lemma space_class (c : ascii) :
  Utils.isWhiteSpace c = true ->
  Utils.isDigit c = false /\ Utils.isUpper c = false /\
  Utils.isCommandLetter c = false /\ Ascii.eqb c Utils.semicolon = false.
Proof. ascii_cases c. Qed.

Lemma command_letter_class (c : ascii) :
  Utils.isCommandLetter c = true -> Utils.isUpper c = true.
Proof. ascii_cases c. Qed.

Lemma value_char_class (c : ascii) :
  Utils.isValueChar c = true ->
  Utils.isWhiteSpace c = false /\ Utils.isLineTerminator c = false /\
  Utils.isUpper c = false /\ Ascii.eqb c Utils.semicolon = false.
Proof. ascii_cases c. Qed.

Lemma dot_class :
  Utils.isWhiteSpace "." = false /\ Utils.isDigit "." = false /\
  Utils.isValueChar "." = true /\ Utils.isValueChar "-" = true /\
  Utils.isDigit "-" = false.
Proof. repeat split. Qed.

(** ** [trim] *)

Lemma trimStart_ws (ws s : list ascii) :
  forallb Utils.isWhiteSpace ws = true ->
  Utils.trimStart (ws ++ s) = Utils.trimStart s.
Proof.
  induction ws as [|c ws IH]; simpl; [reflexivity|].
  intros H. apply andb_true_iff in H as (Hc & Hws). rewrite Hc. now apply IH.
Qed.

Lemma trimStart_keep (c : ascii) (s : list ascii) :
  Utils.isWhiteSpace c = false -> Utils.trimStart (c :: s) = c :: s.
Proof. intros H. simpl. now rewrite H. Qed.

Lemma trimEnd_cons (c : ascii) (s : list ascii) :
  Utils.isWhiteSpace c = false -> Utils.trimEnd (c :: s) = c :: Utils.trimEnd s.
Proof. intros H. simpl. rewrite H. now destruct (Utils.trimEnd s). Qed.

Lemma trimEnd_app (s t : list ascii) :
  Utils.trimEnd t <> [] -> Utils.trimEnd (s ++ t) = s ++ Utils.trimEnd t.
Proof.
  intros Ht. induction s as [|c s IH]; simpl; [reflexivity|].
  rewrite IH. destruct (s ++ Utils.trimEnd t) eqn:E; [|reflexivity].
  apply app_eq_nil in E as (_ & E). contradiction.
Qed.

Lemma trimEnd_ws (ws : list ascii) :
  forallb Utils.isWhiteSpace ws = true -> Utils.trimEnd ws = [].
Proof.
  induction ws as [|c ws IH]; simpl; [reflexivity|].
  intros H. apply andb_true_iff in H as (Hc & Hws).
  now rewrite (IH Hws), Hc.
Qed.

Lemma trimEnd_app_ws (s ws : list ascii) :
  forallb Utils.isWhiteSpace ws = true ->
  Utils.trimEnd (s ++ ws) = Utils.trimEnd s.
Proof.
  intros Hws. induction s as [|c s IH]; simpl; [now apply trimEnd_ws|].
  now rewrite IH.
Qed.

Lemma trimEnd_last (s : list ascii) (c : ascii) :
  Utils.isWhiteSpace c = false -> Utils.trimEnd (s ++ [c]) = s ++ [c].
Proof.
  intros Hc. rewrite trimEnd_app; simpl; rewrite Hc; [reflexivity | discriminate].
Qed.

Lemma trimEnd_idem (s : list ascii) :
  Utils.trimEnd (Utils.trimEnd s) = Utils.trimEnd s.
Proof.
  induction s as [|c s IH]; simpl; [reflexivity|].
  destruct (Utils.trimEnd s) as [|d t] eqn:E.
  - destruct (Utils.isWhiteSpace c) eqn:Hc; simpl; [reflexivity | now rewrite Hc].
  - simpl. simpl in IH. rewrite IH. reflexivity.
Qed.

Lemma trim_comm (s : list ascii) :
  Utils.trimStart (Utils.trimEnd s) = Utils.trimEnd (Utils.trimStart s).
Proof.
  induction s as [|c s IH]; [reflexivity|].
  destruct (Utils.isWhiteSpace c) eqn:Hc.
  - assert (Hr : Utils.trimStart (c :: s) = Utils.trimStart s)
      by (simpl; now rewrite Hc).
    rewrite Hr, <- IH. simpl Utils.trimEnd.
    destruct (Utils.trimEnd s) as [|d t]; [now rewrite Hc|].
    simpl. now rewrite Hc.
  - rewrite (trimEnd_cons c s Hc), (trimStart_keep c s Hc).
    rewrite (trimStart_keep c _ Hc), (trimEnd_cons c s Hc). reflexivity.
Qed.

Lemma trim_trimEnd (s : list ascii) :
  Utils.trim (Utils.trimEnd s) = Utils.trim s.
Proof. unfold Utils.trim. now rewrite trim_comm, trimEnd_idem, <- trim_comm. Qed.

(** ** Scanning *)

Lemma span_app (p : ascii -> bool) (a b : list ascii) :
  forallb p a = true -> head_not p b -> Utils.span p (a ++ b) = (a, b).
Proof.
  intros Ha Hb. induction a as [|c a IH]; simpl.
  - destruct b as [|d b]; [reflexivity|]. simpl in *. now rewrite Hb.
  - simpl in Ha. apply andb_true_iff in Ha as (Hc & Ha).
    rewrite Hc, (IH Ha). reflexivity.
Qed.

Lemma span_all (p : ascii -> bool) (a : list ascii) :
  forallb p a = true -> Utils.span p a = (a, []).
Proof.
  intros Ha. rewrite <- (app_nil_r a) at 1. now apply span_app.
Qed.

Lemma indexOf_from_found (a b : list ascii) (x : ascii) (i : Z) :
  forallb (fun c => negb (Ascii.eqb c x)) a = true ->
  Utils.indexOf_from (a ++ x :: b) x i = i + Z.of_nat (length a).
Proof.
  revert i. induction a as [|c a IH]; intros i Ha; simpl.
  - rewrite Ascii.eqb_refl. lia.
  - simpl in Ha. apply andb_true_iff in Ha as (Hc & Ha).
    apply negb_true_iff in Hc. rewrite Hc, (IH _ Ha). lia.
Qed.

Lemma indexOf_from_absent (a : list ascii) (x : ascii) (i : Z) :
  forallb (fun c => negb (Ascii.eqb c x)) a = true ->
  Utils.indexOf_from a x i = -1.
Proof.
  revert i. induction a as [|c a IH]; intros i Ha; simpl; [reflexivity|].
  simpl in Ha. apply andb_true_iff in Ha as (Hc & Ha).
  apply negb_true_iff in Hc. now rewrite Hc, (IH _ Ha).
Qed.

Lemma substring_prefix (a b : list ascii) :
  Utils.substring (a ++ b) 0 (Z.of_nat (length a)) = a.
Proof.
  unfold Utils.substring. rewrite Z.sub_0_r, Nat2Z.id.
  change (Z.to_nat 0) with 0%nat. rewrite drop_0.
  now rewrite take_app_length.
Qed.

Lemma substringFrom_suffix (a b : list ascii) (x : ascii) :
  Utils.substringFrom (a ++ x :: b) (Z.of_nat (length a) + 1) = b.
Proof.
  unfold Utils.substringFrom.
  replace (Z.to_nat (Z.of_nat (length a) + 1)) with (length a + 1)%nat by lia.
  rewrite <- drop_drop, drop_app_length. reflexivity.
Qed.

(** ** Numerals *)

Lemma forallb_weaken (p q : ascii -> bool) (s : list ascii) :
  (forall c, p c = true -> q c = true) ->
  forallb p s = true -> forallb q s = true.
Proof.
  intros Hpq. induction s as [|c s IH]; simpl; [reflexivity|].
  intros H. apply andb_true_iff in H as (Hc & Hs).
  now rewrite (Hpq c Hc), (IH Hs).
Qed.

Lemma wf_numeral_magnitude (n : Grammar.Numeral) :
  Grammar.wf_numeral n = true -> Grammar.wf_magnitude n = true.
Proof.
  unfold Grammar.wf_numeral, Grammar.wf_magnitude.
  intros H. apply andb_true_iff in H as (H & H3).
  apply andb_true_iff in H as (H1 & H2).
  now rewrite H1, H2, H3.
Qed.

Lemma wf_magnitude_inv (n : Grammar.Numeral) :
  Grammar.wf_magnitude n = true ->
  (Grammar.int_digits n <> [] \/ Grammar.frac_digits n <> []) /\
  forallb Utils.isDigit (Grammar.int_digits n) = true /\
  forallb Utils.isDigit (Grammar.frac_digits n) = true.
Proof.
  unfold Grammar.wf_magnitude, Grammar.all, Grammar.nonempty.
  intros H. apply andb_true_iff in H as (H & H3).
  apply andb_true_iff in H as (H1 & H2).
  split; [|now split].
  destruct (Grammar.int_digits n); [|left; discriminate].
  destruct (Grammar.frac_digits n); [discriminate | right; discriminate].
Qed.

Lemma wf_numeral_inv (n : Grammar.Numeral) :
  Grammar.wf_numeral n = true ->
  Grammar.int_digits n <> [] /\
  forallb Utils.isDigit (Grammar.int_digits n) = true /\
  forallb Utils.isDigit (Grammar.frac_digits n) = true.
Proof.
  unfold Grammar.wf_numeral, Grammar.all, Grammar.nonempty.
  intros H. apply andb_true_iff in H as (H & H3).
  apply andb_true_iff in H as (H1 & H2).
  split; [|now split].
  destruct (Grammar.int_digits n); [discriminate | discriminate].
Qed.

Lemma digits_end_with_digit (pre ds : list ascii) :
  ds <> [] -> forallb Utils.isDigit ds = true -> ends_with_digit (pre ++ ds).
Proof.
  intros Hne Hds.
  destruct (exists_last Hne) as (init & d & ->).
  rewrite forallb_app in Hds. apply andb_true_iff in Hds as (_ & Hd).
  simpl in Hd. rewrite andb_true_r in Hd.
  exists (pre ++ init), d. split; [now rewrite app_assoc | exact Hd].
Qed.

Lemma render_numeral_ends (n : Grammar.Numeral) (pre : list ascii) :
  Grammar.wf_magnitude n = true ->
  ends_with_digit (pre ++ Grammar.render_numeral n).
Proof.
  intros H. destruct (wf_magnitude_inv n H) as (Hne & Hi & Hf).
  unfold Grammar.render_numeral.
  destruct (Grammar.frac_digits n) as [|f fs] eqn:Ef.
  - rewrite app_nil_r. apply digits_end_with_digit; [|exact Hi].
    destruct Hne as [Hne|Hne]; [exact Hne | congruence].
  - rewrite app_assoc.
    replace ((pre ++ Grammar.int_digits n) ++ "."%char :: f :: fs)
      with (((pre ++ Grammar.int_digits n) ++ ["."%char]) ++ f :: fs)
      by now rewrite <- app_assoc.
    apply digits_end_with_digit; [discriminate | exact Hf].
Qed.

Lemma render_numeral_value_chars (n : Grammar.Numeral) :
  Grammar.wf_magnitude n = true ->
  forallb Utils.isValueChar (Grammar.render_numeral n) = true.
Proof.
  intros H. destruct (wf_magnitude_inv n H) as (_ & Hi & Hf).
  assert (Hd : forall c, Utils.isDigit c = true -> Utils.isValueChar c = true)
    by (intros c Hc; apply (digit_class c Hc)).
  unfold Grammar.render_numeral. rewrite forallb_app.
  rewrite (forallb_weaken _ _ _ Hd Hi). simpl.
  destruct (Grammar.frac_digits n) as [|f fs]; [reflexivity|].
  change (forallb Utils.isValueChar ("."%char :: f :: fs))
    with (Utils.isValueChar "." && forallb Utils.isValueChar (f :: fs)).
  now rewrite (forallb_weaken _ _ _ Hd Hf).
Qed.

Lemma parseUnsigned_numeral (negative : bool) (n : Grammar.Numeral) :
  Grammar.wf_magnitude n = true ->
  Utils.parseUnsigned negative (Grammar.render_numeral n) =
  Grammar.value negative n.
Proof.
  intros H. destruct (wf_magnitude_inv n H) as (Hne & Hi & Hf).
  unfold Utils.parseUnsigned, Grammar.render_numeral, Grammar.value.
  destruct (Grammar.frac_digits n) as [|f fs] eqn:Ef.
  - rewrite app_nil_r, (span_all _ _ Hi).
    destruct (Grammar.int_digits n) as [|i0 ds]; [|reflexivity].
    destruct Hne; congruence.
  - rewrite span_app; [|exact Hi | reflexivity].
    change (Ascii.eqb "." ".") with true. cbv iota.
    rewrite (span_all _ _ Hf). simpl fst.
    destruct (Grammar.int_digits n); reflexivity.
Qed.

Lemma render_numeral_head (n : Grammar.Numeral) :
  Grammar.wf_magnitude n = true ->
  exists c s, Grammar.render_numeral n = c :: s /\
              (Utils.isDigit c = true \/ c = "."%char).
Proof.
  intros H. destruct (wf_magnitude_inv n H) as (Hne & Hi & Hf).
  unfold Grammar.render_numeral.
  destruct (Grammar.int_digits n) as [|i0 ds] eqn:Ei.
  - destruct (Grammar.frac_digits n) as [|f fs]; [destruct Hne; congruence|].
    simpl. eauto.
  - simpl in Hi. apply andb_true_iff in Hi as (Hc & _). simpl. eauto.
Qed.

Lemma parseFloat_signed (negative : bool) (n : Grammar.Numeral) :
  Grammar.wf_magnitude n = true ->
  Utils.parseFloat (Grammar.render_signed negative n) = Grammar.value negative n.
Proof.
  intros H. unfold Utils.parseFloat, Grammar.render_signed.
  destruct negative; simpl app.
  - rewrite trimStart_keep by reflexivity.
    change (Ascii.eqb "-" "-") with true. cbv iota.
    now apply parseUnsigned_numeral.
  - destruct (render_numeral_head n H) as (c & s & E & Hc).
    rewrite E.
    assert (Hcs : Utils.isWhiteSpace c = false /\ Ascii.eqb c "-" = false /\
                  Ascii.eqb c "+" = false).
    { destruct Hc as [Hc| ->]; [|repeat split].
      destruct (digit_class c Hc) as (? & _ & _ & _ & _ & ? & ? & _). auto. }
    destruct Hcs as (Hw & Hm & Hp).
    rewrite trimStart_keep by exact Hw. rewrite Hm, Hp, <- E.
    now apply parseUnsigned_numeral.
Qed.

(** ** Parameter pairs *)

Lemma wf_parameter_inv (p : Grammar.ParameterPair) :
  Grammar.wf_parameter p = true ->
  forallb Grammar.isBlank (Grammar.gap p) = true /\
  Utils.isUpper (Grammar.letter p) = true /\
  Grammar.wf_magnitude (Grammar.magnitude p) = true.
Proof.
  unfold Grammar.wf_parameter, Grammar.all. intros H.
  apply andb_true_iff in H as (H & H3). apply andb_true_iff in H as (H1 & H2).
  auto.
Qed.

Lemma render_signed_value_chars (negative : bool) (n : Grammar.Numeral) :
  Grammar.wf_magnitude n = true ->
  forallb Utils.isValueChar (Grammar.render_signed negative n) = true /\
  Grammar.render_signed negative n <> [].
Proof.
  intros H. unfold Grammar.render_signed. split.
  - rewrite forallb_app, (render_numeral_value_chars n H).
    now destruct negative.
  - destruct (render_numeral_head n H) as (c & s & E & _). rewrite E.
    destruct negative; discriminate.
Qed.

Lemma matchAllParams_value (l : ascii) (v : list ascii) :
  forall acc rest,
    forallb Utils.isValueChar v = true ->
    Utils.matchAllParams (Some (l, acc)) (v ++ rest) =
    Utils.matchAllParams (Some (l, acc ++ v)) rest.
Proof.
  induction v as [|c v IH]; intros acc rest Hv; simpl.
  - now rewrite app_nil_r.
  - simpl in Hv. apply andb_true_iff in Hv as (Hc & Hv).
    rewrite Hc, (IH _ _ Hv), <- app_assoc. reflexivity.
Qed.

Lemma matchAllParams_emit (l : ascii) (acc rest : list ascii) :
  acc <> [] -> head_not Utils.isValueChar rest ->
  Utils.matchAllParams (Some (l, acc)) rest =
  ([l], acc) :: Utils.matchAllParams None rest.
Proof.
  intros Hacc Hrest. destruct acc as [|a acc]; [congruence|].
  destruct rest as [|c rest]; simpl; [reflexivity|].
  simpl in Hrest. now rewrite Hrest.
Qed.

Lemma matchAllParams_gap (gap rest : list ascii) :
  forallb Grammar.isBlank gap = true ->
  Utils.matchAllParams None (gap ++ rest) = Utils.matchAllParams None rest.
Proof.
  induction gap as [|c gap IH]; simpl; [reflexivity|]. intros H.
  apply andb_true_iff in H as (Hc & Hg).
  destruct (blank_class c Hc) as (_ & _ & _ & _ & Hu & _).
  rewrite Hu. now apply IH.
Qed.

Lemma render_parameters_cons (p : Grammar.ParameterPair)
    (ps : list Grammar.ParameterPair) :
  Grammar.render_parameters (p :: ps) =
  Grammar.gap p ++
  Grammar.letter p ::
  Grammar.render_signed (Grammar.negative p) (Grammar.magnitude p) ++
  Grammar.render_parameters ps.
Proof.
  unfold Grammar.render_parameters, Grammar.render_parameter. simpl.
  now rewrite <- app_assoc.
Qed.

Lemma render_parameters_head (ps : list Grammar.ParameterPair) :
  forallb Grammar.wf_parameter ps = true ->
  head_not Utils.isValueChar (Grammar.render_parameters ps).
Proof.
  destruct ps as [|p ps]; [intros _; exact I|].
  simpl. intros H. apply andb_true_iff in H as (Hp & _).
  destruct (wf_parameter_inv p Hp) as (Hg & Hl & _).
  rewrite render_parameters_cons.
  destruct (Grammar.gap p) as [|c g].
  - simpl. apply (upper_class _ Hl).
  - simpl in Hg. apply andb_true_iff in Hg as (Hc & _).
    simpl. apply (blank_class c Hc).
Qed.

Lemma matchAllParams_render (ps : list Grammar.ParameterPair) :
  forallb Grammar.wf_parameter ps = true ->
  Utils.matchAllParams None (Grammar.render_parameters ps) =
  map (fun p => ([Grammar.letter p],
                 Grammar.render_signed (Grammar.negative p) (Grammar.magnitude p)))
      ps.
Proof.
  induction ps as [|p ps IH]; [reflexivity|].
  simpl forallb. intros H. apply andb_true_iff in H as (Hp & Hps).
  destruct (wf_parameter_inv p Hp) as (Hg & Hl & Hm).
  destruct (render_signed_value_chars (Grammar.negative p) _ Hm) as (Hv & Hne).
  rewrite render_parameters_cons, (matchAllParams_gap _ _ Hg).
  simpl Utils.matchAllParams. rewrite Hl.
  rewrite (matchAllParams_value _ _ _ _ Hv). simpl app.
  rewrite matchAllParams_emit;
    [| exact Hne | now apply render_parameters_head].
  simpl. now rewrite (IH Hps).
Qed.

Lemma collectParams_bindings (ps : list Grammar.ParameterPair) :
  forallb Grammar.wf_parameter ps = true ->
  Utils.collectParams
    (map (fun p => ([Grammar.letter p],
                    Grammar.render_signed (Grammar.negative p)
                                          (Grammar.magnitude p))) ps) =
  Grammar.bindings ps.
Proof.
  unfold Utils.collectParams, Grammar.bindings.
  induction ps as [|p ps IH] using rev_ind; [reflexivity|].
  rewrite forallb_app. intros H. apply andb_true_iff in H as (Hps & Hp).
  simpl in Hp. rewrite andb_true_r in Hp.
  destruct (wf_parameter_inv p Hp) as (_ & _ & Hm).
  rewrite !map_app, fold_left_app, rev_app_distr. simpl.
  rewrite (IH Hps), (parseFloat_signed _ _ Hm). reflexivity.
Qed.

Lemma render_parameters_chars (ps : list Grammar.ParameterPair) :
  forallb Grammar.wf_parameter ps = true ->
  forallb not_terminator (Grammar.render_parameters ps) = true /\
  forallb not_semicolon (Grammar.render_parameters ps) = true.
Proof.
  induction ps as [|p ps IH]; [split; reflexivity|].
  simpl forallb. intros H. apply andb_true_iff in H as (Hp & Hps).
  destruct (wf_parameter_inv p Hp) as (Hg & Hl & Hm).
  destruct (render_signed_value_chars (Grammar.negative p) _ Hm) as (Hv & _).
  destruct (IH Hps) as (IH1 & IH2).
  rewrite render_parameters_cons.
  rewrite !forallb_app. simpl. rewrite !forallb_app, IH1, IH2.
  unfold not_terminator, not_semicolon.
  destruct (upper_class _ Hl) as (_ & _ & _ & Ht & _ & Hs). rewrite Ht, Hs.
  split.
  - rewrite (forallb_weaken Grammar.isBlank _ _
               (fun c Hc => f_equal negb (proj1 (proj2 (proj2 (proj2 (blank_class c Hc)))))) Hg).
    rewrite (forallb_weaken Utils.isValueChar _ _
               (fun c Hc => f_equal negb (proj1 (proj2 (value_char_class c Hc)))) Hv).
    reflexivity.
  - rewrite (forallb_weaken Grammar.isBlank _ _
               (fun c Hc => f_equal negb
                  (proj2 (proj2 (proj2 (proj2 (proj2 (proj2 (blank_class c Hc)))))))) Hg).
    rewrite (forallb_weaken Utils.isValueChar _ _
               (fun c Hc => f_equal negb
                  (proj2 (proj2 (proj2 (value_char_class c Hc))))) Hv).
    reflexivity.
Qed.

Lemma render_parameters_ends (ps : list Grammar.ParameterPair) (pre : list ascii) :
  forallb Grammar.wf_parameter ps = true ->
  ends_with_digit pre -> ends_with_digit (pre ++ Grammar.render_parameters ps).
Proof.
  revert pre. induction ps as [|p ps IH]; intros pre H Hpre.
  - unfold Grammar.render_parameters. simpl. now rewrite app_nil_r.
  - simpl in H. apply andb_true_iff in H as (Hp & Hps).
    destruct (wf_parameter_inv p Hp) as (_ & _ & Hm).
    rewrite render_parameters_cons.
    replace (pre ++ Grammar.gap p ++ Grammar.letter p ::
             Grammar.render_signed (Grammar.negative p) (Grammar.magnitude p) ++
             Grammar.render_parameters ps)
      with ((pre ++ Grammar.gap p ++ Grammar.letter p ::
             Grammar.render_signed (Grammar.negative p) (Grammar.magnitude p)) ++
            Grammar.render_parameters ps)
      by (rewrite <- !app_assoc; simpl; now rewrite <- ?app_assoc).
    apply IH; [exact Hps|].
    unfold Grammar.render_signed.
    replace (pre ++ Grammar.gap p ++ Grammar.letter p ::
             (if Grammar.negative p then ["-"%char] else []) ++
             Grammar.render_numeral (Grammar.magnitude p))
      with ((pre ++ Grammar.gap p ++ Grammar.letter p ::
             (if Grammar.negative p then ["-"%char] else [])) ++
            Grammar.render_numeral (Grammar.magnitude p))
      by (rewrite <- !app_assoc; simpl; now rewrite <- ?app_assoc).
    now apply render_numeral_ends.
Qed.

(** ** The command token *)

Lemma value_char_not_dot (c : ascii) :
  Utils.isValueChar c = false ->
  Utils.isDigit c = false /\ Ascii.eqb c "." = false.
Proof.
  unfold Utils.isValueChar. intros H.
  apply orb_false_iff in H as (H & H3). apply orb_false_iff in H as (_ & H2).
  auto.
Qed.

Lemma head_not_digit (s : list ascii) :
  head_not Utils.isValueChar s -> head_not Utils.isDigit s.
Proof. destruct s as [|c s]; simpl; [auto|]. intros H. apply (value_char_not_dot c H). Qed.

Lemma dot_all_rest (rest : list ascii) :
  forallb not_terminator rest = true ->
  fst (Utils.span (fun c => negb (Utils.isLineTerminator c)) rest) = rest.
Proof. intros H. exact (f_equal fst (span_all not_terminator rest H)). Qed.

Lemma matchCommand_token (t : ascii) (n : Grammar.Numeral) (rest : list ascii) :
  Utils.isCommandLetter t = true ->
  Grammar.wf_numeral n = true ->
  head_not Utils.isValueChar rest ->
  forallb not_terminator rest = true ->
  Utils.matchCommand (t :: Grammar.render_numeral n ++ rest) =
  Some ([t], Grammar.render_numeral n, rest).
Proof.
  intros Ht Hn Hhead Hrest.
  destruct (wf_numeral_inv n Hn) as (Hne & Hi & Hf).
  unfold Utils.matchCommand, Grammar.render_numeral. rewrite Ht.
  destruct (Grammar.frac_digits n) as [|f fs] eqn:Ef.
  - rewrite app_nil_r.
    rewrite span_app; [|exact Hi | now apply head_not_digit].
    destruct (Grammar.int_digits n) as [|i0 ds] eqn:Ei; [congruence|].
    destruct rest as [|c rest]; [reflexivity|].
    simpl in Hhead. destruct (value_char_not_dot c Hhead) as (_ & Hdot).
    rewrite Hdot. now rewrite (dot_all_rest _ Hrest).
  - rewrite <- app_assoc.
    rewrite span_app; [|exact Hi | reflexivity].
    destruct (Grammar.int_digits n) as [|i0 ds] eqn:Ei; [congruence|].
    simpl app.
    change (Ascii.eqb "." ".") with true. cbv iota.
    change (f :: fs ++ rest) with ((f :: fs) ++ rest).
    rewrite span_app; [|exact Hf | now apply head_not_digit].
    now rewrite (dot_all_rest _ Hrest).
Qed.

Lemma matchCommand_None (s : list ascii) :
  Utils.matchCommand s = None <-> Grammar.has_token s = false.
Proof.
  unfold Utils.matchCommand, Grammar.has_token.
  destruct s as [|t rest]; [tauto|].
  destruct (Utils.isCommandLetter t); [|destruct rest; simpl; tauto].
  destruct rest as [|d r]; [simpl; tauto|].
  simpl. destruct (Utils.isDigit d); [|tauto].
  destruct (Utils.span Utils.isDigit r) as (a & b).
  split; [|discriminate].
  destruct b as [|c b']; [discriminate|].
  destruct (Ascii.eqb c "."); [|discriminate].
  destruct (Utils.span Utils.isDigit b') as ([|x xs] & y); discriminate.
Qed.

Lemma span_indexOf (s : list ascii) (k : Z) :
  (exists b, s = fst (Utils.span not_semicolon s) ++ Utils.semicolon :: b /\
             Utils.indexOf_from s Utils.semicolon k =
             k + Z.of_nat (length (fst (Utils.span not_semicolon s)))) \/
  (fst (Utils.span not_semicolon s) = s /\
   Utils.indexOf_from s Utils.semicolon k = -1).
Proof.
  revert k. induction s as [|c s IH]; intros k; [right; split; reflexivity|].
  simpl. unfold not_semicolon at 1 3 5.
  destruct (Ascii.eqb_spec c Utils.semicolon) as [->|Hc]; simpl.
  - left. exists s. split; [reflexivity | lia].
  - destruct (IH (k + 1)) as [(b & Hs & Hi)|(Hs & Hi)];
      destruct (Utils.span not_semicolon s) as (a & r); simpl in *.
    + left. exists b. split; [now rewrite <- Hs | lia].
    + right. split; [now rewrite Hs | exact Hi].
Qed.

Lemma trimStart_idem (s : list ascii) :
  Utils.trimStart (Utils.trimStart s) = Utils.trimStart s.
Proof.
  induction s as [|c s IH]; [reflexivity|]. simpl.
  destruct (Utils.isWhiteSpace c) eqn:Hc; [exact IH|]. simpl. now rewrite Hc.
Qed.

Lemma trim_idem (s : list ascii) : Utils.trim (Utils.trim s) = Utils.trim s.
Proof.
  unfold Utils.trim.
  now rewrite trim_comm, trimEnd_idem, trimStart_idem.
Qed.

(** The command text that [parseGCodeCommand] matches is the text before
    the first semicolon, trimmed. *)
Lemma command_before_semicolon (c : ascii) (r : list ascii) :
  Ascii.eqb c Utils.semicolon = false ->
  Utils.trim (c :: r) = c :: r ->
  fst (if 0 <? Utils.indexOf (c :: r) Utils.semicolon
       then (Utils.trim (Utils.substring (c :: r) 0
                           (Utils.indexOf (c :: r) Utils.semicolon)),
             Utils.trim (Utils.substringFrom (c :: r)
                           (Utils.indexOf (c :: r) Utils.semicolon + 1)))
       else (c :: r, [])) =
  Utils.trim (fst (Utils.span not_semicolon (c :: r))).
Proof.
  intros Hc Htrim. unfold Utils.indexOf.
  destruct (span_indexOf (c :: r) 0) as [(b & Hs & Hi)|(Hs & Hi)].
  - rewrite Hi.
    set (a := fst (Utils.span not_semicolon (c :: r))) in *.
    assert (Ha : a <> []).
    { intros E. rewrite E in Hs. simpl in Hs. injection Hs as Hs _.
      rewrite Hs, Ascii.eqb_refl in Hc. discriminate. }
    replace (0 <? 0 + Z.of_nat (length a)) with true.
    2:{ symmetry. apply Z.ltb_lt. destruct a; [congruence | simpl; lia]. }
    cbn [fst]. rewrite Z.add_0_l. rewrite Hs at 1.
    now rewrite substring_prefix.
  - rewrite Hi. change (0 <? -1) with false. cbn [fst].
    rewrite Hs. now rewrite Htrim.
Qed.

(** ** Lines of the grammar *)

Lemma wf_line_inv (l : Grammar.CommandLine) :
  Grammar.wf_line l = true ->
  forallb Utils.isWhiteSpace (Grammar.leading l) = true /\
  Utils.isCommandLetter (Grammar.command_letter l) = true /\
  Grammar.wf_numeral (Grammar.command_code l) = true /\
  forallb Grammar.wf_parameter (Grammar.parameters l) = true /\
  forallb Utils.isWhiteSpace (Grammar.trailing l) = true.
Proof.
  unfold Grammar.wf_line, Grammar.all. intros H.
  apply andb_true_iff in H as (H & H5). apply andb_true_iff in H as (H & H4).
  apply andb_true_iff in H as (H & H3). apply andb_true_iff in H as (H1 & H2).
  auto.
Qed.

Lemma render_split (l : Grammar.CommandLine) :
  Grammar.render l = Grammar.leading l ++ (core l ++ Grammar.trailing l) ++ tail l.
Proof.
  unfold Grammar.render, core, tail. simpl. now rewrite <- !app_assoc.
Qed.

Lemma core_ends (l : Grammar.CommandLine) :
  Grammar.wf_line l = true -> ends_with_digit (core l).
Proof.
  intros H. destruct (wf_line_inv l H) as (_ & _ & Hn & Hps & _).
  unfold core.
  change (Grammar.command_letter l ::
          Grammar.render_numeral (Grammar.command_code l) ++
          Grammar.render_parameters (Grammar.parameters l))
    with (([Grammar.command_letter l] ++
           Grammar.render_numeral (Grammar.command_code l)) ++
          Grammar.render_parameters (Grammar.parameters l)).
  apply render_parameters_ends; [exact Hps|].
  apply render_numeral_ends. now apply wf_numeral_magnitude.
Qed.

Lemma trimEnd_ends (s ws : list ascii) :
  ends_with_digit s -> forallb Utils.isWhiteSpace ws = true ->
  Utils.trimEnd (s ++ ws) = s.
Proof.
  intros (pre & d & -> & Hd) Hws. rewrite (trimEnd_app_ws _ _ Hws).
  apply trimEnd_last. apply (digit_class d Hd).
Qed.

Lemma core_no_semicolon (l : Grammar.CommandLine) :
  Grammar.wf_line l = true ->
  forallb not_semicolon (core l ++ Grammar.trailing l) = true.
Proof.
  intros H. destruct (wf_line_inv l H) as (_ & Ht & Hn & Hps & Hws).
  destruct (render_parameters_chars _ Hps) as (_ & Hp).
  pose proof (render_numeral_value_chars _ (wf_numeral_magnitude _ Hn)) as Hv.
  unfold core. rewrite forallb_app. simpl. rewrite forallb_app, Hp.
  unfold not_semicolon at 1.
  destruct (upper_class _ (command_letter_class _ Ht)) as (_ & _ & _ & _ & _ & Hs).
  rewrite Hs.
  rewrite (forallb_weaken Utils.isValueChar not_semicolon _
             (fun c Hc => f_equal negb
                (proj2 (proj2 (proj2 (value_char_class c Hc))))) Hv).
  rewrite (forallb_weaken Utils.isWhiteSpace not_semicolon _
             (fun c Hc => f_equal negb
                (proj2 (proj2 (proj2 (space_class c Hc))))) Hws).
  reflexivity.
Qed.

Lemma core_matches (l : Grammar.CommandLine) :
  Grammar.wf_line l = true ->
  Utils.matchCommand (core l) =
  Some ([Grammar.command_letter l],
        Grammar.render_numeral (Grammar.command_code l),
        Grammar.render_parameters (Grammar.parameters l)).
Proof.
  intros H. destruct (wf_line_inv l H) as (_ & Ht & Hn & Hps & _).
  apply matchCommand_token; try assumption.
  - now apply render_parameters_head.
  - apply (render_parameters_chars _ Hps).
Qed.

Lemma core_head (l : Grammar.CommandLine) :
  Grammar.wf_line l = true ->
  Utils.isWhiteSpace (Grammar.command_letter l) = false /\
  Ascii.eqb (Grammar.command_letter l) Utils.semicolon = false.
Proof.
  intros H. destruct (wf_line_inv l H) as (_ & Ht & _).
  destruct (upper_class _ (command_letter_class _ Ht)) as (? & _ & _ & _ & _ & ?).
  auto.
Qed.

Lemma trim_core (l : Grammar.CommandLine) (ws : list ascii) :
  Grammar.wf_line l = true -> forallb Utils.isWhiteSpace ws = true ->
  Utils.trim (core l ++ ws) = core l.
Proof.
  intros H Hws. unfold Utils.trim.
  destruct (core_head l H) as (Hw & _).
  change (core l ++ ws)
    with (Grammar.command_letter l ::
          (Grammar.render_numeral (Grammar.command_code l) ++
           Grammar.render_parameters (Grammar.parameters l)) ++ ws).
  rewrite (trimStart_keep _ _ Hw).
  apply (trimEnd_ends (core l) ws); [now apply core_ends | exact Hws].
Qed.

(** The trimmed line: the command itself, or the command, the blanks after
    it, the semicolon and the comment without the white space at its end. *)
Lemma trim_render (l : Grammar.CommandLine) :
  Grammar.wf_line l = true ->
  Utils.trim (Grammar.render l) =
  match Grammar.inline_comment l with
  | Some text =>
      (core l ++ Grammar.trailing l) ++ Utils.semicolon :: Utils.trimEnd text
  | None => core l
  end.
Proof.
  intros H. destruct (wf_line_inv l H) as (Hlead & _ & _ & _ & Hws).
  destruct (core_head l H) as (Hw & _).
  rewrite render_split. unfold Utils.trim.
  rewrite (trimStart_ws _ _ Hlead).
  change ((core l ++ Grammar.trailing l) ++ tail l)
    with (Grammar.command_letter l ::
          ((Grammar.render_numeral (Grammar.command_code l) ++
            Grammar.render_parameters (Grammar.parameters l)) ++
           Grammar.trailing l) ++ tail l).
  rewrite (trimStart_keep _ _ Hw).
  change (Grammar.command_letter l ::
          ((Grammar.render_numeral (Grammar.command_code l) ++
            Grammar.render_parameters (Grammar.parameters l)) ++
           Grammar.trailing l) ++ tail l)
    with ((core l ++ Grammar.trailing l) ++ tail l).
  unfold tail. destruct (Grammar.inline_comment l) as [text|].
  - rewrite trimEnd_app;
      rewrite (trimEnd_cons Utils.semicolon text eq_refl);
      [reflexivity | discriminate].
  - rewrite app_nil_r. apply trimEnd_ends; [now apply core_ends | exact Hws].
Qed.

(** ** [parseGCodeCommand] *)

(** The function once the trimmed line is known to open with a character
    other than the semicolon. *)
Lemma parse_of_trimmed (line : string) (lineNumber : number)
    (c : ascii) (r : list ascii) :
  Utils.trim (Utils.chars line) = c :: r ->
  Ascii.eqb c Utils.semicolon = false ->
  Utils.parseGCodeCommand line lineNumber =
  let parts :=
    if 0 <? Utils.indexOf (c :: r) Utils.semicolon
    then (Utils.trim (Utils.substring (c :: r) 0
                        (Utils.indexOf (c :: r) Utils.semicolon)),
          Utils.trim (Utils.substringFrom (c :: r)
                        (Utils.indexOf (c :: r) Utils.semicolon + 1)))
    else (c :: r, []) in
  match Utils.matchCommand (fst parts) with
  | None => None
  | Some (type, code, paramsStr) =>
      Some {| Utils.type := Utils.str type;
              Utils.code := Utils.parseFloat code;
              Utils.params :=
                Utils.collectParams (Utils.matchAllParams None paramsStr);
              Utils.comment := match snd parts with
                               | [] => None
                               | _ => Some (Utils.str (snd parts))
                               end;
              Utils.lineNumber := lineNumber;
              Utils.layer := None |}
  end.
Proof.
  intros Htrim Hc. unfold Utils.parseGCodeCommand. rewrite Htrim.
  cbn [Utils.startsWithSemicolon orb]. rewrite Hc. cbv zeta.
  destruct (if 0 <? Utils.indexOf (c :: r) Utils.semicolon then _ else _)
    as (command, comment).
  cbn [fst snd]. destruct (Utils.matchCommand command) as [[[ty cd] ps]|];
    [|reflexivity].
  destruct comment; reflexivity.
Qed.

Lemma parse_skipped (line : string) (lineNumber : number) :
  Utils.parseGCodeCommand line lineNumber = None <-> Grammar.skipped line = true.
Proof.
  unfold Grammar.skipped, Grammar.command_text.
  destruct (Utils.trim (Utils.chars line)) as [|c r] eqn:Htrim.
  - unfold Utils.parseGCodeCommand. rewrite Htrim. simpl. tauto.
  - destruct (Ascii.eqb c Utils.semicolon) eqn:Hc.
    + unfold Utils.parseGCodeCommand. rewrite Htrim.
      cbn [Utils.startsWithSemicolon orb]. rewrite Hc. simpl. tauto.
    + rewrite (parse_of_trimmed line lineNumber c r Htrim Hc). cbv zeta.
      assert (Hidem : Utils.trim (c :: r) = c :: r)
        by (rewrite <- Htrim; apply trim_idem).
      rewrite (command_before_semicolon c r Hc Hidem).
      cbn [orb]. rewrite negb_true_iff, <- matchCommand_None.
      destruct (Utils.matchCommand _) as [[[ty cd] ps]|]; [|tauto].
      split; discriminate.
Qed.

Lemma chars_str (s : list ascii) : Utils.chars (Utils.str s) = s.
Proof. apply list_ascii_of_string_of_list_ascii. Qed.

Lemma parse_render (l : Grammar.CommandLine) (lineNumber : number) :
  Grammar.wf_line l = true ->
  Utils.parseGCodeCommand (Utils.str (Grammar.render l)) lineNumber =
  Some (Grammar.denotation l lineNumber).
Proof.
  intros H. destruct (wf_line_inv l H) as (_ & _ & Hn & Hps & Hws).
  destruct (core_head l H) as (_ & Hsemi).
  pose proof (trim_render l H) as Htrim.
  rewrite <- (chars_str (Grammar.render l)) in Htrim.
  assert (Hparts :
    exists r,
      Utils.trim (Utils.chars (Utils.str (Grammar.render l)))
        = Grammar.command_letter l :: r /\
      (if 0 <? Utils.indexOf (Grammar.command_letter l :: r) Utils.semicolon
       then (Utils.trim (Utils.substring (Grammar.command_letter l :: r) 0
               (Utils.indexOf (Grammar.command_letter l :: r) Utils.semicolon)),
             Utils.trim (Utils.substringFrom (Grammar.command_letter l :: r)
               (Utils.indexOf (Grammar.command_letter l :: r) Utils.semicolon + 1)))
       else (Grammar.command_letter l :: r, [])) =
      (core l, match Grammar.inline_comment l with
               | Some text => Utils.trim text
               | None => []
               end)).
  { destruct (Grammar.inline_comment l) as [text|] eqn:Ec.
    - eexists. split; [rewrite Htrim; unfold core; simpl; reflexivity|].
      change (Grammar.command_letter l ::
              ((Grammar.render_numeral (Grammar.command_code l) ++
                Grammar.render_parameters (Grammar.parameters l)) ++
               Grammar.trailing l) ++ Utils.semicolon :: Utils.trimEnd text)
        with ((core l ++ Grammar.trailing l) ++
              Utils.semicolon :: Utils.trimEnd text).
      unfold Utils.indexOf.
      rewrite (indexOf_from_found _ _ _ _ (core_no_semicolon l H)).
      rewrite Z.add_0_l.
      replace (0 <? Z.of_nat (length (core l ++ Grammar.trailing l))) with true
        by (symmetry; apply Z.ltb_lt; unfold core; simpl; lia).
      rewrite substring_prefix, substringFrom_suffix.
      now rewrite (trim_core l _ H Hws), trim_trimEnd.
    - eexists. split; [rewrite Htrim; unfold core; reflexivity|].
      fold (core l). unfold Utils.indexOf.
      pose proof (core_no_semicolon l H) as Hns.
      rewrite forallb_app in Hns. apply andb_true_iff in Hns as (Hns & _).
      rewrite (indexOf_from_absent _ _ _ Hns). reflexivity. }
  destruct Hparts as (r & Hr & Hparts).
  rewrite (parse_of_trimmed _ lineNumber _ r Hr Hsemi). cbv zeta.
  rewrite Hparts. cbn [fst snd].
  rewrite (core_matches l H).
  rewrite (matchAllParams_render _ Hps), (collectParams_bindings _ Hps).
  pose proof (parseFloat_signed false _ (wf_numeral_magnitude _ Hn)) as Hcode.
  unfold Grammar.render_signed in Hcode. simpl in Hcode. rewrite Hcode.
  unfold Grammar.denotation.
  destruct (Grammar.inline_comment l) as [text|]; [|reflexivity].
  destruct (Utils.trim text); reflexivity.
Qed.

(** C8: parseGCodeCommand returns null, and raises no error, exactly when the
    trimmed line is blank, is a pure comment, or does not open with a
    command token, a letter among G, M, T, F followed by a digit.  When the
    line is a command token (whose number may have a fraction) followed by
    parameter pairs of an upper-case letter and a signed number, it returns
    the command with that type, that numeric code, the map sending each
    letter to its signed number, the trimmed text after the first
    semicolon as the comment (none when that text is empty), and the given
    line number. *)
Theorem parseGCodeCommand_grammar (line : string) (lineNumber : number) :
  (Utils.parseGCodeCommand line lineNumber = None <->
   Grammar.skipped line = true) /\
  (forall l : Grammar.CommandLine,
      Grammar.wf_line l = true ->
      Utils.parseGCodeCommand (Utils.str (Grammar.render l)) lineNumber =
      Some (Grammar.denotation l lineNumber)).
Proof.
  split; [apply parse_skipped | intros l H; now apply parse_render].
Qed.

Lemma parseGCodeCommand_grammar_witness :
  Grammar.wf_line Grammar.sampleLine = true /\
  (Utils.parseGCodeCommand "; layer 3" (Num 12) = None <->
   Grammar.skipped "; layer 3" = true) /\
  Utils.parseGCodeCommand (Utils.str (Grammar.render Grammar.sampleLine)) (Num 12) =
  Some (Grammar.denotation Grammar.sampleLine (Num 12)).
Proof.
  split; [reflexivity|].
  destruct (parseGCodeCommand_grammar "; layer 3" (Num 12)) as (Hskip & Hline).
  split; [exact Hskip|].
  apply (Hline Grammar.sampleLine). reflexivity.
Defined.

Example parse_sample_line :
  Utils.str (Grammar.render Grammar.sampleLine) =
    "  G1 X10.5 Y-20E.5 ; move to start "%string /\
  option_map (fun c => (Utils.type c, Utils.code c, Utils.comment c,
                        Utils.params c !! "X"%string,
                        Utils.params c !! "Y"%string,
                        Utils.params c !! "E"%string,
                        Utils.params c !! "Z"%string))
    (Utils.parseGCodeCommand "  G1 X10.5 Y-20E.5 ; move to start " (Num 12)) =
  Some ("G"%string, Num 1, Some "move to start"%string,
        Some (Num 10.5), Some (Num (-20)), Some (Num 0.5), None).
Proof. split; vm_compute; reflexivity. Qed.

Example parse_skips :
  Utils.parseGCodeCommand "   " (Num 1) = None /\
  Utils.parseGCodeCommand "; generated by PrusaSlicer" (Num 2) = None /\
  Utils.parseGCodeCommand "X10 G1" (Num 3) = None /\
  Utils.parseGCodeCommand "G X10" (Num 4) = None.
Proof. repeat split. Qed.

(** * Further properties *)

(** ** Metrics of a comparison *)

Lemma lower_value_wins_witness :
  (2 <= length [Samples.fileA; Samples.fileB])%nat /\
  ComparisonService.includes ComparisonService.defaultMetrics "printTime" = true /\
  ComparisonService.includes ComparisonService.defaultMetrics "material" = true /\
  exists t u,
    m_print_time
      (metrics (ComparisonService.generateComparison
                  [Samples.fileA; Samples.fileB] ComparisonService.defaultMetrics))
      = Some t /\
    m_material_usage
      (metrics (ComparisonService.generateComparison
                  [Samples.fileA; Samples.fileB] ComparisonService.defaultMetrics))
      = Some u /\
    first_minimum (values t) (winner t) /\
    first_minimum (values u) (winner u) /\
    (forall lo hi, mathMin (values t) = Num lo -> mathMax (values t) = Num hi ->
                   ~ (lo == 0)%Q -> difference t = Num (spread_over_min lo hi)) /\
    (forall lo hi, mathMin (values u) = Num lo -> mathMax (values u) = Num hi ->
                   ~ (lo == 0)%Q -> difference u = Num (spread_over_min lo hi)).
Proof.
  split; [simpl; lia|]. split; [reflexivity|]. split; [reflexivity|].
  apply (lower_value_wins [Samples.fileA; Samples.fileB]
           ComparisonService.defaultMetrics); [simpl; lia | reflexivity | reflexivity].
Defined.

Lemma first_minimum_range (xs : list number) (w : Z) :
  first_minimum xs w -> 0 <= w < Z.of_nat (length xs).
Proof.
  intros (k & v & -> & Hk & _). apply lookup_lt_Some in Hk. lia.
Qed.

Lemma first_maximum_range (xs : list number) (w : Z) :
  first_maximum xs w -> 0 <= w < Z.of_nat (length xs).
Proof.
  intros (k & v & -> & Hk & _). apply lookup_lt_Some in Hk. lia.
Qed.

Lemma nonempty_map {A B : Type} (f : A -> B) (l : list A) :
  l <> [] -> map f l <> [].
Proof. destruct l; simpl; congruence. Qed.

(** X2: Every metric with a winner holds one value per file, and for at least
    one file its winner is the index of a file. *)
Theorem winner_is_file_index (analyses : list AnalysisResult)
    (ms : list string) (m : WinnerMetric) :
  analyses <> [] ->
  m_print_time (metrics (ComparisonService.generateComparison analyses ms)) = Some m \/
  m_material_usage (metrics (ComparisonService.generateComparison analyses ms)) = Some m \/
  m_quality_score (metrics (ComparisonService.generateComparison analyses ms)) = Some m ->
  length (values m) = length analyses /\
  length (files (ComparisonService.generateComparison analyses ms)) = length analyses /\
  0 <= winner m < Z.of_nat (length analyses).
Proof.
  intros Hne Hm. simpl in Hm.
  assert (Hcases :
    m = ComparisonService.printTimeMetric analyses \/
    m = ComparisonService.materialMetric analyses \/
    m = ComparisonService.qualityMetric analyses).
  { destruct Hm as [Hm|[Hm|Hm]];
      [destruct (ComparisonService.includes ms "printTime")
      |destruct (ComparisonService.includes ms "material")
      |destruct (ComparisonService.includes ms "quality")];
      try discriminate Hm; injection Hm as <-; auto. }
  split; [|split].
  - destruct Hcases as [->|[->| ->]]; simpl; apply length_map.
  - simpl. apply length_map.
  - destruct Hcases as [->|[->| ->]]; simpl.
    + rewrite <- (length_map (fun a => or_default (geometry a ?. time_estimate) (Num 0))).
      apply first_minimum_range, indexOf_mathMin;
        [now apply nonempty_map | apply values_are_numbers].
    + rewrite <- (length_map
                    (fun a => or_default
                                (geometry a ?. extrusion_stats ?. total_filament)
                                (Num 0))).
      apply first_minimum_range, indexOf_mathMin; [now apply nonempty_map|].
      apply (values_are_numbers
               (fun a => geometry a ?. extrusion_stats ?. total_filament)).
    + rewrite <- (length_map ComparisonService.calculateQualityScore).
      apply first_maximum_range, indexOf_mathMax; [now apply nonempty_map|].
      apply positive_are_numbers, quality_scores_positive.
Qed.

Lemma winner_is_file_index_witness :
  [Samples.fileA; Samples.fileIdle] <> [] /\
  (m_print_time (metrics (ComparisonService.generateComparison
                            [Samples.fileA; Samples.fileIdle] ["printTime"]))
     = Some (ComparisonService.printTimeMetric [Samples.fileA; Samples.fileIdle]) \/
   m_material_usage (metrics (ComparisonService.generateComparison
                                [Samples.fileA; Samples.fileIdle] ["printTime"]))
     = Some (ComparisonService.printTimeMetric [Samples.fileA; Samples.fileIdle]) \/
   m_quality_score (metrics (ComparisonService.generateComparison
                               [Samples.fileA; Samples.fileIdle] ["printTime"]))
     = Some (ComparisonService.printTimeMetric [Samples.fileA; Samples.fileIdle])) /\
  length (values (ComparisonService.printTimeMetric [Samples.fileA; Samples.fileIdle]))
    = length [Samples.fileA; Samples.fileIdle] /\
  length (files (ComparisonService.generateComparison
                   [Samples.fileA; Samples.fileIdle] ["printTime"]))
    = length [Samples.fileA; Samples.fileIdle] /\
  0 <= winner (ComparisonService.printTimeMetric [Samples.fileA; Samples.fileIdle])
    < Z.of_nat (length [Samples.fileA; Samples.fileIdle]).
Proof.
  split; [discriminate|]. split; [left; reflexivity|].
  apply (winner_is_file_index [Samples.fileA; Samples.fileIdle] ["printTime"]);
    [discriminate | left; reflexivity].
Defined.

Lemma spread_over_max_bounds (lo hi : Q) :
  (60 <= lo)%Q -> (lo <= hi)%Q -> (hi <= 100)%Q ->
  (0 <= spread_over_max lo hi <= 40)%Q /\
  ((lo == hi)%Q -> (spread_over_max lo hi == 0)%Q).
Proof.
  intros H60 Hle H100. unfold spread_over_max.
  assert (Hhi : (0 < hi)%Q) by lra.
  assert (H0 : (0 <= (hi - lo) / hi)%Q).
  { apply Qle_shift_div_l; [exact Hhi | lra]. }
  assert (H4 : ((hi - lo) / hi <= 0.4)%Q).
  { apply Qle_shift_div_r; [exact Hhi | lra]. }
  split.
  - set (x := ((hi - lo) / hi)%Q) in *. lra.
  - intros Heq. assert (Hz : (hi - lo == 0)%Q) by lra.
    rewrite Hz. unfold Qdiv. ring.
Qed.

Lemma le_Num_inv (a b : Q) : le (Num a) (Num b) = true -> (a <= b)%Q.
Proof.
  unfold JS.le, JS.compare.
  destruct (Qcompare_spec a b); try discriminate; lra.
Qed.

(** X3: The difference of the quality metric is a finite number between 0 and
    40, and it is 0 when all the scores are equal. *)
Theorem quality_difference_bounded (analyses : list AnalysisResult) :
  exists q,
    difference (ComparisonService.qualityMetric analyses) = Num q /\
    (0 <= q <= 40)%Q /\
    ((forall x y,
         x ∈ values (ComparisonService.qualityMetric analyses) ->
         y ∈ values (ComparisonService.qualityMetric analyses) -> same x y) ->
     (q == 0)%Q).
Proof.
  unfold ComparisonService.qualityMetric. simpl.
  set (xs := map ComparisonService.calculateQualityScore analyses).
  destruct (1 <? Z.of_nat (length xs)) eqn:Hlen.
  2:{ exists 0%Q. split; [reflexivity|]. split; [lra | reflexivity]. }
  apply Z.ltb_lt in Hlen.
  assert (Hpos := quality_scores_positive analyses). fold xs in Hpos.
  assert (Hnum := positive_are_numbers xs Hpos).
  assert (Hne : xs <> []) by (destruct xs; simpl in *; [lia | congruence]).
  destruct (mathMin_spec xs Hne Hnum) as (Hmin_in & Hmin).
  destruct (mathMax_spec xs Hne Hnum) as (Hmax_in & Hmax).
  destruct (proj1 (Forall_forall _ _) Hpos _ Hmin_in) as (lo & Hlo & Hlo60 & _).
  destruct (proj1 (Forall_forall _ _) Hpos _ Hmax_in) as (hi & Hhi & _ & Hhi100).
  assert (Hle : (lo <= hi)%Q).
  { apply le_Num_inv. rewrite <- Hlo, <- Hhi.
    exact (proj1 (Forall_forall _ _) Hmin _ Hmax_in). }
  destruct (spread_over_max_bounds lo hi Hlo60 Hle Hhi100) as (Hb & Hz).
  exists (spread_over_max lo hi). split; [|split].
  - apply spread_max_finite; [assumption | assumption | lra].
  - exact Hb.
  - intros Hall. apply Hz.
    specialize (Hall _ _ Hmin_in Hmax_in). rewrite Hlo, Hhi in Hall. exact Hall.
Qed.

(** ** Suggestions *)

Lemma Qeq_bool_false (x y : Q) : ~ (x == y)%Q -> Qeq_bool x y = false.
Proof.
  intros H. destruct (Qeq_bool x y) eqn:E; [|reflexivity].
  apply Qeq_bool_iff in E. contradiction.
Qed.

Lemma lt_Num (a b : Q) : (a < b)%Q -> lt (Num a) (Num b) = true.
Proof.
  intros H. unfold JS.lt, JS.compare.
  destruct (Qcompare_spec a b); try reflexivity; lra.
Qed.

Lemma truthy_Num (a : Q) : ~ (a == 0)%Q -> truthy (Num a) = true.
Proof. intros H. simpl. now rewrite (Qeq_bool_false _ _ H). Qed.

Lemma layer_height_saving (h t : Q) :
  (0 < h < 0.25)%Q -> (0 < t)%Q ->
  exists q,
    OptimizationService.calculateLayerHeightTimeSaving (Num h) (Num 0.25) (Num t)
      = Num q /\ (q < 0)%Q.
Proof.
  intros Hh Ht. unfold OptimizationService.calculateLayerHeightTimeSaving.
  assert (Hr : (0 < h / 0.25 < 1)%Q).
  { split.
    - apply Qlt_shift_div_l; lra.
    - apply Qlt_shift_div_r; lra. }
  unfold div at 3. change (Qeq_bool 0.25 0) with false. cbv iota.
  unfold div at 2. rewrite (Qeq_bool_false (h / 0.25) 0) by lra.
  unfold sub, neg, add, div. change (Qeq_bool 60 0) with false. cbv iota.
  eexists. split; [reflexivity|].
  set (r := (h / 0.25)%Q) in *.
  assert (Hgt : (t < t / r)%Q).
  { apply Qlt_shift_div_l; [lra|]. nra. }
  apply Qlt_shift_div_r; lra.
Qed.

(** X8: The rule "Increase Layer Height" fires for layers thinner than 0.2 mm
    and reports the time gained by printing at 0.25 mm: the reported value
    is negative whenever the time estimate is positive, since the new time
    is computed as the current time divided by the ratio current/new,
    which is below 1. *)
Theorem increase_layer_height_saving_is_negative (a : AnalysisResult) (h t : Q) :
  profile a ?. layer_height = Some (Num h) ->
  geometry a ?. time_estimate = Some (Num t) ->
  (0 < h < 0.2)%Q -> (0 < t)%Q ->
  exists s q,
    s ∈ OptimizationService.generateSpeedOptimizations a /\
    category s = Speed /\
    title s = "Increase Layer Height"%string /\
    time_saving s = Some [Lit "~"; ToFixed (Num q) 0; Lit " minutes"] /\
    (q < 0)%Q.
Proof.
  intros Hh Ht Hhr Htr.
  destruct (layer_height_saving h t) as (q & Hq & Hneg); [lra | lra |].
  unfold OptimizationService.generateSpeedOptimizations.
  rewrite Hh, Ht.
  rewrite (truthy_Num h) by lra. rewrite (lt_Num h 0.2) by lra.
  unfold or_default. rewrite (truthy_Num t) by lra. cbn [andb].
  rewrite Hq.
  destruct (profile a ?. infill_density) as [d|];
    [destruct (truthy d && gt d (Num 25))|];
  (destruct (profile a ?. print_speed) as [v|];
    [destruct (truthy v && lt v (Num 50))|]);
  destruct (flag (geometry a ?. pattern_detection ?. support_detected));
  simpl;
  (eexists; exists q;
   split; [apply list_elem_of_here | repeat split; try reflexivity; exact Hneg]).
Qed.

Lemma increase_layer_height_saving_is_negative_witness :
  profile (Samples.analysisOf "/uploads/fine.gcode" complete
             (Some (Samples.profileOf (Some (Num 0.1)) None None))
             (Some (Samples.geometryOf (Some (Num 3600)) None None)))
    ?. layer_height = Some (Num 0.1) /\
  geometry (Samples.analysisOf "/uploads/fine.gcode" complete
              (Some (Samples.profileOf (Some (Num 0.1)) None None))
              (Some (Samples.geometryOf (Some (Num 3600)) None None)))
    ?. time_estimate = Some (Num 3600) /\
  (0 < 0.1 < 0.2)%Q /\ (0 < 3600)%Q /\
  exists s q,
    s ∈ OptimizationService.generateSpeedOptimizations
          (Samples.analysisOf "/uploads/fine.gcode" complete
             (Some (Samples.profileOf (Some (Num 0.1)) None None))
             (Some (Samples.geometryOf (Some (Num 3600)) None None))) /\
    category s = Speed /\
    title s = "Increase Layer Height"%string /\
    time_saving s = Some [Lit "~"; ToFixed (Num q) 0; Lit " minutes"] /\
    (q < 0)%Q.
Proof.
  split; [reflexivity|]. split; [reflexivity|].
  split; [split; reflexivity|]. split; [reflexivity|].
  apply (increase_layer_height_saving_is_negative _ 0.1 3600);
    [reflexivity | reflexivity | split; reflexivity | reflexivity].
Defined.

Example layer_height_saving_sample :
  same (OptimizationService.calculateLayerHeightTimeSaving
          (Num 0.1) (Num 0.25) (Num 3600)) (Num (-90)).
Proof. vm_compute. reflexivity. Qed.

(** X11: The score of analyzeForIssues lies between 50 and 100, so that the
    clamp at 0 never acts; it is 100 exactly when no issue is reported, and
    at most four issues are reported. *)
Theorem issue_score_bounds (a : AnalysisResult) :
  exists q,
    OptimizationService.score (OptimizationService.analyzeForIssues a) = Num q /\
    (50 <= q <= 100)%Q /\
    ((q == 100)%Q <->
     OptimizationService.issues (OptimizationService.analyzeForIssues a) = []) /\
    (length (OptimizationService.issues (OptimizationService.analyzeForIssues a))
     <= 4)%nat.
Proof.
  unfold OptimizationService.analyzeForIssues.
  destruct (flag (geometry a ?. pattern_detection ?. bridging_detected));
  destruct (flag (geometry a ?. pattern_detection ?. support_detected));
  (destruct (profile a ?. temperature_nozzle) as [t|];
    [destruct (truthy t && gt t (Num 280))|]);
  (destruct (profile a ?. layer_height) as [h|];
    [destruct (truthy h && lt h (Num 0.1))|]);
  (eexists; split; [cbv; reflexivity|];
   split; [split; vm_compute; discriminate|];
   split; [|simpl; lia];
   split; intros H;
   first [reflexivity | discriminate H | (vm_compute in H; discriminate H)]).
Qed.

Lemma rules_category (c : Category) (a : AnalysisResult)
    (s : OptimizationSuggestion) :
  s ∈ rules_of c a -> category s = c.
Proof.
  intros Hs.
  assert (Hk : forall table,
             sublist (map rule_key (rules_of c a)) table -> rule_key s ∈ table).
  { intros table Hsub. eapply elem_of_sublist; [|exact Hsub].
    apply list_elem_of_In, in_map, list_elem_of_In, Hs. }
  destruct c; simpl in Hk.
  - specialize (Hk _ (speed_rules_fired a)). unfold speed_rules, rule_key in Hk.
    rewrite !elem_of_cons, elem_of_nil in Hk.
    destruct Hk as [H|[H|[H|[H|[]]]]]; now injection H.
  - specialize (Hk _ (material_rules_fired a)). unfold material_rules, rule_key in Hk.
    rewrite !elem_of_cons, elem_of_nil in Hk.
    destruct Hk as [H|[H|[H|[H|[]]]]]; now injection H.
  - specialize (Hk _ (quality_rules_fired a)). unfold quality_rules, rule_key in Hk.
    rewrite !elem_of_cons, elem_of_nil in Hk.
    destruct Hk as [H|[H|[H|[H|[]]]]]; now injection H.
  - specialize (Hk _ (safety_rules_fired a)). unfold safety_rules, rule_key in Hk.
    rewrite !elem_of_cons, elem_of_nil in Hk.
    destruct Hk as [H|[H|[H|[]]]]; now injection H.
Qed.

Lemma gated_elem (b : bool) (l : list OptimizationSuggestion)
    (s : OptimizationSuggestion) :
  s ∈ (if b then l else []) <-> b = true /\ s ∈ l.
Proof.
  destruct b; [tauto|]. rewrite elem_of_nil. split; [tauto | intros (H & _); discriminate].
Qed.

(** X6: A suggestion is returned by generateOptimizations exactly when the rules
    of its category yield it and the category is evaluated: Safety always,
    Quality and Material when they are the priority or carry a constraint,
    and Speed when it is the priority or no maxPrintTime constraint is
    given. *)
Theorem suggestions_follow_gates (a : AnalysisResult)
    (o : OptimizationService.OptimizationProfile) (s : OptimizationSuggestion) :
  s ∈ OptimizationService.generateOptimizations a o <->
  gate (category s) o = true /\ s ∈ rules_of (category s) a.
Proof.
  rewrite (generateOptimizations_perm a o). unfold evaluated.
  rewrite !elem_of_app, !gated_elem.
  fold (gate Speed o) (gate Quality o) (gate Material o).
  change (OptimizationService.generateSpeedOptimizations a) with (rules_of Speed a).
  change (OptimizationService.generateQualityOptimizations a) with (rules_of Quality a).
  change (OptimizationService.generateMaterialOptimizations a) with (rules_of Material a).
  change (OptimizationService.generateSafetyOptimizations a) with (rules_of Safety a).
  split.
  - intros [(Hg & Hs)|[(Hg & Hs)|[(Hg & Hs)|Hs]]];
      rewrite (rules_category _ _ _ Hs); auto.
  - intros (Hg & Hs). destruct (category s); auto.
Qed.

Example speed_rules_without_constraints :
  gate Speed {| OptimizationService.priority := OptimizationService.quality;
                OptimizationService.constraints := None |} = true /\
  gate Speed OptimizationSamples.forQualityBounded = false.
Proof. split; reflexivity. Qed.

(** ** Commands returned by the parser *)

Lemma trim_ws_around (ws1 s ws2 : list ascii) :
  forallb Utils.isWhiteSpace ws1 = true ->
  forallb Utils.isWhiteSpace ws2 = true ->
  Utils.trim (ws1 ++ s ++ ws2) = Utils.trim s.
Proof.
  intros H1 H2. unfold Utils.trim.
  rewrite (trimStart_ws _ _ H1), <- !trim_comm.
  now rewrite (trimEnd_app_ws _ _ H2).
Qed.

(** X13: White space before and after a line does not change what is parsed. *)
Theorem parse_ignores_surrounding_space (line : string) (ws1 ws2 : list ascii)
    (lineNumber : number) :
  forallb Utils.isWhiteSpace ws1 = true ->
  forallb Utils.isWhiteSpace ws2 = true ->
  Utils.parseGCodeCommand (Utils.str (ws1 ++ Utils.chars line ++ ws2)) lineNumber =
  Utils.parseGCodeCommand line lineNumber.
Proof.
  intros H1 H2. unfold Utils.parseGCodeCommand.
  now rewrite chars_str, (trim_ws_around _ _ _ H1 H2).
Qed.

Lemma parse_ignores_surrounding_space_witness :
  forallb Utils.isWhiteSpace (Utils.chars "  ") = true /\
  forallb Utils.isWhiteSpace [ascii_of_nat 13] = true /\
  Utils.parseGCodeCommand
    (Utils.str (Utils.chars "  " ++ Utils.chars "M104 S200" ++ [ascii_of_nat 13]))
    (Num 5) =
  Utils.parseGCodeCommand "M104 S200" (Num 5).
Proof.
  split; [reflexivity|]. split; [reflexivity|].
  apply (parse_ignores_surrounding_space "M104 S200"); reflexivity.
Defined.

Lemma span_fst_all (p : ascii -> bool) (s : list ascii) :
  forallb p (fst (Utils.span p s)) = true.
Proof.
  induction s as [|c s IH]; simpl; [reflexivity|].
  destruct (p c) eqn:Hc; [|reflexivity].
  destruct (Utils.span p s) as (a & b). simpl in *. now rewrite Hc, IH.
Qed.








(** ** [compareTwoFiles] *)

Lemma le_not_lt (a b : number) : le a b = true -> lt b a = false.
Proof. num_order. Qed.

Lemma indexOf_mathMin_pair (x y : number) :
  is_number x -> is_number y ->
  JS.indexOf [x; y] (mathMin [x; y]) = if lt y x then 1 else 0.
Proof.
  intros Hx Hy.
  destruct (indexOf_mathMin [x; y]) as (k & v & -> & Hk & Hle & Hlt);
    [discriminate | repeat constructor; assumption |].
  destruct k as [|[|k]]; simpl in Hk; [| |discriminate].
  - injection Hk as <-.
    rewrite (le_not_lt x y); [reflexivity|].
    apply Hle. apply elem_of_cons. right. apply elem_of_cons. now left.
  - injection Hk as <-. now rewrite (Hlt 0%nat x) by (simpl; auto; lia).
Qed.

Lemma indexOf_mathMax_pair (x y : number) :
  is_number x -> is_number y ->
  JS.indexOf [x; y] (mathMax [x; y]) = if lt x y then 1 else 0.
Proof.
  intros Hx Hy.
  destruct (indexOf_mathMax [x; y]) as (k & v & -> & Hk & Hle & Hlt);
    [discriminate | repeat constructor; assumption |].
  destruct k as [|[|k]]; simpl in Hk; [| |discriminate].
  - injection Hk as <-.
    rewrite (le_not_lt y x); [reflexivity|].
    apply Hle. apply elem_of_cons. right. apply elem_of_cons. now left.
  - injection Hk as <-. now rewrite (Hlt 0%nat x) by (simpl; auto; lia).
Qed.

(** X5: When both analyses succeed, compareTwoFiles names a winner for each of
    the three metrics, by the base name of the file: the second file wins
    the time or the material only with a strictly lower value, and the
    quality only with a strictly higher score; a tie goes to the first
    file. *)
Theorem two_file_winners
    (analyze : nat -> string -> AnalysisOptions -> string + AnalysisResult)
    (filepath1 filepath2 : string) (analysis1 analysis2 : AnalysisResult) :
  analyze 0%nat filepath1 TwoFiles.twoFileOptions = inr analysis1 ->
  analyze 1%nat filepath2 TwoFiles.twoFileOptions = inr analysis2 ->
  let printTime a := or_default (geometry a ?. time_estimate) (Num 0) in
  let filament a :=
    or_default (geometry a ?. extrusion_stats ?. total_filament) (Num 0) in
  let score := ComparisonService.calculateQualityScore in
  let name a := Some (Path.basename (filepath a)) in
  exists r,
    TwoFiles.compareTwoFiles analyze filepath1 filepath2 = inr r /\
    TwoFiles.file1 r = analysis1 /\ TwoFiles.file2 r = analysis2 /\
    TwoFiles.time (TwoFiles.winners r) =
      name (if lt (printTime analysis2) (printTime analysis1)
            then analysis2 else analysis1) /\
    TwoFiles.material (TwoFiles.winners r) =
      name (if lt (filament analysis2) (filament analysis1)
            then analysis2 else analysis1) /\
    TwoFiles.quality (TwoFiles.winners r) =
      name (if lt (score analysis1) (score analysis2)
            then analysis2 else analysis1).
Proof.
  intros H1 H2 printTime filament score name.
  unfold TwoFiles.compareTwoFiles. rewrite H1, H2.
  eexists. split; [reflexivity|].
  cbn [TwoFiles.file1 TwoFiles.file2 TwoFiles.winners TwoFiles.time
       TwoFiles.material TwoFiles.quality].
  split; [reflexivity|]. split; [reflexivity|].
  assert (Hn : forall (f : AnalysisResult -> option number) a,
             is_number (or_default (f a) (Num 0))).
  { intros f a. apply or_default_is_number. discriminate. }
  assert (Hs : forall a, is_number (score a)).
  { intros a. unfold score.
    destruct (calculateQualityScore_positive a) as (q & -> & _).
    discriminate. }
  split; [|split].
  - change (TwoFiles.winner_or_0 _)
      with (JS.indexOf [printTime analysis1; printTime analysis2]
                       (mathMin [printTime analysis1; printTime analysis2])).
    rewrite indexOf_mathMin_pair
      by (apply (Hn (fun a => geometry a ?. time_estimate))).
    now destruct (lt _ _).
  - change (TwoFiles.winner_or_0 _)
      with (JS.indexOf [filament analysis1; filament analysis2]
                       (mathMin [filament analysis1; filament analysis2])).
    rewrite indexOf_mathMin_pair
      by (apply (Hn (fun a => geometry a ?. extrusion_stats ?. total_filament))).
    now destruct (lt _ _).
  - change (TwoFiles.winner_or_0 _)
      with (JS.indexOf [score analysis1; score analysis2]
                       (mathMax [score analysis1; score analysis2])).
    rewrite indexOf_mathMax_pair by apply Hs.
    now destruct (lt _ _).
Qed.

Lemma two_file_winners_witness :
  exists r,
    TwoFiles.compareTwoFiles
      (fun i _ _ => inr (nth i [Samples.fileB; Samples.fileA] Samples.fileA))
      "/uploads/b.gcode" "/uploads/a.gcode" = inr r /\
    TwoFiles.time (TwoFiles.winners r) = Some "a.gcode"%string /\
    TwoFiles.quality (TwoFiles.winners r) = Some "a.gcode"%string.
Proof.
  destruct (two_file_winners
              (fun i _ _ => inr (nth i [Samples.fileB; Samples.fileA] Samples.fileA))
              "/uploads/b.gcode" "/uploads/a.gcode" Samples.fileB Samples.fileA)
    as (r & Hr & _ & _ & Ht & _ & Hq); [reflexivity | reflexivity |].
  exists r. split; [exact Hr|]. split; [exact Ht | exact Hq].
Defined.

(** ** The reports to the progress callback *)

Lemma reports_of_ext (s s' : AnalysisService.Service) (analysisId : string) :
  AnalysisService.reported s' = AnalysisService.reported s ->
  reports_of s' analysisId = reports_of s analysisId.
Proof. unfold reports_of. now intros ->. Qed.

Lemma reports_of_report (s : AnalysisService.Service) (c : AnalysisService.Call)
    (i analysisId : string) (p : number) (st : string) :
  map (fun r => (snd (fst r), snd r))
      (List.filter (fun r => String.eqb (fst (fst r)) analysisId)
                   (AnalysisService.report s c i p st)) =
  reports_of s analysisId ++
  (if AnalysisService.has_callback c && String.eqb i analysisId
   then [(p, st)] else []).
Proof.
  unfold AnalysisService.report, reports_of.
  destruct (AnalysisService.has_callback c); simpl;
    [|now rewrite app_nil_r].
  rewrite List.filter_app, map_app. simpl.
  now destruct (String.eqb i analysisId).
Qed.

Lemma step_other_reports (s : AnalysisService.Service)
    (e : AnalysisService.Event) (analysisId : string) :
  event_id e <> analysisId ->
  reports_of (AnalysisService.step s e) analysisId = reports_of s analysisId.
Proof.
  intros Hne.
  assert (Hb : String.eqb (event_id e) analysisId = false)
    by now apply String.eqb_neq.
  destruct e as [i cb|i|i code ok]; simpl in *;
    destruct (AnalysisService.calls s !! i) as [c|]; try reflexivity;
    try destruct (AnalysisService.interval_active c); try reflexivity.
  - unfold reports_of at 1. simpl. rewrite reports_of_report, Hb, andb_false_r.
    apply app_nil_r.
  - unfold reports_of at 1. simpl.
    destruct ((code =? 0) && ok); [|reflexivity].
    rewrite reports_of_report, Hb, andb_false_r. apply app_nil_r.
Qed.







Example callback_reports_of_a_run :
  reports_of
    (AnalysisService.exec AnalysisService.init
       [AnalysisService.Analyze "a" true; AnalysisService.Analyze "b" false;
        AnalysisService.Tick "a"; AnalysisService.Tick "b";
        AnalysisService.Tick "a"; AnalysisService.Close "a" 0 true;
        AnalysisService.Close "b" 0 true]) "a" =
  [(Num 20, "analyzing"%string); (Num 30, "analyzing"%string);
   (Num 100, "complete"%string)].
Proof. vm_compute. reflexivity. Qed.

(** ** Jobs that run side by side *)

(** X16: Events of other jobs leave a job as it is: its progress record, its
    outcome and what its callback has been told. *)
Theorem other_jobs_do_not_interfere (es : list AnalysisService.Event)
    (analysisId : string) :
  forall s,
    Forall (fun e => event_id e <> analysisId) es ->
    AnalysisService.isProcessing (AnalysisService.exec s es) analysisId =
      AnalysisService.isProcessing s analysisId /\
    AnalysisService.settled (AnalysisService.exec s es) !! analysisId =
      AnalysisService.settled s !! analysisId /\
    reports_of (AnalysisService.exec s es) analysisId = reports_of s analysisId.
Proof.
  induction es as [|e es IH]; intros s Hes; simpl; [auto|].
  inversion Hes as [|? ? He Hes']; subst.
  destruct (IH (AnalysisService.step s e) Hes') as (H1 & H2 & H3).
  destruct (step_other s e analysisId He) as (_ & H5 & H6).
  unfold AnalysisService.isProcessing in *.
  rewrite H1, H2, H3, H5, H6. auto using step_other_reports.
Qed.

Lemma other_jobs_do_not_interfere_witness :
  let s := AnalysisService.exec AnalysisService.init
             [AnalysisService.Analyze "a" true; AnalysisService.Tick "a"] in
  let es := [AnalysisService.Analyze "b" true; AnalysisService.Tick "b";
             AnalysisService.Close "b" 0 true] in
  Forall (fun e => event_id e <> "a"%string) es /\
  AnalysisService.isProcessing (AnalysisService.exec s es) "a" =
    AnalysisService.isProcessing s "a".
Proof.
  intros s es.
  assert (H : Forall (fun e => event_id e <> "a"%string) es)
    by (repeat constructor; discriminate).
  split; [exact H|].
  exact (proj1 (other_jobs_do_not_interfere es "a" s H)).
Defined.

(** ** [getAnalysisStats] *)

(** X17: The statistics count the jobs that are running: the jobs that were
    started and whose child process has not closed yet. *)
Theorem stats_count_running_jobs (es : list AnalysisService.Event) :
  exists ids : list string,
    NoDup ids /\
    (forall analysisId,
        analysisId ∈ ids <-> exists k, phase_of es analysisId = Running k) /\
    AnalysisStats.currentlyProcessing
      (AnalysisStats.getAnalysisStats
         (AnalysisService.exec AnalysisService.init es)) =
    Num (inject_Z (Z.of_nat (length ids))).
Proof.
  set (s := AnalysisService.exec AnalysisService.init es).
  exists ((map_to_list (AnalysisService.processingJobs s)).*1).
  split; [apply NoDup_fst_map_to_list|]. split.
  - intros analysisId.
    pose proof (run_tracks es analysisId) as Ht. fold s in Ht.
    rewrite list_elem_of_fmap. split.
    + intros ((i & r) & -> & Hin). apply elem_of_map_to_list in Hin.
      simpl in *. destruct (phase_of es i) as [|k|]; simpl in Ht.
      * destruct Ht as (_ & Hr & _). rewrite Hr in Hin. discriminate Hin.
      * now exists k.
      * destruct Ht as (c & _ & _ & Hr & _). rewrite Hr in Hin. discriminate Hin.
    + intros (k & Hk). rewrite Hk in Ht. simpl in Ht.
      destruct Ht as (c & r & _ & _ & Hr & _).
      exists (analysisId, r). split; [reflexivity|].
      now apply elem_of_map_to_list.
  - unfold AnalysisStats.getAnalysisStats. simpl.
    now rewrite length_fmap, length_map_to_list.
Qed.

(** ** [calculatePercentageChange] *)




(** ** [isValidGCodeFile] *)






Example valid_gcode_file_samples :
  map SharedUtils.isValidGCodeFile
      ["benchy.gcode"; "BENCHY.GCODE"; "part.v2.G"; "gcode"; "benchy.gcode.txt";
       ".nc"]%string =
  [true; true; true; false; false; true].
Proof. reflexivity. Qed.

(** ** [processChunk] and the parser *)

Lemma trimStart_head (s : list ascii) (c : ascii) (r : list ascii) :
  Utils.trimStart s = c :: r -> Utils.isWhiteSpace c = false.
Proof.
  induction s as [|x s IH]; simpl; [discriminate|].
  destruct (Utils.isWhiteSpace x) eqn:Hx; [exact IH|].
  intros H. injection H as <- _. exact Hx.
Qed.

Lemma trim_head (s : list ascii) (c : ascii) (r : list ascii) :
  Utils.trim s = c :: r -> Utils.isWhiteSpace c = false.
Proof.
  unfold Utils.trim. destruct (Utils.trimStart s) as [|x s'] eqn:E;
    [discriminate|].
  pose proof (trimStart_head _ _ _ E) as Hx.
  rewrite (trimEnd_cons _ _ Hx). intros H. now injection H as <- _.
Qed.

(** The digits at the head of a text are those at the head of its part
    before the comment, trimmed at the end. *)
Lemma span_digits_before_comment (s : list ascii) :
  fst (Utils.span Utils.isDigit
         (Utils.trimEnd (fst (Utils.span not_semicolon s)))) =
  fst (Utils.span Utils.isDigit s).
Proof.
  induction s as [|c s IH]; [reflexivity|].
  cbn [Utils.span]. destruct (not_semicolon c) eqn:Hc.
  - destruct (Utils.span not_semicolon s) as (a & b). cbn [fst] in *.
    destruct (Utils.isDigit c) eqn:Hd.
    + destruct (digit_class c Hd) as (Hw & _).
      rewrite (trimEnd_cons _ _ Hw). cbn [Utils.span]. rewrite Hd.
      destruct (Utils.span Utils.isDigit (Utils.trimEnd a)) as (x & y).
      destruct (Utils.span Utils.isDigit s) as (x' & y').
      cbn [fst] in *. now rewrite IH.
    + simpl. destruct (Utils.trimEnd a); [destruct (Utils.isWhiteSpace c)|];
        simpl; rewrite ?Hd; reflexivity.
  - cbn [fst]. simpl.
    destruct (Utils.isDigit c) eqn:Hd; [|reflexivity].
    destruct (digit_class c Hd) as (_ & _ & _ & _ & _ & _ & _ & Hs).
    unfold not_semicolon in Hc. rewrite Hs in Hc. discriminate Hc.
Qed.

(** The command of a trimmed line that is not a comment. *)
Lemma command_of_trimmed (t : ascii) (r : list ascii) :
  Utils.isWhiteSpace t = false ->
  Ascii.eqb t Utils.semicolon = false ->
  Utils.trim (t :: r) = t :: r ->
  fst (if 0 <? Utils.indexOf (t :: r) Utils.semicolon
       then (Utils.trim (Utils.substring (t :: r) 0
                           (Utils.indexOf (t :: r) Utils.semicolon)),
             Utils.trim (Utils.substringFrom (t :: r)
                           (Utils.indexOf (t :: r) Utils.semicolon + 1)))
       else (t :: r, [])) =
  t :: Utils.trimEnd (fst (Utils.span not_semicolon r)).
Proof.
  intros Hw Hs Ht. rewrite (command_before_semicolon t r Hs Ht).
  cbn [Utils.span]. unfold not_semicolon at 1. rewrite Hs. cbn [negb].
  destruct (Utils.span not_semicolon r) as (a & b). cbn [fst].
  unfold Utils.trim. rewrite (trimStart_keep _ _ Hw).
  apply (trimEnd_cons _ _ Hw).
Qed.

(** What the command pattern gives on a letter followed by a text. *)
Lemma matchCommand_cases (t : ascii) (z : list ascii) :
  let int := fst (Utils.span Utils.isDigit z) in
  if Utils.isCommandLetter t && Grammar.nonempty int then
    exists frac ps,
      forallb Utils.isDigit frac = true /\
      Utils.matchCommand (t :: z) =
      Some ([t],
            Grammar.render_numeral
              {| Grammar.int_digits := int; Grammar.frac_digits := frac |},
            ps)
  else Utils.matchCommand (t :: z) = None.
Proof.
  cbv zeta. unfold Utils.matchCommand.
  destruct (Utils.isCommandLetter t); [|reflexivity]. cbn [andb].
  destruct (Utils.span Utils.isDigit z) as (int & rest1). cbn [fst].
  destruct int as [|i0 ds] eqn:Ei; [reflexivity|]. rewrite <- Ei.
  replace (Grammar.nonempty int) with true by now rewrite Ei.
  assert (H0 : Grammar.render_numeral
                 {| Grammar.int_digits := int; Grammar.frac_digits := [] |} = int).
  { unfold Grammar.render_numeral. simpl. apply app_nil_r. }
  destruct rest1 as [|c rest2].
  { exists [], []. now rewrite H0. }
  destruct (Ascii.eqb_spec c ".") as [->|Hc].
  2:{ eexists [], _. now rewrite H0. }
  pose proof (span_fst_all Utils.isDigit rest2) as Hfrac.
  destruct (Utils.span Utils.isDigit rest2) as (frac & rest3). cbn [fst] in Hfrac.
  destruct frac as [|f fs] eqn:Ef.
  { eexists [], _. now rewrite H0. }
  eexists (f :: fs), _. split; [exact Hfrac | reflexivity].
Qed.

Lemma digits_value_fold (b : list ascii) :
  forall acc,
    fold_left (fun a c => 10 * a + Utils.digit_value c) b acc =
    acc * 10 ^ Z.of_nat (length b) + Utils.digits_value b.
Proof.
  unfold Utils.digits_value.
  induction b as [|c b IH]; intros acc; simpl fold_left.
  - simpl. lia.
  - rewrite (IH (10 * acc + Utils.digit_value c)),
            (IH (10 * 0 + Utils.digit_value c)).
    replace (Z.of_nat (length (c :: b))) with (Z.succ (Z.of_nat (length b)))
      by (simpl length; lia).
    rewrite Z.pow_succ_r by lia. lia.
Qed.

Lemma digits_value_app (a b : list ascii) :
  Utils.digits_value (a ++ b) =
  Utils.digits_value a * 10 ^ Z.of_nat (length b) + Utils.digits_value b.
Proof.
  unfold Utils.digits_value at 1. rewrite fold_left_app.
  apply digits_value_fold.
Qed.

Lemma digits_value_bound (b : list ascii) :
  forallb Utils.isDigit b = true ->
  0 <= Utils.digits_value b < 10 ^ Z.of_nat (length b).
Proof.
  induction b as [|c b IH] using rev_ind; intros Hb.
  - simpl. unfold Utils.digits_value. simpl. lia.
  - rewrite forallb_app in Hb. apply andb_true_iff in Hb as (Hb & Hc).
    simpl in Hc. rewrite andb_true_r in Hc.
    specialize (IH Hb). rewrite digits_value_app, length_app.
    assert (Hd : 0 <= Utils.digits_value [c] <= 9).
    { unfold Utils.digits_value, Utils.digit_value. simpl.
      unfold Utils.isDigit in Hc. apply andb_true_iff in Hc as (H1 & H2).
      apply Nat.leb_le in H1, H2. lia. }
    replace (Z.of_nat (length b + length [c])) with (Z.succ (Z.of_nat (length b)))
      by (simpl length; lia).
    rewrite Z.pow_succ_r by lia. simpl length. change (10 ^ Z.of_nat 1) with 10.
    lia.
Qed.

(** [Math.floor] of a numeral is its integer part. *)
Lemma floor_decimal_value (int frac : list ascii) :
  forallb Utils.isDigit frac = true ->
  floor (Utils.decimal_value false int frac) =
  Num (inject_Z (Utils.digits_value int)).
Proof.
  intros Hf. unfold Utils.decimal_value, floor. f_equal. f_equal.
  destruct frac as [|f fs] eqn:Ef; [apply Qfloor_Z|]. rewrite <- Ef in *.
  unfold Qfloor.
  assert (Hp : Z.pos (10 ^ Pos.of_nat (length frac)) =
               10 ^ Z.of_nat (length frac)).
  { rewrite Pos2Z.inj_pow. f_equal.
    rewrite Ef. simpl length. lia. }
  rewrite Hp, digits_value_app.
  pose proof (digits_value_bound frac Hf) as Hb.
  rewrite Z.div_add_l by lia. rewrite Z.div_small by lia. lia.
Qed.

Lemma type_is (t : ascii) (c : ascii) :
  String.eqb (Utils.str [t]) (String c EmptyString) = Ascii.eqb t c.
Proof. simpl. now destruct (Ascii.eqb t c). Qed.

(** The command that the loop of processChunk records for a line is the
    command that parseGCodeCommand returns for it, when that is a G or an M
    command: with the same type, and with the integer part of its code. *)
Lemma processLine_parse (chunkIndex : number) (i : nat) (text : list ascii)
    (lineNumber : number) :
  ChunkProcessing.processLine chunkIndex i text =
  match Utils.parseGCodeCommand (Utils.str text) lineNumber with
  | Some c =>
      if String.eqb (Utils.type c) "G" || String.eqb (Utils.type c) "M" then
        [{| ChunkProcessing.type := Utils.type c;
            ChunkProcessing.code := floor (Utils.code c);
            ChunkProcessing.line :=
              add (Num (inject_Z (Z.of_nat i))) (mul chunkIndex (Num 1000));
            ChunkProcessing.raw := Utils.str (Utils.trim text) |}]
      else []
  | None => []
  end.
Proof.
  unfold ChunkProcessing.processLine. cbv zeta.
  destruct (Utils.trim text) as [|t r] eqn:Htrim.
  { unfold Utils.parseGCodeCommand. now rewrite chars_str, Htrim. }
  destruct (Ascii.eqb t Utils.semicolon) eqn:Hs.
  { unfold Utils.parseGCodeCommand. rewrite chars_str, Htrim.
    cbn [Utils.startsWithSemicolon orb andb negb]. now rewrite Hs. }
  pose proof (trim_head _ _ _ Htrim) as Hw.
  assert (Hid : Utils.trim (t :: r) = t :: r)
    by (rewrite <- Htrim; apply trim_idem).
  assert (Htrim' : Utils.trim (Utils.chars (Utils.str text)) = t :: r)
    by now rewrite chars_str.
  rewrite (parse_of_trimmed _ lineNumber t r Htrim' Hs). cbv zeta.
  rewrite (command_of_trimmed t r Hw Hs Hid).
  cbn [Utils.startsWithSemicolon andb negb]. rewrite Hs. cbn [negb].
  pose proof (matchCommand_cases t
                (Utils.trimEnd (fst (Utils.span not_semicolon r)))) as Hm.
  cbv zeta in Hm. rewrite span_digits_before_comment in Hm.
  unfold ChunkProcessing.matchGM.
  destruct (Utils.isCommandLetter t && _) eqn:Hc.
  - destruct Hm as (frac & ps & Hfrac & ->).
    apply andb_true_iff in Hc as (Hc & Hne).
    cbn [Utils.type Utils.code]. rewrite !type_is.
    destruct (Ascii.eqb t "G" || Ascii.eqb t "M"); [|reflexivity].
    destruct (fst (Utils.span Utils.isDigit r)) as [|d ds] eqn:Ed;
      [discriminate Hne|].
    pose proof (span_fst_all Utils.isDigit r) as Hint. rewrite Ed in Hint.
    set (n := {| Grammar.int_digits := d :: ds;
                 Grammar.frac_digits := frac |}).
    assert (Hwf : Grammar.wf_magnitude n = true).
    { unfold Grammar.wf_magnitude, Grammar.all. subst n.
      cbn [Grammar.int_digits Grammar.frac_digits].
      now rewrite Hne, Hint, Hfrac. }
    pose proof (parseFloat_signed false n Hwf) as Hv.
    unfold Grammar.render_signed in Hv. simpl app in Hv. rewrite Hv.
    unfold Grammar.value. subst n. cbn [Grammar.int_digits Grammar.frac_digits].
    now rewrite (floor_decimal_value _ _ Hfrac).
  - rewrite Hm. apply andb_false_iff in Hc as [Hc|Hc].
    + replace (Ascii.eqb t "G" || Ascii.eqb t "M") with false; [reflexivity|].
      unfold Utils.isCommandLetter in Hc.
      destruct (Ascii.eqb t "G"), (Ascii.eqb t "M"); simpl in *; congruence.
    + destruct (fst (Utils.span Utils.isDigit r)); [|discriminate Hc].
      now destruct (Ascii.eqb t "G" || Ascii.eqb t "M").
Qed.

Lemma length_concat_imap {A B : Type} (counted : A -> bool) (l : list A) :
  forall f : nat -> A -> list B,
    (forall i x, length (f i x) = if counted x then 1%nat else 0%nat) ->
    length (concat (imap f l)) = length (List.filter counted l).
Proof.
  induction l as [|x l IH]; intros f Hf; simpl; [reflexivity|].
  rewrite length_app, Hf, (IH (f ∘ S)) by (intros; apply Hf).
  now destruct (counted x).
Qed.

(** X14: processChunk counts the lines of the chunk that parseGCodeCommand reads
    as a G or an M command, whatever the line number given to the parser;
    each command it records comes from such a line, with the type of the
    parsed command, the integer part of its code, the index of the line
    offset by 1000 for each chunk, and the trimmed line. *)
Theorem chunk_agrees_with_parser (content : string) (chunkIndex : number)
    (lineNumber : number) :
  let lines := ChunkProcessing.split (Utils.chars content) in
  let counted text :=
    match Utils.parseGCodeCommand (Utils.str text) lineNumber with
    | Some c => String.eqb (Utils.type c) "G" || String.eqb (Utils.type c) "M"
    | None => false
    end in
  ChunkProcessing.commands (ChunkProcessing.processChunk content chunkIndex) =
    Num (inject_Z (Z.of_nat (length (List.filter counted lines)))) /\
  forall cmd,
    cmd ∈ ChunkProcessing.collect content chunkIndex ->
    exists i text c,
      lines !! i = Some text /\
      Utils.parseGCodeCommand (Utils.str text) lineNumber = Some c /\
      ChunkProcessing.type cmd = Utils.type c /\
      (Utils.type c = "G" \/ Utils.type c = "M")%string /\
      ChunkProcessing.code cmd = floor (Utils.code c) /\
      ChunkProcessing.line cmd =
        add (Num (inject_Z (Z.of_nat i))) (mul chunkIndex (Num 1000)) /\
      ChunkProcessing.raw cmd = Utils.str (Utils.trim text).
Proof.
  intros lines counted. split.
  - unfold ChunkProcessing.processChunk, ChunkProcessing.collect.
    cbn [ChunkProcessing.commands]. do 3 f_equal.
    apply length_concat_imap. intros i x.
    rewrite (processLine_parse chunkIndex i x lineNumber). unfold counted.
    destruct (Utils.parseGCodeCommand _ _) as [c|]; [|reflexivity].
    now destruct (_ || _).
  - intros cmd Hin. unfold ChunkProcessing.collect in Hin.
    apply list_elem_of_In, in_concat in Hin as (l' & Hl' & Hcmd).
    apply list_elem_of_In, elem_of_lookup_imap_1 in Hl' as (i & text & -> & Hi).
    rewrite (processLine_parse chunkIndex i text lineNumber) in Hcmd.
    destruct (Utils.parseGCodeCommand _ _) as [c|] eqn:Hp; [|destruct Hcmd].
    destruct (_ || _) eqn:Hty; [|destruct Hcmd].
    destruct Hcmd as [<-|[]]. exists i, text, c.
    repeat split; try reflexivity; try assumption.
    apply orb_true_iff in Hty as [H|H]; apply String.eqb_eq in H; auto.
Qed.

Example chunk_of_three_commands :
  ChunkProcessing.collect
    (Utils.str (Utils.chars "G28 ; home" ++ [ChunkProcessing.newline] ++
                Utils.chars "; comment" ++ [ChunkProcessing.newline] ++
                Utils.chars "T0" ++ [ChunkProcessing.newline] ++
                Utils.chars "  M104.5 S200"))
    (Num 2) =
  [{| ChunkProcessing.type := "G"; ChunkProcessing.code := Num 28;
      ChunkProcessing.line := Num 2000; ChunkProcessing.raw := "G28 ; home" |};
   {| ChunkProcessing.type := "M"; ChunkProcessing.code := Num 104;
      ChunkProcessing.line := Num 2003; ChunkProcessing.raw := "M104.5 S200" |}].
Proof. vm_compute. reflexivity. Qed.

(** ** The layer counts of a comparison *)





(** ** The time shown by the long print warning *)

Lemma gt_inject_Z (x y : Z) :
  gt (Num (inject_Z x)) (Num (inject_Z y)) = (y <? x).
Proof.
  unfold JS.gt, JS.lt, JS.compare.
  destruct (Qcompare_spec (inject_Z y) (inject_Z x)) as [H|H|H];
    symmetry.
  - assert (y = x) by (apply inject_Z_injective; exact H).
    apply Z.ltb_ge. lia.
  - rewrite <- Zlt_Qlt in H. now apply Z.ltb_lt.
  - rewrite <- Zlt_Qlt in H. apply Z.ltb_ge. lia.
Qed.

Lemma rem_nonneg (x y : Q) :
  (0 <= x)%Q -> (0 < y)%Q ->
  rem (Num x) (Num y) = Num (x - y * inject_Z (Qfloor (x / y))).
Proof.
  intros Hx Hy. unfold rem.
  rewrite Qeq_bool_false by (intros H; rewrite H in Hy; lra).
  do 3 f_equal.
  assert (Hq : (0 <= x / y)%Q).
  { apply Qle_shift_div_l; [exact Hy | lra]. }
  destruct (x / y)%Q as [n d]. unfold Qfloor. cbn [Qnum Qden].
  f_equal. apply Z.quot_div_nonneg; [|lia].
  unfold Qle in Hq. simpl in Hq. lia.
Qed.

Lemma floor_bounds (x : Q) (k : Z) :
  Qfloor x = k -> (inject_Z k <= x < inject_Z k + 1)%Q.
Proof.
  intros <-. split; [apply Qfloor_le|].
  pose proof (Qlt_floor x) as H. rewrite inject_Z_plus in H. exact H.
Qed.

(** A print of more than 24 hours is shown as 24 hours and the minutes
    while its 25th hour lasts, and from then on as days and hours, without
    the minutes. *)
Lemma formatTime_long (t : Q) :
  (86400 < t)%Q ->
  let h := Qfloor (t / 3600) in
  24 <= h /\
  (inject_Z h * 3600 <= t < inject_Z h * 3600 + 3600)%Q /\
  exists m r,
    0 <= m < 60 /\
    (inject_Z h * 3600 + inject_Z m * 60 <= t
       < inject_Z h * 3600 + inject_Z m * 60 + 60)%Q /\
    same r (Num (inject_Z (h mod 24))) /\
    OptimizationService.formatTime (Num t) =
    if 24 <? h then
      [Interp (Num (inject_Z (h / 24))); Lit "d "; Interp r; Lit "h"]
    else
      [Interp (Num (inject_Z h)); Lit "h "; Interp (Num (inject_Z m)); Lit "m"].
Proof.
  intros Ht h.
  assert (Eq : (t == t / 3600 * 3600)%Q) by (field; discriminate).
  destruct (floor_bounds (t / 3600) h eq_refl) as (Hlo & Hhi).
  assert (Hh : 24 <= h).
  { assert (H : (inject_Z 24 < inject_Z (h + 1))%Q).
    { rewrite inject_Z_plus. change (inject_Z 24) with 24%Q.
      change (inject_Z 1) with 1%Q. lra. }
    rewrite <- Zlt_Qlt in H. lia. }
  assert (Hbounds : (inject_Z h * 3600 <= t < inject_Z h * 3600 + 3600)%Q) by lra.
  split; [exact Hh|]. split; [exact Hbounds|].
  set (x := ((t - 3600 * inject_Z h) / 60)%Q).
  assert (Ex : (t - 3600 * inject_Z h == x * 60)%Q)
    by (unfold x; field; discriminate).
  destruct (floor_bounds x (Qfloor x) eq_refl) as (Hmlo & Hmhi).
  exists (Qfloor x), (rem (Num (inject_Z h)) (Num 24)).
  split; [|split; [lra|split]].
  - split.
    + change 0 with (Qfloor (inject_Z 0)) at 1.
      apply Qfloor_resp_le. change (inject_Z 0) with 0%Q. lra.
    + assert (H : (inject_Z (Qfloor x) < inject_Z 60)%Q).
      { change (inject_Z 60) with 60%Q. lra. }
      now rewrite <- Zlt_Qlt in H.
  - rewrite rem_nonneg;
      [|change 0%Q with (inject_Z 0); rewrite <- Zle_Qle; lia | reflexivity].
    cbn [same]. change 24%Q with (inject_Z 24). rewrite <- Zdiv_Qdiv.
    assert (E : h mod 24 = h + - (24 * (h / 24)))
      by (rewrite Z.mod_eq by lia; lia).
    rewrite E, inject_Z_plus, inject_Z_opp, inject_Z_mult. reflexivity.
  - unfold OptimizationService.formatTime. cbv zeta.
    assert (Hhours : floor (div (Num t) (Num 3600)) = Num (inject_Z h)) by reflexivity.
    rewrite Hhours.
    change (Num 24) with (Num (inject_Z 24)) at 1.
    change (Num 0) with (Num (inject_Z 0)).
    rewrite !gt_inject_Z.
    destruct (24 <? h) eqn:H24.
    + repeat f_equal. change (Num 24) with (Num (inject_Z 24)).
      unfold div, floor. change (Qeq_bool (inject_Z 24) 0) with false. cbv iota.
      now rewrite <- Zdiv_Qdiv.
    + replace (0 <? h) with true by (symmetry; apply Z.ltb_lt; lia).
      repeat f_equal. rewrite rem_nonneg by lra.
      unfold div, floor. change (Qeq_bool 60 0) with false. cbv iota.
      reflexivity.
Qed.

(** X10: The warning on a long print is given for every estimate above 24
    hours, and the time it shows is never below 24 hours: during the 25th
    hour it reads 24 hours and the minutes, later days and hours without
    minutes. *)
Theorem long_print_warning_time (a : AnalysisResult) (t : Q) :
  geometry a ?. time_estimate = Some (Num t) ->
  (86400 < t)%Q ->
  let h := Qfloor (t / 3600) in
  exists s m r,
    s ∈ OptimizationService.generateSafetyOptimizations a /\
    category s = Safety /\
    title s = "Long Print Duration Warning"%string /\
    24 <= h /\ 0 <= m < 60 /\
    (inject_Z h * 3600 + inject_Z m * 60 <= t
       < inject_Z h * 3600 + inject_Z m * 60 + 60)%Q /\
    same r (Num (inject_Z (h mod 24))) /\
    description s =
      Lit "Estimated print time is " ::
      (if 24 <? h then
         [Interp (Num (inject_Z (h / 24))); Lit "d "; Interp r; Lit "h"]
       else
         [Interp (Num (inject_Z h)); Lit "h "; Interp (Num (inject_Z m)); Lit "m"])
      ++ [Lit ". Consider monitoring and power backup."].
Proof.
  intros Hgeo Ht h.
  destruct (formatTime_long t Ht) as (Hh & Hb & m & r & Hm & Hmb & Hr & E).
  fold h in Hh, Hb, Hmb, Hr, E.
  unfold OptimizationService.generateSafetyOptimizations. cbv zeta.
  rewrite Hgeo.
  assert (Hd : or_default (Some (Num t)) (Num 0) = Num t).
  { unfold or_default. rewrite truthy_Num; [reflexivity|].
    intros H0. rewrite H0 in Ht. lra. }
  rewrite Hd.
  assert (Hgt : gt (Num t) (Num (24 * 3600)) = true) by (apply lt_Num; lra).
  rewrite Hgt.
  eexists. exists m, r.
  split; [apply elem_of_app; right; apply list_elem_of_here|].
  cbn [category title description]. rewrite E.
  repeat split; try reflexivity; try assumption; try apply Hm; apply Hmb.
Qed.

Lemma long_print_warning_time_witness :
  let a := Samples.analysisOf "/uploads/long.gcode" complete None
             (Some (Samples.geometryOf (Some (Num 88200)) None None)) in
  geometry a ?. time_estimate = Some (Num 88200) /\
  (86400 < 88200)%Q /\
  exists s, s ∈ OptimizationService.generateSafetyOptimizations a /\
            title s = "Long Print Duration Warning"%string.
Proof.
  intros a.
  assert (H1 : geometry a ?. time_estimate = Some (Num 88200)) by reflexivity.
  assert (H2 : (86400 < 88200)%Q) by reflexivity.
  split; [exact H1|]. split; [exact H2|].
  destruct (long_print_warning_time a 88200 H1 H2)
    as (s & m & r & Hin & _ & Htitle & _).
  exists s. split; [exact Hin | exact Htitle].
Defined.

Example long_print_times_shown :
  map (fun t =>
         map description
             (OptimizationService.generateSafetyOptimizations
                (Samples.analysisOf "/uploads/long.gcode" complete None
                   (Some (Samples.geometryOf (Some (Num t)) None None)))))
      [86400; 88200; 93600]%Q =
  [[];
   [[Lit "Estimated print time is "; Interp (Num 24); Lit "h ";
     Interp (Num 30); Lit "m";
     Lit ". Consider monitoring and power backup."]];
   [[Lit "Estimated print time is "; Interp (Num 1); Lit "d ";
     Interp (Num 2); Lit "h";
     Lit ". Consider monitoring and power backup."]]].
Proof. vm_compute. reflexivity. Qed.

(** ** Advice that would contradict itself *)









(** ** The filament saved by a lower infill *)

Lemma infill_saving (d m : Q) :
  (20 < d)%Q -> (0 < m)%Q ->
  exists q,
    mul (Num m) (mul (div (sub (Num d) (Num 15)) (Num d)) (Num 0.7)) = Num q /\
    (0.175 * m < q < 0.7 * m)%Q.
Proof.
  intros Hd Hm. unfold sub, neg, add, div.
  rewrite (Qeq_bool_false d 0) by (intros H; rewrite H in Hd; lra).
  cbn [mul]. eexists. split; [reflexivity|].
  match goal with
  | |- context [(?x / d)%Q] => set (r := (x / d)%Q)
  end.
  assert (Hr : (0.25 < r < 1)%Q).
  { unfold r. split.
    - apply Qlt_shift_div_l; lra.
    - apply Qlt_shift_div_r; lra. }
  clearbody r.
  assert (H1 : (m * 0.25 < m * r)%Q) by (apply Qmult_lt_l; lra).
  assert (H2 : (m * r < m * 1)%Q) by (apply Qmult_lt_l; lra).
  assert (E : (m * (r * 0.7) == m * r * 0.7)%Q) by ring.
  split.
  - apply Qlt_le_trans with (m * r * 0.7)%Q; [lra|].
    apply Qle_lteq. right. symmetry. exact E.
  - apply Qle_lt_trans with (m * r * 0.7)%Q; [|lra].
    apply Qle_lteq. right. exact E.
Qed.

(** X9: The rule "Reduce Infill Density" of the material rules fires for every
    infill above 20 % and reports a saving between 17.5 % and 70 % of the
    filament that the print uses. *)
Theorem reduce_infill_saving_bounds (a : AnalysisResult) (d m : Q) :
  profile a ?. infill_density = Some (Num d) ->
  geometry a ?. extrusion_stats ?. total_filament = Some (Num m) ->
  (20 < d)%Q -> (0 < m)%Q ->
  exists s q,
    s ∈ OptimizationService.generateMaterialOptimizations a /\
    category s = Material /\
    title s = "Reduce Infill Density"%string /\
    material_saving s = Some [Lit "~"; ToFixed (Num q) 1; Lit "m filament"] /\
    (0.175 * m < q < 0.7 * m)%Q.
Proof.
  intros Hd Hm Hdr Hmr.
  destruct (infill_saving d m Hdr Hmr) as (q & Hq & Hb).
  unfold OptimizationService.generateMaterialOptimizations.
  rewrite Hd, Hm.
  rewrite (truthy_Num d) by (intros H; rewrite H in Hdr; lra).
  assert (Hgt : gt (Num d) (Num 20) = true) by (apply lt_Num; lra).
  rewrite Hgt. cbn [andb].
  assert (Hdef : or_default (Some (Num m)) (Num 0) = Num m).
  { unfold or_default. rewrite truthy_Num; [reflexivity|].
    intros H; rewrite H in Hmr; lra. }
  rewrite Hdef. cbv zeta. rewrite Hq.
  destruct (profile a ?. extrusion_width) as [ew|];
    [destruct (profile a ?. wall_count) as [wc|];
       [destruct (truthy ew && truthy wc);
          [destruct (gt (mul ew wc) (Num 1.6))|]|]|];
  destruct (flag (geometry a ?. pattern_detection ?. support_detected));
  destruct (gt (Num m) (Num 100));
  simpl;
  (eexists; exists q;
   split; [apply list_elem_of_here | repeat split; try reflexivity; apply Hb]).
Qed.

Lemma reduce_infill_saving_bounds_witness :
  let a := Samples.analysisOf "/uploads/dense.gcode" complete
             (Some (Samples.profileOf None (Some (Num 30)) None))
             (Some {| time_estimate := None;
                      extrusion_stats :=
                        Some {| total_filament := Some (Num 12);
                                estimated_weight := None |};
                      pattern_detection := None |}) in
  profile a ?. infill_density = Some (Num 30) /\
  geometry a ?. extrusion_stats ?. total_filament = Some (Num 12) /\
  (20 < 30)%Q /\ (0 < 12)%Q /\
  exists s, s ∈ OptimizationService.generateMaterialOptimizations a /\
            title s = "Reduce Infill Density"%string.
Proof.
  intros a.
  assert (H1 : profile a ?. infill_density = Some (Num 30)) by reflexivity.
  assert (H2 : geometry a ?. extrusion_stats ?. total_filament = Some (Num 12))
    by reflexivity.
  assert (H3 : (20 < 30)%Q) by reflexivity.
  assert (H4 : (0 < 12)%Q) by reflexivity.
  repeat (split; [assumption|]).
  destruct (reduce_infill_saving_bounds a 30 12 H1 H2 H3 H4)
    as (s & q & Hin & _ & Ht & _).
  exists s. split; [exact Hin | exact Ht].
Defined.
